(** * Verification of the recording/transcription assistant (src/main.py)

    A shallow embedding of the session controller, the capture task, the
    summary requester, the upload path and the settings store of
    [src/main.py], followed by the properties established about them.

    Conventions of the embedding.
    - A Python [str] is a [string]; a character stands for one code point
      below 256.
    - Attributes of the Python objects become fields of records; a method
      becomes a function from the record to the updated record.
    - Write-only outputs (status bar, text panes, console) are kept as the
      list of what was written, oldest first.
    - A [try]/[except] is a match on a [Res] value.
    - What external objects do (a [close()] that raises, a thread that does
      not finish within the timeout, the reply of the text-generation
      service) is an explicit argument of the function that meets it.
    - Opening a file for writing or appending is taken to succeed, and so
      are the [os.makedirs] calls of [load_settings] and of [SettingsDialog];
      style sheets, message boxes and the lines printed by [SettingsDialog]
      and [RecordingThread] are left out.
    - [files] holds the text files the program writes and reads; the
      temporary audio file of a video upload is not among them. *)

From stdpp Require Import gmap strings list pretty.
From Stdlib Require Import Ascii String.

(** ** Python values and exceptions *)

Inductive Res (A : Type) : Type :=
| Ok (a : A)
| Raise (msg : string).
Arguments Ok {A} a.
Arguments Raise {A} msg.

(** The double quote character, for string literals that contain it. *)
Definition dq : string := String (ascii_of_nat 34) EmptyString.
Definition nl : string := String (ascii_of_nat 10) EmptyString.

(** ** String methods of Python used by the program *)

(** [str.isspace] on one code point below 256. *)
Definition py_isspace (c : ascii) : bool :=
  let n := nat_of_ascii c in
  ((9 <=? n) && (n <=? 13)) || ((28 <=? n) && (n <=? 32))
  || (n =? 133) || (n =? 160).

Fixpoint py_lstrip (s : string) : string :=
  match s with
  | EmptyString => EmptyString
  | String c s' => if py_isspace c then py_lstrip s' else s
  end.

Fixpoint py_rstrip (s : string) : string :=
  match s with
  | EmptyString => EmptyString
  | String c s' =>
      match py_rstrip s' with
      | EmptyString => if py_isspace c then EmptyString else String c EmptyString
      | r => String c r
      end
  end.

(** [s.strip()] *)
Definition py_strip (s : string) : string := py_rstrip (py_lstrip s).

(** [s.lower()] on code points below 128. *)
Definition py_lower_char (c : ascii) : ascii :=
  let n := nat_of_ascii c in
  if (65 <=? n) && (n <=? 90) then ascii_of_nat (n + 32) else c.

Fixpoint py_lower (s : string) : string :=
  match s with
  | EmptyString => EmptyString
  | String c s' => String (py_lower_char c) (py_lower s')
  end.

(** [sep.join(l)] *)
Fixpoint py_join (sep : string) (l : list string) : string :=
  match l with
  | [] => EmptyString
  | [x] => x
  | x :: l' => x +:+ sep +:+ py_join sep l'
  end.

(** [s.startswith(p)] *)
Fixpoint py_startswith (p s : string) : bool :=
  match p, s with
  | EmptyString, _ => true
  | String a p', String b s' => Ascii.eqb a b && py_startswith p' s'
  | String _ _, EmptyString => false
  end.

(** [old in s] for a non-empty [old]. *)
Fixpoint py_contains (old s : string) : bool :=
  match s with
  | EmptyString => false
  | String _ s' => py_startswith old s || py_contains old s'
  end.

(** [s.replace(old, new)] for a non-empty [old]: the occurrences of [old]
    are found from the left and do not overlap.  [skip] counts the
    characters of an occurrence already replaced that are still to be
    dropped. *)
Fixpoint py_replace_from (skip : nat) (old new s : string) : string :=
  match s with
  | EmptyString => EmptyString
  | String c s' =>
      match skip with
      | S k => py_replace_from k old new s'
      | O =>
          if py_startswith old s
          then new +:+ py_replace_from (String.length old - 1) old new s'
          else String c (py_replace_from 0 old new s')
      end
  end.

Definition py_replace (old new s : string) : string :=
  py_replace_from 0 old new s.

(** [os.path.join(a, b)] of posixpath, for two components. *)
Fixpoint ends_with_slash (s : string) : bool :=
  match s with
  | EmptyString => false
  | String c EmptyString => Ascii.eqb c "/"
  | String _ s' => ends_with_slash s'
  end.

Definition path_join (a b : string) : string :=
  if py_startswith "/" b then b
  else if String.eqb a EmptyString || ends_with_slash a then a +:+ b
  else a +:+ "/" +:+ b.

(** ** [cleanup_prompt] (module level, lines 22-61) *)

(** The lines of the f-string literal, up to the placeholder. *)
Definition cleanup_prompt_lines : list string :=
  ["Clean up a transcript to enhance readability and coherence.";
    EmptyString;
    "    Focus on removing filler words, correcting grammatical errors, and maintaining the original meaning while ensuring the text flows smoothly.";
    EmptyString;
    "    # Steps";
    EmptyString;
    "    1. **Remove Filler Words:** Identify common filler words such as " +:+ dq +:+ "um," +:+ dq +:+ " " +:+ dq +:+ "uh," +:+ dq +:+ " " +:+ dq +:+ "like," +:+ dq +:+ " and " +:+ dq +:+ "you know," +:+ dq +:+ " and remove them from the transcript.";
    "    ";
    "    2. **Correct Grammatical Errors:** Identify and fix any grammatical errors, such as subject-verb agreement and punctuation mistakes.";
    EmptyString;
    "    3. **Enhance Readability:** Restructure sentences where needed to improve clarity and coherence, ensuring the text flows logically from one point to the next.";
    EmptyString;
    "    4. **Preserve Core Meaning:** While editing, make sure to maintain the original meaning and intent of the transcript.";
    EmptyString;
    "    5. Maintain the original tone of voice and perspective.";
    EmptyString;
    "    6. Suggest improvements to the transcript.";
    EmptyString;
    "  7. Apply suggested improvements in a finalised edited version";
    EmptyString;
    EmptyString;
    "    # Notes";
    EmptyString;
    "    - Avoid removing any essential information that could alter the meaning of the transcript.";
    "    - Pay attention to the context to ensure continuity and coherence in the conversation.";
    EmptyString;
    "    # Example output";
    EmptyString;
    "    %CLEANED UP";
    "   [Provide a clean, edited transcript, formatted as a coherent paragraph or series of paragraphs. Use section headings as appropriate to separate to clarify meaning]";
    EmptyString;
    "    %SUGGESTIONS FOR IMPROVEMENT";
    "    [Critique the transcript and suggest improvements]";
    EmptyString;
    "    %SUGGESTED FINAL";
    "[review suggested improvements and apply into this edited version]";
    EmptyString;
    "    Transcript:";
    "    "].

Definition cleanup_prompt (transcript : string) : string :=
  py_join nl cleanup_prompt_lines +:+ transcript.

(** ** Data model *)

(** A Python value held by one of the settings attributes: what the JSON
    file can give, or the module-level function [cleanup_prompt] itself
    (the default written at line 453). *)
Inductive JValue : Type :=
| JStr (s : string)
| JList (l : list string).

Inductive PyVal : Type :=
| PJson (j : JValue)
| PCleanupPromptFunction.

Definition PStr (s : string) : PyVal := PJson (JStr s).

(** Truth value of a Python object in a condition. *)
Definition j_truthy (j : JValue) : bool :=
  match j with
  | JStr s => negb (String.eqb s EmptyString)
  | JList l => match l with [] => false | _ => true end
  end.

Definition truthy (v : PyVal) : bool :=
  match v with
  | PJson j => j_truthy j
  | PCleanupPromptFunction => true
  end.

(** The settings file on disk. *)
Inductive ConfigFile : Type :=
| NoFile
| Unreadable (err : string)
| JsonObject (o : gmap string JValue).

(** [aai.RealtimeTranscript] and its two subclasses. *)
Inductive RealtimeTranscript : Type :=
| RealtimeFinalTranscript (text : string)
| RealtimePartialTranscript (text : string).

Definition text (t : RealtimeTranscript) : string :=
  match t with
  | RealtimeFinalTranscript s => s
  | RealtimePartialTranscript s => s
  end.

Definition is_final (t : RealtimeTranscript) : bool :=
  match t with
  | RealtimeFinalTranscript _ => true
  | RealtimePartialTranscript _ => false
  end.

(** The signals of [RecordingThread] (lines 302-304) and [QThread.finished]. *)
Inductive Signal : Type :=
| transcript_received (t : RealtimeTranscript)
| error_occurred (msg : string)
| recording_stopped
| finished.

(** Keyword arguments of [aai.RealtimeTranscriber(...)] at lines 323-328,
    the callbacks apart, and of [aai.extras.MicrophoneStream(...)]. *)
Record RealtimeTranscriber : Type := mkRealtimeTranscriber {
  sample_rate : Z;
  end_utterance_silence_threshold : Z
}.

Record MicrophoneStream : Type := mkMicrophoneStream {
  mic_sample_rate : Z
}.

(** The dictionary built at lines 704-707. *)
Record TranscriberConfig : Type := mkTranscriberConfig {
  speaker_labels : bool;
  language_code : string
}.

Inductive Resource : Type := Connection | Microphone.

(** A [RecordingThread] object.  [isRunning] is the state of the QThread;
    [released] lists the external resources whose [close()] has returned,
    oldest first. *)
Record RecordingThread : Type := mkRecordingThread {
  api_key : PyVal;
  is_recording : bool;
  transcriber : option RealtimeTranscriber;
  microphone_stream : option MicrophoneStream;
  transcriber_config : option TranscriberConfig;
  isRunning : bool;
  released : list Resource
}.

(** What the world outside the program does. *)
Record Env : Type := mkEnv {
  home : string;                         (* os.path.expanduser("~") *)
  now : string;                          (* datetime.now().strftime(...) *)
  makedirs_error : option string;        (* os.makedirs raises *)
  connect_error : option string;         (* transcriber.connect() raises *)
  microphone_error : option string;      (* MicrophoneStream(...) raises *)
  stream_data : list RealtimeTranscript; (* transcripts given to on_data *)
  stream_error : option string;          (* error given to on_error *)
  transcriber_close_error : option string; (* transcriber.close() raises *)
  microphone_close_error : option string;  (* microphone_stream.close() raises *)
  wait_in_time : bool                    (* the thread ends within 5000 ms *)
}.

(** The [TranscriberApp] object together with what it acts on.
    - [self_cleanup_prompt] is the attribute [self.cleanup_prompt];
      [gemini_model] is [None] while the attribute has not been assigned;
      [vocab_entry] is [None] while [setup_ui] has not created the widget.
    - [status_bar], [transcript_display] and [debug_display] hold what
      [showMessage], [append]/[setText] and [log_debug] wrote; [console]
      holds the lines printed by the methods of [TranscriberApp].
    - [recording_thread] refers to an object of [threads] by its index.
    - [files] maps a path to the text of the file; [pending] is the queue of
      signals posted by capture tasks and not yet delivered to their slots;
      [llm_requests] lists the model and prompt of each request sent. *)
Record App : Type := mkApp {
  assembly_api_key : PyVal;
  gemini_api_key : PyVal;
  output_dir : PyVal;
  self_cleanup_prompt : PyVal;
  gemini_model : option PyVal;
  name_entry : string;
  vocab_entry : option string;
  multiple_speakers_cb : bool;
  language_combo : string;
  record_button_text : string;
  record_button_enabled : bool;
  upload_button_enabled : bool;
  summarize_button_enabled : bool;
  status_bar : list string;
  transcript_display : list string;
  debug_display : list string;
  console : list string;
  recording_thread : option nat;
  current_output_file : option string;
  files : gmap string string;
  config_file : ConfigFile;
  threads : list RecordingThread;
  pending : list Signal;
  llm_requests : list (PyVal * string)
}.

(** Assignment to one attribute. *)
Definition set_record_button_text (v : string) (a : App) : App :=
  {| assembly_api_key := assembly_api_key a; gemini_api_key :=
     gemini_api_key a; output_dir := output_dir a; self_cleanup_prompt :=
     self_cleanup_prompt a; gemini_model := gemini_model a; name_entry :=
     name_entry a; vocab_entry := vocab_entry a; multiple_speakers_cb :=
     multiple_speakers_cb a; language_combo := language_combo a;
     record_button_text := v; record_button_enabled := record_button_enabled
     a; upload_button_enabled := upload_button_enabled a;
     summarize_button_enabled := summarize_button_enabled a; status_bar :=
     status_bar a; transcript_display := transcript_display a; debug_display
     := debug_display a; console := console a; recording_thread :=
     recording_thread a; current_output_file := current_output_file a; files
     := files a; config_file := config_file a; threads := threads a; pending
     := pending a; llm_requests := llm_requests a |}.

Definition set_record_button_enabled (v : bool) (a : App) : App :=
  {| assembly_api_key := assembly_api_key a; gemini_api_key :=
     gemini_api_key a; output_dir := output_dir a; self_cleanup_prompt :=
     self_cleanup_prompt a; gemini_model := gemini_model a; name_entry :=
     name_entry a; vocab_entry := vocab_entry a; multiple_speakers_cb :=
     multiple_speakers_cb a; language_combo := language_combo a;
     record_button_text := record_button_text a; record_button_enabled := v;
     upload_button_enabled := upload_button_enabled a;
     summarize_button_enabled := summarize_button_enabled a; status_bar :=
     status_bar a; transcript_display := transcript_display a; debug_display
     := debug_display a; console := console a; recording_thread :=
     recording_thread a; current_output_file := current_output_file a; files
     := files a; config_file := config_file a; threads := threads a; pending
     := pending a; llm_requests := llm_requests a |}.

Definition set_upload_button_enabled (v : bool) (a : App) : App :=
  {| assembly_api_key := assembly_api_key a; gemini_api_key :=
     gemini_api_key a; output_dir := output_dir a; self_cleanup_prompt :=
     self_cleanup_prompt a; gemini_model := gemini_model a; name_entry :=
     name_entry a; vocab_entry := vocab_entry a; multiple_speakers_cb :=
     multiple_speakers_cb a; language_combo := language_combo a;
     record_button_text := record_button_text a; record_button_enabled :=
     record_button_enabled a; upload_button_enabled := v;
     summarize_button_enabled := summarize_button_enabled a; status_bar :=
     status_bar a; transcript_display := transcript_display a; debug_display
     := debug_display a; console := console a; recording_thread :=
     recording_thread a; current_output_file := current_output_file a; files
     := files a; config_file := config_file a; threads := threads a; pending
     := pending a; llm_requests := llm_requests a |}.

Definition set_summarize_button_enabled (v : bool) (a : App) : App :=
  {| assembly_api_key := assembly_api_key a; gemini_api_key :=
     gemini_api_key a; output_dir := output_dir a; self_cleanup_prompt :=
     self_cleanup_prompt a; gemini_model := gemini_model a; name_entry :=
     name_entry a; vocab_entry := vocab_entry a; multiple_speakers_cb :=
     multiple_speakers_cb a; language_combo := language_combo a;
     record_button_text := record_button_text a; record_button_enabled :=
     record_button_enabled a; upload_button_enabled := upload_button_enabled
     a; summarize_button_enabled := v; status_bar := status_bar a;
     transcript_display := transcript_display a; debug_display :=
     debug_display a; console := console a; recording_thread :=
     recording_thread a; current_output_file := current_output_file a; files
     := files a; config_file := config_file a; threads := threads a; pending
     := pending a; llm_requests := llm_requests a |}.

Definition set_status_bar (v : list string) (a : App) : App :=
  {| assembly_api_key := assembly_api_key a; gemini_api_key :=
     gemini_api_key a; output_dir := output_dir a; self_cleanup_prompt :=
     self_cleanup_prompt a; gemini_model := gemini_model a; name_entry :=
     name_entry a; vocab_entry := vocab_entry a; multiple_speakers_cb :=
     multiple_speakers_cb a; language_combo := language_combo a;
     record_button_text := record_button_text a; record_button_enabled :=
     record_button_enabled a; upload_button_enabled := upload_button_enabled
     a; summarize_button_enabled := summarize_button_enabled a; status_bar
     := v; transcript_display := transcript_display a; debug_display :=
     debug_display a; console := console a; recording_thread :=
     recording_thread a; current_output_file := current_output_file a; files
     := files a; config_file := config_file a; threads := threads a; pending
     := pending a; llm_requests := llm_requests a |}.

Definition set_transcript_display (v : list string) (a : App) : App :=
  {| assembly_api_key := assembly_api_key a; gemini_api_key :=
     gemini_api_key a; output_dir := output_dir a; self_cleanup_prompt :=
     self_cleanup_prompt a; gemini_model := gemini_model a; name_entry :=
     name_entry a; vocab_entry := vocab_entry a; multiple_speakers_cb :=
     multiple_speakers_cb a; language_combo := language_combo a;
     record_button_text := record_button_text a; record_button_enabled :=
     record_button_enabled a; upload_button_enabled := upload_button_enabled
     a; summarize_button_enabled := summarize_button_enabled a; status_bar
     := status_bar a; transcript_display := v; debug_display :=
     debug_display a; console := console a; recording_thread :=
     recording_thread a; current_output_file := current_output_file a; files
     := files a; config_file := config_file a; threads := threads a; pending
     := pending a; llm_requests := llm_requests a |}.

Definition set_debug_display (v : list string) (a : App) : App :=
  {| assembly_api_key := assembly_api_key a; gemini_api_key :=
     gemini_api_key a; output_dir := output_dir a; self_cleanup_prompt :=
     self_cleanup_prompt a; gemini_model := gemini_model a; name_entry :=
     name_entry a; vocab_entry := vocab_entry a; multiple_speakers_cb :=
     multiple_speakers_cb a; language_combo := language_combo a;
     record_button_text := record_button_text a; record_button_enabled :=
     record_button_enabled a; upload_button_enabled := upload_button_enabled
     a; summarize_button_enabled := summarize_button_enabled a; status_bar
     := status_bar a; transcript_display := transcript_display a;
     debug_display := v; console := console a; recording_thread :=
     recording_thread a; current_output_file := current_output_file a; files
     := files a; config_file := config_file a; threads := threads a; pending
     := pending a; llm_requests := llm_requests a |}.

Definition set_console (v : list string) (a : App) : App :=
  {| assembly_api_key := assembly_api_key a; gemini_api_key :=
     gemini_api_key a; output_dir := output_dir a; self_cleanup_prompt :=
     self_cleanup_prompt a; gemini_model := gemini_model a; name_entry :=
     name_entry a; vocab_entry := vocab_entry a; multiple_speakers_cb :=
     multiple_speakers_cb a; language_combo := language_combo a;
     record_button_text := record_button_text a; record_button_enabled :=
     record_button_enabled a; upload_button_enabled := upload_button_enabled
     a; summarize_button_enabled := summarize_button_enabled a; status_bar
     := status_bar a; transcript_display := transcript_display a;
     debug_display := debug_display a; console := v; recording_thread :=
     recording_thread a; current_output_file := current_output_file a; files
     := files a; config_file := config_file a; threads := threads a; pending
     := pending a; llm_requests := llm_requests a |}.

Definition set_recording_thread (v : option nat) (a : App) : App :=
  {| assembly_api_key := assembly_api_key a; gemini_api_key :=
     gemini_api_key a; output_dir := output_dir a; self_cleanup_prompt :=
     self_cleanup_prompt a; gemini_model := gemini_model a; name_entry :=
     name_entry a; vocab_entry := vocab_entry a; multiple_speakers_cb :=
     multiple_speakers_cb a; language_combo := language_combo a;
     record_button_text := record_button_text a; record_button_enabled :=
     record_button_enabled a; upload_button_enabled := upload_button_enabled
     a; summarize_button_enabled := summarize_button_enabled a; status_bar
     := status_bar a; transcript_display := transcript_display a;
     debug_display := debug_display a; console := console a;
     recording_thread := v; current_output_file := current_output_file a;
     files := files a; config_file := config_file a; threads := threads a;
     pending := pending a; llm_requests := llm_requests a |}.

Definition set_current_output_file (v : option string) (a : App) : App :=
  {| assembly_api_key := assembly_api_key a; gemini_api_key :=
     gemini_api_key a; output_dir := output_dir a; self_cleanup_prompt :=
     self_cleanup_prompt a; gemini_model := gemini_model a; name_entry :=
     name_entry a; vocab_entry := vocab_entry a; multiple_speakers_cb :=
     multiple_speakers_cb a; language_combo := language_combo a;
     record_button_text := record_button_text a; record_button_enabled :=
     record_button_enabled a; upload_button_enabled := upload_button_enabled
     a; summarize_button_enabled := summarize_button_enabled a; status_bar
     := status_bar a; transcript_display := transcript_display a;
     debug_display := debug_display a; console := console a;
     recording_thread := recording_thread a; current_output_file := v; files
     := files a; config_file := config_file a; threads := threads a; pending
     := pending a; llm_requests := llm_requests a |}.

Definition set_files (v : gmap string string) (a : App) : App :=
  {| assembly_api_key := assembly_api_key a; gemini_api_key :=
     gemini_api_key a; output_dir := output_dir a; self_cleanup_prompt :=
     self_cleanup_prompt a; gemini_model := gemini_model a; name_entry :=
     name_entry a; vocab_entry := vocab_entry a; multiple_speakers_cb :=
     multiple_speakers_cb a; language_combo := language_combo a;
     record_button_text := record_button_text a; record_button_enabled :=
     record_button_enabled a; upload_button_enabled := upload_button_enabled
     a; summarize_button_enabled := summarize_button_enabled a; status_bar
     := status_bar a; transcript_display := transcript_display a;
     debug_display := debug_display a; console := console a;
     recording_thread := recording_thread a; current_output_file :=
     current_output_file a; files := v; config_file := config_file a;
     threads := threads a; pending := pending a; llm_requests :=
     llm_requests a |}.

Definition set_config_file (v : ConfigFile) (a : App) : App :=
  {| assembly_api_key := assembly_api_key a; gemini_api_key :=
     gemini_api_key a; output_dir := output_dir a; self_cleanup_prompt :=
     self_cleanup_prompt a; gemini_model := gemini_model a; name_entry :=
     name_entry a; vocab_entry := vocab_entry a; multiple_speakers_cb :=
     multiple_speakers_cb a; language_combo := language_combo a;
     record_button_text := record_button_text a; record_button_enabled :=
     record_button_enabled a; upload_button_enabled := upload_button_enabled
     a; summarize_button_enabled := summarize_button_enabled a; status_bar
     := status_bar a; transcript_display := transcript_display a;
     debug_display := debug_display a; console := console a;
     recording_thread := recording_thread a; current_output_file :=
     current_output_file a; files := files a; config_file := v; threads :=
     threads a; pending := pending a; llm_requests := llm_requests a |}.

Definition set_threads (v : list RecordingThread) (a : App) : App :=
  {| assembly_api_key := assembly_api_key a; gemini_api_key :=
     gemini_api_key a; output_dir := output_dir a; self_cleanup_prompt :=
     self_cleanup_prompt a; gemini_model := gemini_model a; name_entry :=
     name_entry a; vocab_entry := vocab_entry a; multiple_speakers_cb :=
     multiple_speakers_cb a; language_combo := language_combo a;
     record_button_text := record_button_text a; record_button_enabled :=
     record_button_enabled a; upload_button_enabled := upload_button_enabled
     a; summarize_button_enabled := summarize_button_enabled a; status_bar
     := status_bar a; transcript_display := transcript_display a;
     debug_display := debug_display a; console := console a;
     recording_thread := recording_thread a; current_output_file :=
     current_output_file a; files := files a; config_file := config_file a;
     threads := v; pending := pending a; llm_requests := llm_requests a |}.

Definition set_pending (v : list Signal) (a : App) : App :=
  {| assembly_api_key := assembly_api_key a; gemini_api_key :=
     gemini_api_key a; output_dir := output_dir a; self_cleanup_prompt :=
     self_cleanup_prompt a; gemini_model := gemini_model a; name_entry :=
     name_entry a; vocab_entry := vocab_entry a; multiple_speakers_cb :=
     multiple_speakers_cb a; language_combo := language_combo a;
     record_button_text := record_button_text a; record_button_enabled :=
     record_button_enabled a; upload_button_enabled := upload_button_enabled
     a; summarize_button_enabled := summarize_button_enabled a; status_bar
     := status_bar a; transcript_display := transcript_display a;
     debug_display := debug_display a; console := console a;
     recording_thread := recording_thread a; current_output_file :=
     current_output_file a; files := files a; config_file := config_file a;
     threads := threads a; pending := v; llm_requests := llm_requests a |}.

Definition set_llm_requests (v : list (PyVal * string)) (a : App) : App :=
  {| assembly_api_key := assembly_api_key a; gemini_api_key :=
     gemini_api_key a; output_dir := output_dir a; self_cleanup_prompt :=
     self_cleanup_prompt a; gemini_model := gemini_model a; name_entry :=
     name_entry a; vocab_entry := vocab_entry a; multiple_speakers_cb :=
     multiple_speakers_cb a; language_combo := language_combo a;
     record_button_text := record_button_text a; record_button_enabled :=
     record_button_enabled a; upload_button_enabled := upload_button_enabled
     a; summarize_button_enabled := summarize_button_enabled a; status_bar
     := status_bar a; transcript_display := transcript_display a;
     debug_display := debug_display a; console := console a;
     recording_thread := recording_thread a; current_output_file :=
     current_output_file a; files := files a; config_file := config_file a;
     threads := threads a; pending := pending a; llm_requests := v |}.

Definition set_assembly_api_key (v : PyVal) (a : App) : App :=
  {| assembly_api_key := v; gemini_api_key := gemini_api_key a; output_dir
     := output_dir a; self_cleanup_prompt := self_cleanup_prompt a;
     gemini_model := gemini_model a; name_entry := name_entry a; vocab_entry
     := vocab_entry a; multiple_speakers_cb := multiple_speakers_cb a;
     language_combo := language_combo a; record_button_text :=
     record_button_text a; record_button_enabled := record_button_enabled a;
     upload_button_enabled := upload_button_enabled a;
     summarize_button_enabled := summarize_button_enabled a; status_bar :=
     status_bar a; transcript_display := transcript_display a; debug_display
     := debug_display a; console := console a; recording_thread :=
     recording_thread a; current_output_file := current_output_file a; files
     := files a; config_file := config_file a; threads := threads a; pending
     := pending a; llm_requests := llm_requests a |}.

Definition set_gemini_api_key (v : PyVal) (a : App) : App :=
  {| assembly_api_key := assembly_api_key a; gemini_api_key := v; output_dir
     := output_dir a; self_cleanup_prompt := self_cleanup_prompt a;
     gemini_model := gemini_model a; name_entry := name_entry a; vocab_entry
     := vocab_entry a; multiple_speakers_cb := multiple_speakers_cb a;
     language_combo := language_combo a; record_button_text :=
     record_button_text a; record_button_enabled := record_button_enabled a;
     upload_button_enabled := upload_button_enabled a;
     summarize_button_enabled := summarize_button_enabled a; status_bar :=
     status_bar a; transcript_display := transcript_display a; debug_display
     := debug_display a; console := console a; recording_thread :=
     recording_thread a; current_output_file := current_output_file a; files
     := files a; config_file := config_file a; threads := threads a; pending
     := pending a; llm_requests := llm_requests a |}.

Definition set_output_dir (v : PyVal) (a : App) : App :=
  {| assembly_api_key := assembly_api_key a; gemini_api_key :=
     gemini_api_key a; output_dir := v; self_cleanup_prompt :=
     self_cleanup_prompt a; gemini_model := gemini_model a; name_entry :=
     name_entry a; vocab_entry := vocab_entry a; multiple_speakers_cb :=
     multiple_speakers_cb a; language_combo := language_combo a;
     record_button_text := record_button_text a; record_button_enabled :=
     record_button_enabled a; upload_button_enabled := upload_button_enabled
     a; summarize_button_enabled := summarize_button_enabled a; status_bar
     := status_bar a; transcript_display := transcript_display a;
     debug_display := debug_display a; console := console a;
     recording_thread := recording_thread a; current_output_file :=
     current_output_file a; files := files a; config_file := config_file a;
     threads := threads a; pending := pending a; llm_requests :=
     llm_requests a |}.

Definition set_self_cleanup_prompt (v : PyVal) (a : App) : App :=
  {| assembly_api_key := assembly_api_key a; gemini_api_key :=
     gemini_api_key a; output_dir := output_dir a; self_cleanup_prompt := v;
     gemini_model := gemini_model a; name_entry := name_entry a; vocab_entry
     := vocab_entry a; multiple_speakers_cb := multiple_speakers_cb a;
     language_combo := language_combo a; record_button_text :=
     record_button_text a; record_button_enabled := record_button_enabled a;
     upload_button_enabled := upload_button_enabled a;
     summarize_button_enabled := summarize_button_enabled a; status_bar :=
     status_bar a; transcript_display := transcript_display a; debug_display
     := debug_display a; console := console a; recording_thread :=
     recording_thread a; current_output_file := current_output_file a; files
     := files a; config_file := config_file a; threads := threads a; pending
     := pending a; llm_requests := llm_requests a |}.

Definition set_gemini_model (v : option PyVal) (a : App) : App :=
  {| assembly_api_key := assembly_api_key a; gemini_api_key :=
     gemini_api_key a; output_dir := output_dir a; self_cleanup_prompt :=
     self_cleanup_prompt a; gemini_model := v; name_entry := name_entry a;
     vocab_entry := vocab_entry a; multiple_speakers_cb :=
     multiple_speakers_cb a; language_combo := language_combo a;
     record_button_text := record_button_text a; record_button_enabled :=
     record_button_enabled a; upload_button_enabled := upload_button_enabled
     a; summarize_button_enabled := summarize_button_enabled a; status_bar
     := status_bar a; transcript_display := transcript_display a;
     debug_display := debug_display a; console := console a;
     recording_thread := recording_thread a; current_output_file :=
     current_output_file a; files := files a; config_file := config_file a;
     threads := threads a; pending := pending a; llm_requests :=
     llm_requests a |}.

Definition set_vocab_entry (v : option string) (a : App) : App :=
  {| assembly_api_key := assembly_api_key a; gemini_api_key :=
     gemini_api_key a; output_dir := output_dir a; self_cleanup_prompt :=
     self_cleanup_prompt a; gemini_model := gemini_model a; name_entry :=
     name_entry a; vocab_entry := v; multiple_speakers_cb :=
     multiple_speakers_cb a; language_combo := language_combo a;
     record_button_text := record_button_text a; record_button_enabled :=
     record_button_enabled a; upload_button_enabled := upload_button_enabled
     a; summarize_button_enabled := summarize_button_enabled a; status_bar
     := status_bar a; transcript_display := transcript_display a;
     debug_display := debug_display a; console := console a;
     recording_thread := recording_thread a; current_output_file :=
     current_output_file a; files := files a; config_file := config_file a;
     threads := threads a; pending := pending a; llm_requests :=
     llm_requests a |}.

Definition set_name_entry (v : string) (a : App) : App :=
  {| assembly_api_key := assembly_api_key a; gemini_api_key :=
     gemini_api_key a; output_dir := output_dir a; self_cleanup_prompt :=
     self_cleanup_prompt a; gemini_model := gemini_model a; name_entry := v;
     vocab_entry := vocab_entry a; multiple_speakers_cb :=
     multiple_speakers_cb a; language_combo := language_combo a;
     record_button_text := record_button_text a; record_button_enabled :=
     record_button_enabled a; upload_button_enabled := upload_button_enabled
     a; summarize_button_enabled := summarize_button_enabled a; status_bar
     := status_bar a; transcript_display := transcript_display a;
     debug_display := debug_display a; console := console a;
     recording_thread := recording_thread a; current_output_file :=
     current_output_file a; files := files a; config_file := config_file a;
     threads := threads a; pending := pending a; llm_requests :=
     llm_requests a |}.

Definition set_is_recording (v : bool) (th : RecordingThread) : RecordingThread :=
  {| api_key := api_key th; is_recording := v; transcriber := transcriber
     th; microphone_stream := microphone_stream th; transcriber_config :=
     transcriber_config th; isRunning := isRunning th; released := released
     th |}.

Definition set_transcriber (v : option RealtimeTranscriber) (th : RecordingThread) : RecordingThread :=
  {| api_key := api_key th; is_recording := is_recording th; transcriber :=
     v; microphone_stream := microphone_stream th; transcriber_config :=
     transcriber_config th; isRunning := isRunning th; released := released
     th |}.

Definition set_microphone_stream (v : option MicrophoneStream) (th : RecordingThread) : RecordingThread :=
  {| api_key := api_key th; is_recording := is_recording th; transcriber :=
     transcriber th; microphone_stream := v; transcriber_config :=
     transcriber_config th; isRunning := isRunning th; released := released
     th |}.

Definition set_transcriber_config (v : option TranscriberConfig) (th : RecordingThread) : RecordingThread :=
  {| api_key := api_key th; is_recording := is_recording th; transcriber :=
     transcriber th; microphone_stream := microphone_stream th;
     transcriber_config := v; isRunning := isRunning th; released :=
     released th |}.

Definition set_isRunning (v : bool) (th : RecordingThread) : RecordingThread :=
  {| api_key := api_key th; is_recording := is_recording th; transcriber :=
     transcriber th; microphone_stream := microphone_stream th;
     transcriber_config := transcriber_config th; isRunning := v; released
     := released th |}.

Definition set_released (v : list Resource) (th : RecordingThread) : RecordingThread :=
  {| api_key := api_key th; is_recording := is_recording th; transcriber :=
     transcriber th; microphone_stream := microphone_stream th;
     transcriber_config := transcriber_config th; isRunning := isRunning th;
     released := v |}.

(** ** Capture task: [RecordingThread] *)

(** [RecordingThread.__init__] (lines 306-312); [transcriber_config] is
    not assigned there. *)
Definition RecordingThread_init (key : PyVal) : RecordingThread :=
  {| api_key := key; is_recording := false; transcriber := None;
     microphone_stream := None; transcriber_config := None;
     isRunning := false; released := [] |}.

(** [RecordingThread.cleanup] (lines 368-389): the thread after it and the
    signals it emitted.  One [try] block holds both [close()] calls and the
    [emit]; an exception raised in it goes to the [except] clause, which
    emits [error_occurred]. *)
Definition cleanup (env : Env) (th : RecordingThread)
  : RecordingThread * list Signal :=
  let th := set_is_recording false th in
  let after_transcriber :=
    match transcriber th with
    | Some _ =>
        match transcriber_close_error env with
        | Some e => Raise e
        | None =>
            Ok (set_transcriber None
                  (set_released (released th ++ [Connection]) th))
        end
    | None => Ok th
    end in
  match after_transcriber with
  | Raise e => (th, [error_occurred e])
  | Ok th1 =>
      match microphone_stream th1 with
      | Some _ =>
          match microphone_close_error env with
          | Some e => (th1, [error_occurred e])
          | None =>
              (set_microphone_stream None
                 (set_released (released th1 ++ [Microphone]) th1),
               [recording_stopped])
          end
      | None => (th1, [recording_stopped])
      end
  end.

(** [RecordingThread.requestStop] (lines 391-396), called from the thread
    of the user interface: the thread object after it, and the exception
    [transcriber.close()] raised, if any. *)
Definition requestStop (env : Env) (th : RecordingThread)
  : RecordingThread * option string :=
  let th := set_is_recording false th in
  match transcriber th with
  | Some _ =>
      match transcriber_close_error env with
      | Some e => (th, Some e)
      | None => (set_released (released th ++ [Connection]) th, None)
      end
  | None => (th, None)
  end.

(** The [try] block of [RecordingThread.run] (lines 317-340) up to the call
    of [stream], which blocks while audio is sent: the thread at the point
    reached and the exception raised, if any. *)
Definition run_connect (env : Env) (th : RecordingThread)
  : RecordingThread * option string :=
  let th1 :=
    set_transcriber
      (Some {| sample_rate := 44100%Z;
               end_utterance_silence_threshold := 700%Z |}) th in
  match connect_error env with
  | Some e => (th1, Some e)
  | None =>
      match microphone_error env with
      | Some e => (th1, Some e)
      | None =>
          (set_is_recording true
             (set_microphone_stream (Some {| mic_sample_rate := 44100%Z |}) th1),
           None)
      end
  end.

(** What [stream] delivers through the callbacks [_on_data] and [_on_error]
    (lines 351-366). *)
Definition stream_signals (env : Env) : list Signal :=
  map transcript_received (stream_data env)
  ++ match stream_error env with
     | Some e => [error_occurred e]
     | None => []
     end.

(** The [finally] clause of [run] (lines 347-349), after which the thread
    ends and Qt emits [finished]. *)
Definition run_finish (env : Env) (th : RecordingThread)
  : RecordingThread * list Signal :=
  let '(th', sigs) := cleanup env th in
  (set_isRunning false th', sigs ++ [finished]).

(** [RecordingThread.run] when nothing stops it from outside. *)
Definition run (env : Env) (th : RecordingThread)
  : RecordingThread * list Signal :=
  match run_connect env th with
  | (th1, Some e) =>
      let '(th2, sigs) := run_finish env th1 in
      (th2, error_occurred e :: sigs)
  | (th1, None) =>
      let '(th2, sigs) := run_finish env th1 in
      (th2, stream_signals env ++ sigs)
  end.

(** ** Session controller: [TranscriberApp] *)

Definition print (line : string) (a : App) : App :=
  set_console (console a ++ [line]) a.

Definition showMessage (msg : string) (a : App) : App :=
  set_status_bar (status_bar a ++ [msg]) a.

Definition display_append (par : string) (a : App) : App :=
  set_transcript_display (transcript_display a ++ [par]) a.

(** [log_debug] (lines 871-875); an entry of [debug_display] stands for the
    line that starts with the time of day. *)
Definition log_debug (message : string) (a : App) : App :=
  let a := print ("DEBUG: " +:+ message) a in
  set_debug_display (debug_display a ++ [message]) a.

(** [open(path, "a")] followed by [write]. *)
Definition file_append (path content : string) (a : App) : App :=
  set_files (<[path := default EmptyString (files a !! path) +:+ content]> (files a)) a.

(** [open(path, "w")] followed by [write]. *)
Definition file_write (path content : string) (a : App) : App :=
  set_files (<[path := content]> (files a)) a.

(** [validate_api_keys] (lines 853-855) *)
Definition validate_api_keys (a : App) : bool :=
  truthy (assembly_api_key a) && truthy (gemini_api_key a).

(** [update_ui_recording_stopped] (lines 770-791) *)
Definition update_ui_recording_stopped (a : App) : App :=
  let a := set_record_button_enabled true a in
  let a := set_record_button_text "Start Recording" a in
  let a := set_upload_button_enabled true a in
  let a := set_summarize_button_enabled true a in
  showMessage "Recording stopped" a.

(** [handle_transcript] (lines 754-768).  [open] is given
    [self.current_output_file]; with [None] it raises before anything is
    written. *)
Definition handle_transcript (transcript : RealtimeTranscript) (a : App)
  : Res App :=
  if String.eqb (text transcript) EmptyString then Ok a
  else if is_final transcript then
    let text := text transcript +:+ nl in
    match current_output_file a with
    | None => Raise "expected str, bytes or os.PathLike object, not NoneType"
    | Some path =>
        let a := file_append path text a in
        let a := display_append text a in
        Ok (log_debug ("Saved transcript: " +:+ pretty (String.length text)
                       +:+ " chars") a)
    end
  else Ok (print (text transcript) a).

(** [start_recording] (lines 657-726).  The [except] clause first. *)
Definition start_recording_except (e : string) (a : App) : App :=
  let a := print ("Error starting recording: " +:+ e) a in
  let a := log_debug ("Error starting recording: " +:+ e) a in
  let a := showMessage ("Error: " +:+ e) a in
  update_ui_recording_stopped a.

Definition start_recording (env : Env) (a : App) : App :=
  let a := print (nl +:+ "=== Starting Recording ===") a in
  let a := log_debug "Starting recording..." a in
  if negb (validate_api_keys a) then a
  else
    let a := set_record_button_text "Stop Recording" a in
    let a := set_upload_button_enabled false a in
    let a := set_summarize_button_enabled false a in
    let a := showMessage "Initializing recording..." a in
    let session_name := py_strip (name_entry a) in
    let session_name :=
      if String.eqb session_name EmptyString then now env else session_name in
    match output_dir a with
    | PJson (JStr dir) =>
        let session_dir := path_join dir session_name in
        match makedirs_error env with
        | Some e => start_recording_except e a
        | None =>
            let output_file := path_join session_dir "transcript.txt" in
            let th := RecordingThread_init (assembly_api_key a) in
            let config :=
              {| speaker_labels := multiple_speakers_cb a;
                 language_code := py_lower (language_combo a) |} in
            let th := set_transcriber_config (Some config) th in
            let i := List.length (threads a) in
            let a := set_recording_thread (Some i) a in
            let a := set_current_output_file (Some output_file) a in
            set_threads (threads a ++ [set_isRunning true th]) a
        end
    | _ =>
        start_recording_except
          "expected str, bytes or os.PathLike object" a
    end.

(** [stop_recording] (lines 728-752).  When [wait(5000)] succeeds the
    capture task has left [stream], gone through its [finally] clause and
    ended; otherwise [terminate()] ends it where it is, and Qt emits
    [finished] for it. *)
Definition stop_recording_except (e : string) (a : App) : App :=
  let a := log_debug ("Error stopping recording: " +:+ e) a in
  showMessage ("Error: " +:+ e) a.

Definition stop_recording (env : Env) (a : App) : App :=
  let a := set_record_button_enabled false a in
  let a := set_record_button_text "Please wait..." a in
  let a :=
    showMessage "Stopping recording (this may take a few seconds)..." a in
  let a := log_debug "Stopping recording..." a in
  let a :=
    match recording_thread a with
    | Some i =>
        match threads a !! i with
        | Some th =>
            if isRunning th then
              match requestStop env th with
              | (th1, Some e) =>
                  stop_recording_except e
                    (set_threads (<[i := th1]> (threads a)) a)
              | (th1, None) =>
                  if wait_in_time env then
                    let '(th2, sigs) := run_finish env th1 in
                    set_pending (pending a ++ sigs)
                      (set_threads (<[i := th2]> (threads a)) a)
                  else
                    let a := log_debug "Force stopping thread..." a in
                    set_pending (pending a ++ [finished])
                      (set_threads
                         (<[i := set_isRunning false th1]> (threads a)) a)
              end
            else a
        | None => a
        end
    | None => a
    end in
  update_ui_recording_stopped a.

(** [toggle_recording] (lines 650-655) *)
Definition toggle_recording (env : Env) (a : App) : App :=
  if String.eqb (record_button_text a) "Start Recording"
  then start_recording env a
  else stop_recording env a.

(** [handle_thread_finished] (lines 793-799) *)
Definition handle_thread_finished (a : App) : App :=
  let a := log_debug "Recording thread finished" a in
  let a :=
    match recording_thread a with
    | Some _ => set_recording_thread None a
    | None => a
    end in
  update_ui_recording_stopped a.

(** [handle_recording_error] (lines 801-805) *)
Definition handle_recording_error (env : Env) (error_msg : string) (a : App)
  : App :=
  let a := log_debug ("Recording error: " +:+ error_msg) a in
  let a := showMessage ("Error: " +:+ error_msg) a in
  stop_recording env a.

(** The slot each signal is connected to (lines 711-714). *)
Definition dispatch (env : Env) (sig : Signal) (a : App) : Res App :=
  match sig with
  | transcript_received t => handle_transcript t a
  | error_occurred msg => Ok (handle_recording_error env msg a)
  | recording_stopped => Ok (update_ui_recording_stopped a)
  | finished => Ok (handle_thread_finished a)
  end.

(** The event loop of the user interface: the pending signals are
    delivered in order, at most [fuel] of them. *)
Fixpoint process_events (fuel : nat) (env : Env) (a : App) : Res App :=
  match fuel with
  | O => Ok a
  | S fuel' =>
      match pending a with
      | [] => Ok a
      | sig :: rest =>
          match dispatch env sig (set_pending rest a) with
          | Ok a' => process_events fuel' env a'
          | Raise e => Raise e
          end
      end
  end.

(** The capture task referred to by [recording_thread] goes through the
    [try] block of [run] and starts to stream. *)
Definition capture_connects (env : Env) (a : App) : App :=
  match recording_thread a with
  | Some i =>
      match threads a !! i with
      | Some th =>
          match run_connect env th with
          | (th1, None) =>
              set_pending (pending a ++ stream_signals env)
                (set_threads (<[i := th1]> (threads a)) a)
          | (th1, Some e) =>
              let '(th2, sigs) := run_finish env th1 in
              set_pending (pending a ++ error_occurred e :: sigs)
                (set_threads (<[i := th2]> (threads a)) a)
          end
      | None => a
      end
  | None => a
  end.

(** The number of "stopped" notifications the presentation layer was
    given. *)
Definition stopped_notifications (a : App) : nat :=
  List.length (filter (fun m => m = "Recording stopped") (status_bar a)).

(** The number of capture tasks that are running. *)
Definition running_tasks (a : App) : nat :=
  List.length (filter (fun th => isRunning th = true) (threads a)).

(** ** Summary requester *)

(** ["=" * 50] *)
Definition rule50 : string :=
  "==================================================".

(** [create_summary] (lines 807-851).  [llm key model prompt] is the reply
    of [genai.GenerativeModel(model).generate_content(prompt)] under the
    configured key: the text of the response, or the exception raised. *)
Definition create_summary_except (e : string) (a : App) : App :=
  let error_msg := "Error creating summary: " +:+ e in
  let a := log_debug error_msg a in
  showMessage error_msg a.

Definition create_summary (llm : PyVal -> PyVal -> string -> Res string)
  (a : App) : App :=
  let a := log_debug "Creating summary..." a in
  let a := showMessage "Creating summary..." a in
  match current_output_file a with
  | None => create_summary_except "No transcription file available" a
  | Some path =>
      if String.eqb path EmptyString
      then create_summary_except "No transcription file available" a
      else
        match files a !! path with
        | None => create_summary_except "No transcription file available" a
        | Some transcript =>
            if String.eqb (py_strip transcript) EmptyString
            then create_summary_except "Transcription file is empty" a
            else
              match gemini_model a with
              | None =>
                  create_summary_except
                    "'TranscriberApp' object has no attribute 'gemini_model'"
                    a
              | Some model =>
                  let prompt := cleanup_prompt transcript in
                  let a :=
                    set_llm_requests (llm_requests a ++ [(model, prompt)]) a in
                  match llm (gemini_api_key a) model prompt with
                  | Raise e => create_summary_except e a
                  | Ok summary =>
                      let a := display_append (nl +:+ rule50 +:+ nl) a in
                      let a := display_append ("SUMMARY:" +:+ nl) a in
                      let a := display_append summary a in
                      let a := display_append (nl +:+ rule50 +:+ nl) a in
                      let summary_file :=
                        py_replace ".txt" "_summary.txt" path in
                      let a := file_write summary_file summary a in
                      let a :=
                        log_debug ("Summary saved to: " +:+ summary_file) a in
                      showMessage "Summary created successfully" a
                  end
              end
        end
  end.

(** The prompt as the specification words it: the transcript substituted
    for the placeholder of the configured template. *)
Definition spec_prompt (template transcript : string) : string :=
  py_replace "{transcript}" transcript template.

(** ** Config store *)

(** The widgets of [SettingsDialog] (lines 154-251). *)
Record SettingsDialog : Type := mkSettingsDialog {
  assembly_key : string;
  gemini_key : string;
  dir_entry : string;
  prompt_text : string;
  model_combo_items : list string;
  model_combo_index : nat
}.

(** [model_combo.currentText()] *)
Definition currentText (d : SettingsDialog) : string :=
  default EmptyString (model_combo_items d !! model_combo_index d).

(** [model_combo.findText(t)]: the first item equal to [t]. *)
Fixpoint findText (t : string) (items : list string) : option nat :=
  match items with
  | [] => None
  | x :: items' =>
      if String.eqb x t then Some 0
      else match findText t items' with
           | Some i => Some (S i)
           | None => None
           end
  end.

(** The dictionary built at lines 124-130. *)
Definition collect_settings (d : SettingsDialog) : gmap string JValue :=
  <["GEMINI_MODEL" := JStr (currentText d)]>
    (<["CLEANUP_PROMPT" := JStr (py_strip (prompt_text d))]>
       (<["OUTPUT_DIR" := JStr (py_strip (dir_entry d))]>
          (<["GOOGLE_API_KEY" := JStr (py_strip (gemini_key d))]>
             (<["ASSEMBLY_API_KEY" := JStr (py_strip (assembly_key d))]> ∅)))).

(** [SettingsDialog.save_settings] (lines 120-152), on the parent the
    dialog was created with (line 859). *)
Definition save_settings (d : SettingsDialog) (parent : App) : App :=
  let settings := collect_settings d in
  let parent := set_config_file (JsonObject settings) parent in
  let parent := set_assembly_api_key (PStr (py_strip (assembly_key d))) parent in
  let parent := set_gemini_api_key (PStr (py_strip (gemini_key d))) parent in
  let parent := set_output_dir (PStr (py_strip (dir_entry d))) parent in
  let parent :=
    set_self_cleanup_prompt (PStr (py_strip (prompt_text d))) parent in
  set_gemini_model (Some (PStr (currentText d))) parent.

(** [os.path.join(os.path.expanduser("~"), "Documents", "Transcriptions")] *)
Definition default_output_dir (env : Env) : string :=
  path_join (path_join (home env) "Documents") "Transcriptions".

(** [settings.get(key, default)] *)
Definition settings_get (o : gmap string JValue) (key : string)
  (dflt : PyVal) : PyVal :=
  match o !! key with
  | Some j => PJson j
  | None => dflt
  end.

(** [', '.join(vocab_list)]; a string is joined character by character. *)
Fixpoint characters (s : string) : list string :=
  match s with
  | EmptyString => []
  | String c s' => String c EmptyString :: characters s'
  end.

Definition join_vocabulary (j : JValue) : string :=
  match j with
  | JList l => py_join ", " l
  | JStr s => py_join ", " (characters s)
  end.

(** [TranscriberApp.load_settings] (lines 443-476).  The [except] clause
    first. *)
Definition load_settings_except (env : Env) (e : string) (a : App) : App :=
  let a := print ("Error loading settings: " +:+ e) a in
  let a := set_assembly_api_key (PStr EmptyString) a in
  let a := set_gemini_api_key (PStr EmptyString) a in
  let a := set_output_dir (PStr (default_output_dir env)) a in
  let a := set_self_cleanup_prompt (PStr (cleanup_prompt EmptyString)) a in
  set_gemini_model (Some (PStr "gemini-1.5-flash")) a.

Definition load_settings (env : Env) (a : App) : App :=
  match config_file a with
  | NoFile => print "No existing settings file found, using defaults" a
  | Unreadable e => load_settings_except env e a
  | JsonObject settings =>
      let a :=
        set_assembly_api_key
          (settings_get settings "ASSEMBLY_API_KEY" (PStr EmptyString)) a in
      let a :=
        set_gemini_api_key
          (settings_get settings "GOOGLE_API_KEY" (PStr EmptyString)) a in
      let a :=
        set_output_dir
          (settings_get settings "OUTPUT_DIR" (PStr (default_output_dir env)))
          a in
      let a :=
        set_self_cleanup_prompt
          (settings_get settings "CLEANUP_PROMPT" PCleanupPromptFunction) a in
      let a :=
        set_gemini_model
          (Some (settings_get settings "GEMINI_MODEL"
                   (PStr "gemini-1.5-flash"))) a in
      let vocab_list := default (JList []) (settings !! "CUSTOM_VOCABULARY") in
      if j_truthy vocab_list then
        match vocab_entry a with
        | Some _ =>
            let a := set_vocab_entry (Some (join_vocabulary vocab_list)) a in
            print "Settings loaded successfully" a
        | None =>
            load_settings_except env
              "'TranscriberApp' object has no attribute 'vocab_entry'" a
        end
      else print "Settings loaded successfully" a
  end.

(** [SettingsDialog.load_settings] (lines 81-118): the widgets after it.
    [setText] and [findText] take a string; given a list they raise, and
    the [except] clause leaves the widgets as they are at that point.  The
    dialog has no [vocab_entry], so a non-empty vocabulary raises too. *)
Definition set_current_model (model_name : string) (d : SettingsDialog)
  : SettingsDialog :=
  match findText model_name (model_combo_items d) with
  | Some index =>
      {| assembly_key := assembly_key d; gemini_key := gemini_key d;
         dir_entry := dir_entry d; prompt_text := prompt_text d;
         model_combo_items := model_combo_items d;
         model_combo_index := index |}
  | None => d
  end.

Definition dialog_load_settings (env : Env) (file : ConfigFile)
  (d : SettingsDialog) : SettingsDialog :=
  let with_texts k1 k2 k3 k4 :=
    {| assembly_key := k1; gemini_key := k2; dir_entry := k3;
       prompt_text := k4; model_combo_items := model_combo_items d;
       model_combo_index := model_combo_index d |} in
  match file with
  | NoFile =>
      with_texts (assembly_key d) (gemini_key d) (default_output_dir env)
        (cleanup_prompt EmptyString)
  | Unreadable _ => d
  | JsonObject settings =>
      match default (JStr EmptyString) (settings !! "ASSEMBLY_API_KEY") with
      | JList _ => d
      | JStr k1 =>
      match default (JStr EmptyString) (settings !! "GOOGLE_API_KEY") with
      | JList _ =>
          with_texts k1 (gemini_key d) (dir_entry d) (prompt_text d)
      | JStr k2 =>
      match default (JStr (default_output_dir env))
              (settings !! "OUTPUT_DIR") with
      | JList _ => with_texts k1 k2 (dir_entry d) (prompt_text d)
      | JStr k3 =>
      match default (JStr (cleanup_prompt EmptyString))
              (settings !! "CLEANUP_PROMPT") with
      | JList _ => with_texts k1 k2 k3 (prompt_text d)
      | JStr k4 =>
      match default (JStr "gemini-1.5-flash") (settings !! "GEMINI_MODEL") with
      | JList _ => with_texts k1 k2 k3 k4
      | JStr model_name => set_current_model model_name (with_texts k1 k2 k3 k4)
      end end end end end
  end.

(** ** Upload transcription *)

Record Utterance : Type := mkUtterance {
  speaker : string;
  utterance_text : string
}.

(** The result of [transcriber.transcribe]; [utterances] is [None] when the
    service returned no speaker labels. *)
Record Transcript : Type := mkTranscript {
  transcript_text : string;
  utterances : option (list Utterance)
}.

(** The loop at lines 1031-1033. *)
Definition format_utterances (l : list Utterance) : string :=
  fold_left
    (fun formatted_text utterance =>
       formatted_text +:+ "Speaker " +:+ speaker utterance +:+ ": "
       +:+ utterance_text utterance +:+ nl +:+ nl)
    l EmptyString.

(** [os.path.basename(p)] and [os.path.splitext(p)[0]] on a base name. *)
Fixpoint basename (p : string) : string :=
  match p with
  | EmptyString => EmptyString
  | String c p' =>
      if py_contains "/" p then basename p' else p
  end.

Fixpoint has_other_than_dot (s : string) : bool :=
  match s with
  | EmptyString => false
  | String c s' => negb (Ascii.eqb c ".") || has_other_than_dot s'
  end.

Fixpoint splitext_root (p : string) : string :=
  match p with
  | EmptyString => EmptyString
  | String c p' =>
      if py_contains "." p' then String c (splitext_root p')
      else if Ascii.eqb c "." then EmptyString
      else String c (splitext_root p')
  end.

Definition splitext0 (p : string) : string :=
  let root := splitext_root p in
  if has_other_than_dot root then root else p.

(** [selected.split('(')[-1].strip(')')] (line 1014) *)
Fixpoint after_last_paren (s : string) : string :=
  match s with
  | EmptyString => EmptyString
  | String c s' => if py_contains "(" s then after_last_paren s' else s
  end.

Fixpoint lstrip_paren (s : string) : string :=
  match s with
  | EmptyString => EmptyString
  | String c s' => if Ascii.eqb c ")" then lstrip_paren s' else s
  end.

Fixpoint rstrip_paren (s : string) : string :=
  match s with
  | EmptyString => EmptyString
  | String c s' =>
      match rstrip_paren s' with
      | EmptyString => if Ascii.eqb c ")" then EmptyString
                       else String c EmptyString
      | r => String c r
      end
  end.

Definition selected_language_code (selected : string) : string :=
  rstrip_paren (lstrip_paren (after_last_paren selected)).

(** [os.path.splitext(p)[1]]: the extension starts at the last dot of the
    base name, provided a character other than a dot comes before it. *)
Fixpoint splitext_ext (p : string) : string :=
  match p with
  | EmptyString => EmptyString
  | String c p' =>
      if py_contains "." p' then splitext_ext p'
      else if Ascii.eqb c "." then p
      else splitext_ext p'
  end.

Definition splitext1 (p : string) : string :=
  let name := basename p in
  if has_other_than_dot (splitext_root name) then splitext_ext name
  else EmptyString.

(** The set of line 960, and the test of line 967. *)
Definition video_extensions : list string :=
  [".mp4"; ".mov"; ".avi"; ".mkv"; ".webm"; ".flv"].

Definition is_video_file (file_path : string) : bool :=
  let file_ext := py_lower (splitext1 file_path) in
  existsb (String.eqb file_ext) video_extensions.

(** What the video branch of [upload_audio] meets outside the program.  The
    temporary file holds audio, not text, and is not kept in [files]:
    whether it is there at the end, and whether removing it raises, is
    given here. *)
Record AudioExtraction : Type := mkAudioExtraction {
  temp_makedirs_error : option string; (* os.makedirs(temp_dir) raises *)
  export_error : option string;  (* from_file(...) or export(...) raises *)
  temp_audio_exists : bool;      (* os.path.exists(temp_audio_path) *)
  remove_error : option string   (* os.remove(temp_audio_path) raises *)
}.

(** The path built at lines 972-979. *)
Definition temp_audio_file (env : Env) (dir : string) : string :=
  path_join (path_join dir "_temp") ("temp_audio_" +:+ now env +:+ ".mp3").

(** [upload_audio] (lines 941-1069) for the file chosen in the dialog;
    [file_path] is empty when the dialog was cancelled.  [transcribe file
    config] is the result of [transcriber.transcribe(file, config=config)]
    or the exception it raised.  [temp_audio_path] is the local variable of
    that name, [None] until line 976 assigns it.  The [finally] clause
    (lines 1051-1062) and the inner [except] clause (lines 1046-1049)
    first. *)
Definition upload_audio_finally (media : AudioExtraction)
  (temp_audio_path : option string) (a : App) : App :=
  let a := set_record_button_enabled true a in
  let a := set_upload_button_enabled true a in
  let a := set_summarize_button_enabled true a in
  match temp_audio_path with
  | Some p =>
      if negb (String.eqb p EmptyString) && temp_audio_exists media then
        match remove_error media with
        | Some e => log_debug ("Error removing temp file: " +:+ e) a
        | None => a
        end
      else a
  | None => a
  end.

Definition upload_audio_except (media : AudioExtraction)
  (temp_audio_path : option string) (e : string) (a : App) : App :=
  let error_msg := "Error processing media file: " +:+ e in
  let a := log_debug error_msg a in
  upload_audio_finally media temp_audio_path (showMessage error_msg a).

(** Lines 990-1044, entered with the file to send to the service. *)
Definition upload_audio_transcribe (env : Env) (media : AudioExtraction)
  (transcribe : string -> TranscriberConfig -> Res Transcript)
  (file_path : string) (temp_audio_path : option string)
  (file_to_transcribe : string) (a : App) : App :=
  let stripped := py_strip (name_entry a) in
  let session_name :=
    if String.eqb stripped EmptyString
    then splitext0 (basename file_path) else stripped in
  let a :=
    if String.eqb stripped EmptyString
    then set_name_entry session_name a else a in
  match output_dir a with
  | PJson (JStr dir) =>
      let session_dir := path_join dir session_name in
      match makedirs_error env with
      | Some e => upload_audio_except media temp_audio_path e a
      | None =>
          let output_file := path_join session_dir "transcript.txt" in
          let a := set_current_output_file (Some output_file) a in
          let a := showMessage "Transcribing media file..." a in
          let a := set_record_button_enabled false a in
          let a := set_upload_button_enabled false a in
          let a := set_summarize_button_enabled false a in
          let config :=
            {| speaker_labels := multiple_speakers_cb a;
               language_code :=
                 selected_language_code (language_combo a) |} in
          let a := log_debug "Creating transcriber for file upload..." a in
          match transcribe file_to_transcribe config with
          | Raise e => upload_audio_except media temp_audio_path e a
          | Ok transcript =>
              let written :=
                if multiple_speakers_cb a then
                  match utterances transcript with
                  | Some l => Ok (format_utterances l)
                  | None => Raise "'NoneType' object is not iterable"
                  end
                else Ok (transcript_text transcript) in
              match written with
              | Raise e => upload_audio_except media temp_audio_path e a
              | Ok formatted_text =>
                  let a := file_write output_file formatted_text a in
                  let a := set_transcript_display [formatted_text] a in
                  let a :=
                    log_debug "Transcription processing completed" a in
                  upload_audio_finally media temp_audio_path
                    (showMessage "Transcription completed successfully" a)
              end
          end
      end
  | _ =>
      upload_audio_except media temp_audio_path
        "expected str, bytes or os.PathLike object" a
  end.

Definition upload_audio (env : Env) (media : AudioExtraction)
  (transcribe : string -> TranscriberConfig -> Res Transcript)
  (file_path : string) (a : App) : App :=
  if negb (validate_api_keys a) then a
  else if String.eqb file_path EmptyString then a
  else if is_video_file file_path then
    let a := showMessage "Extracting audio from video..." a in
    let a := log_debug "Extracting audio from video file..." a in
    match output_dir a with
    | PJson (JStr dir) =>
        match temp_makedirs_error media with
        | Some e => upload_audio_except media None e a
        | None =>
            let temp_audio_path := temp_audio_file env dir in
            match export_error media with
            | Some e => upload_audio_except media (Some temp_audio_path) e a
            | None =>
                upload_audio_transcribe env media transcribe file_path
                  (Some temp_audio_path) temp_audio_path a
            end
        end
    | _ =>
        upload_audio_except media None
          "expected str, bytes or os.PathLike object" a
    end
  else upload_audio_transcribe env media transcribe file_path None file_path a.

(** ** Delivery of transcript events *)

(** The events reach [handle_transcript] one at a time, in order. *)
Fixpoint deliver (events : list RealtimeTranscript) (a : App) : Res App :=
  match events with
  | [] => Ok a
  | t :: events' =>
      match handle_transcript t a with
      | Ok a' => deliver events' a'
      | Raise e => Raise e
      end
  end.

(** The text of the file at [path]; a file that does not exist has none. *)
Definition file_text (path : string) (a : App) : string :=
  default EmptyString (files a !! path).

(** The transcript as the specification words it: the text of each final
    event followed by a newline, in order. *)
Fixpoint spec_transcript (events : list RealtimeTranscript) : string :=
  match events with
  | [] => EmptyString
  | t :: events' =>
      (if is_final t then text t +:+ nl else EmptyString)
      +:+ spec_transcript events'
  end.

Definition nonempty_text (t : RealtimeTranscript) : bool :=
  negb (String.eqb (text t) EmptyString).

(** ** Example states *)

(** An initial state used by the examples: both keys present, no session
    yet, nothing on disk. *)
Definition app0 : App :=
  {| assembly_api_key := PStr "aai-key"; gemini_api_key := PStr "g-key";
     output_dir := PStr "/out";
     self_cleanup_prompt := PStr (cleanup_prompt EmptyString);
     gemini_model := Some (PStr "gemini-1.5-flash");
     name_entry := "standup"; vocab_entry := Some EmptyString;
     multiple_speakers_cb := false; language_combo := "Global English (en)";
     record_button_text := "Start Recording"; record_button_enabled := true;
     upload_button_enabled := true; summarize_button_enabled := false;
     status_bar := ["Ready"]; transcript_display := []; debug_display := [];
     console := []; recording_thread := None; current_output_file := None;
     files := ∅; config_file := NoFile; threads := []; pending := [];
     llm_requests := [] |}.

Definition env0 : Env :=
  {| home := "/home/u"; now := "20240101_120000"; makedirs_error := None;
     connect_error := None; microphone_error := None; stream_data := [];
     stream_error := None; transcriber_close_error := None;
     microphone_close_error := None; wait_in_time := true |}.

(** The session that [start_recording] opens from [app0]. *)
Definition recording0 : App := capture_connects env0 (start_recording env0 app0).

(** The same world, except that closing the streaming connection raises. *)
Definition env_close_raises : Env :=
  {| home := "/home/u"; now := "20240101_120000"; makedirs_error := None;
     connect_error := None; microphone_error := None; stream_data := [];
     stream_error := None;
     transcriber_close_error := Some "connection reset";
     microphone_close_error := None; wait_in_time := true |}.

(** The same world, except that the capture task does not end within the
    timeout of [stop_recording]. *)
Definition env_timeout : Env :=
  {| home := "/home/u"; now := "20240101_120000"; makedirs_error := None;
     connect_error := None; microphone_error := None; stream_data := [];
     stream_error := None; transcriber_close_error := None;
     microphone_close_error := None; wait_in_time := false |}.

(** A capture task that is streaming: connection and microphone are open. *)
Definition streaming_thread : RecordingThread :=
  fst (run_connect env0 (set_isRunning true (RecordingThread_init (PStr "aai-key")))).

(** [app0] with diarization ticked, French selected and two vocabulary
    terms entered. *)
Definition app_french : App :=
  {| assembly_api_key := PStr "aai-key"; gemini_api_key := PStr "g-key";
     output_dir := PStr "/out";
     self_cleanup_prompt := PStr (cleanup_prompt EmptyString);
     gemini_model := Some (PStr "gemini-1.5-flash");
     name_entry := "standup"; vocab_entry := Some "PyQt6, JSON";
     multiple_speakers_cb := true; language_combo := "French (fr)";
     record_button_text := "Start Recording"; record_button_enabled := true;
     upload_button_enabled := true; summarize_button_enabled := false;
     status_bar := ["Ready"]; transcript_display := []; debug_display := [];
     console := []; recording_thread := None; current_output_file := None;
     files := ∅; config_file := NoFile; threads := []; pending := [];
     llm_requests := [] |}.

(** A session whose transcript file holds one line, with a prompt template
    configured in the settings. *)
Definition app_summary : App :=
  set_self_cleanup_prompt (PStr "Clean: {transcript}")
    (set_files {["/out/standup/transcript.txt" := "Hello world." +:+ nl]}
       (set_current_output_file (Some "/out/standup/transcript.txt") app0)).

(** A text-generation service that answers every request alike. *)
Definition llm0 (key model : PyVal) (prompt : string) : Res string :=
  Ok "Hello, world.".


(** The settings dialog with a key typed after a space. *)
Definition dialog0 : SettingsDialog :=
  {| assembly_key := " aai-key"; gemini_key := "g-key"; dir_entry := "/out";
     prompt_text := "Clean: {transcript}";
     model_combo_items := ["gemini-1.5-pro"; "gemini-1.5-flash"];
     model_combo_index := 1 |}.

(** The same dialog with the space removed. *)
Definition dialog1 : SettingsDialog :=
  {| assembly_key := "aai-key"; gemini_key := "g-key"; dir_entry := "/out";
     prompt_text := "Clean: {transcript}";
     model_combo_items := ["gemini-1.5-pro"; "gemini-1.5-flash"];
     model_combo_index := 1 |}.

(** A speech service that returns two utterances. *)
Definition transcribe0 (file : string) (config : TranscriberConfig)
  : Res Transcript :=
  Ok {| transcript_text := "Hi Hello";
        utterances := Some [ {| speaker := "A"; utterance_text := "Hi" |};
                             {| speaker := "B"; utterance_text := "Hello" |} ] |}.

(** An extraction in which nothing fails and the temporary file is removed
    at the end. *)
Definition media0 : AudioExtraction :=
  {| temp_makedirs_error := None; export_error := None;
     temp_audio_exists := true; remove_error := None |}.

(** ** Further operations of [TranscriberApp] *)

(** [update_output_path_display] (lines 877-885): the text it sets on
    [output_dir_label], or the exception of [os.path.join] when
    [self.output_dir] is not a string. *)
Definition update_output_path_display (env : Env) (a : App) : Res string :=
  let session_name := py_strip (name_entry a) in
  match output_dir a with
  | PJson (JStr dir) =>
      let full_path :=
        if negb (String.eqb session_name EmptyString)
        then path_join dir session_name
        else path_join dir ("recording_" +:+ now env) in
      Ok ("Output directory: " +:+ full_path)
  | _ => Raise "expected str, bytes or os.PathLike object"
  end.

(** [s.split(',')] *)
Fixpoint py_split_comma (s : string) : list string :=
  match s with
  | EmptyString => [EmptyString]
  | String c s' =>
      if Ascii.eqb c ","
      then EmptyString :: py_split_comma s'
      else match py_split_comma s' with
           | x :: l => String c x :: l
           | [] => [String c EmptyString]
           end
  end.

(** The comprehension [[word.strip() for word in words if word.strip()]]
    (lines 898 and 918). *)
Fixpoint stripped_words (words : list string) : list string :=
  match words with
  | [] => []
  | word :: words' =>
      if String.eqb (py_strip word) EmptyString
      then stripped_words words'
      else py_strip word :: stripped_words words'
  end.

(** [get_custom_vocabulary] (lines 913-918) *)
Definition get_custom_vocabulary (a : App) : Res (list string) :=
  match vocab_entry a with
  | None => Raise "'TranscriberApp' object has no attribute 'vocab_entry'"
  | Some entry =>
      let vocab_text := py_strip entry in
      if String.eqb vocab_text EmptyString then Ok []
      else Ok (stripped_words (py_split_comma vocab_text))
  end.

(** [closeEvent] (lines 887-911).  The dictionary is built entry by entry;
    [self.gemini_model] is read if it has been assigned, and then
    [self.speakers_expected], which no statement of the program assigns:
    the [except] clause prints the error and nothing is written. *)
Definition closeEvent (a : App) : App :=
  match gemini_model a with
  | None =>
      print ("Error saving settings: "
             +:+ "'TranscriberApp' object has no attribute 'gemini_model'") a
  | Some _ =>
      print ("Error saving settings: "
             +:+ "'TranscriberApp' object has no attribute 'speakers_expected'")
        a
  end.

(** [repr(s)] for a [str], which is how an f-string shows the items of a
    list: single quotes unless the text has a single quote and no double
    quote; the quote in use and the backslash are escaped, and so are the
    code points that are not printable. *)
Definition backslash : ascii := ascii_of_nat 92.

Definition hex_digit (n : nat) : ascii :=
  if n <? 10 then ascii_of_nat (48 + n) else ascii_of_nat (87 + n).

Definition py_repr_char (quote c : ascii) : string :=
  let n := nat_of_ascii c in
  if Ascii.eqb c quote || Ascii.eqb c backslash
  then String backslash (String c EmptyString)
  else if n =? 9 then String backslash "t"
  else if n =? 10 then String backslash "n"
  else if n =? 13 then String backslash "r"
  else if (n <? 32) || (n =? 127) || ((128 <=? n) && (n <=? 160))
          || (n =? 173)
  then String backslash
         (String "x"
            (String (hex_digit (n / 16))
               (String (hex_digit (n mod 16)) EmptyString)))
  else String c EmptyString.

Fixpoint py_repr_chars (quote : ascii) (s : string) : string :=
  match s with
  | EmptyString => EmptyString
  | String c s' => py_repr_char quote c +:+ py_repr_chars quote s'
  end.

Definition py_repr (s : string) : string :=
  let quote :=
    if py_contains "'" s && negb (py_contains dq s)
    then ascii_of_nat 34 else ascii_of_nat 39 in
  String quote (py_repr_chars quote s) +:+ String quote EmptyString.

(** [str(l)] for a list of [str]. *)
Definition py_repr_list (l : list string) : string :=
  "[" +:+ py_join ", " (map py_repr l) +:+ "]".

(** [TranscriberApp.fetch_available_models] (lines 920-939): the list it
    returns, and the application with the lines it has logged.
    [list_models] holds the names that [genai.list_models()] gives, or the
    exception raised on the way. *)
Definition default_models : list string :=
  ["gemini-1.5-pro"; "gemini-1.5-flash"].

Definition fetch_available_models (list_models : Res (list string)) (a : App)
  : list string * App :=
  if negb (truthy (gemini_api_key a)) then
    (default_models, log_debug "No API key set, using default models" a)
  else
    let a := log_debug "Fetching available models from Google API..." a in
    match list_models with
    | Raise e =>
        (default_models, log_debug ("Error fetching models: " +:+ e) a)
    | Ok names =>
        let gemini_models :=
          map basename
            (List.filter (fun name => py_contains "gemini" (py_lower name))
               names) in
        let a :=
          log_debug ("Available models: " +:+ py_repr_list gemini_models) a in
        (match gemini_models with
         | [] => default_models
         | _ => gemini_models
         end, a)
    end.

(** The combo box of the dialog once [setup_ui] has filled it (lines
    197-199). *)
Definition with_models (available_models : list string) (d : SettingsDialog)
  : SettingsDialog :=
  {| assembly_key := assembly_key d; gemini_key := gemini_key d;
     dir_entry := dir_entry d; prompt_text := prompt_text d;
     model_combo_items := available_models;
     model_combo_index := model_combo_index d |}.

(** [show_settings] (lines 857-869).  Creating the dialog (line 859) runs
    its [setup_ui], which asks the parent for the models to offer (line
    198).  What the dialog shows at first is [dialog_load_settings]; the
    user may change every text and the selection, so [outcome] gives the
    texts and the selected index at the moment the dialog is accepted,
    which [save_settings] does on its way out, and is [None] when the
    dialog is rejected.  The label refreshed at line 863 is not part of the
    state. *)
Definition show_settings (env : Env) (list_models : Res (list string))
  (outcome : option SettingsDialog) (a : App) : App :=
  let '(available_models, a) := fetch_available_models list_models a in
  match outcome with
  | None => a
  | Some d =>
      let a := save_settings (with_models available_models d) a in
      let a := load_settings env a in
      if validate_api_keys a then
        let a := log_debug "Settings updated successfully" a in
        showMessage "Settings updated successfully" a
      else
        let a := log_debug "Warning: Invalid or missing API keys after update" a in
        showMessage "Warning: Invalid or missing API keys" a
  end.

(** The handle held in [recording_thread] refers to a thread object. *)
Definition handle_valid (a : App) : Prop :=
  match recording_thread a with
  | Some i => i < List.length (threads a)
  | None => True
  end.

(** The texts [handle_transcript] appends to the display for a sequence of
    events, and the lines it prints. *)
Fixpoint displayed_texts (events : list RealtimeTranscript) : list string :=
  match events with
  | [] => []
  | t :: events' =>
      if is_final t && nonempty_text t
      then (text t +:+ nl) :: displayed_texts events'
      else displayed_texts events'
  end.

Fixpoint printed_texts (events : list RealtimeTranscript) : list string :=
  match events with
  | [] => []
  | t :: events' =>
      if negb (is_final t) && nonempty_text t
      then text t :: printed_texts events'
      else printed_texts events'
  end.

(** One block of the transcript of an upload with speaker labels. *)
Definition speaker_block (u : Utterance) : string :=
  "Speaker " +:+ speaker u +:+ ": " +:+ utterance_text u +:+ nl +:+ nl.

Fixpoint concat_strings (l : list string) : string :=
  match l with
  | [] => EmptyString
  | x :: l' => x +:+ concat_strings l'
  end.

(** ** The application as a whole *)

(** What can happen to the application: a click on one of the four buttons
    (connected at lines 584-587; a disabled button emits nothing) together
    with what the click meets - the file chosen and the fate of the
    extraction for an upload, the models listed and the outcome of the
    dialog for the settings -, the window being closed, the capture task
    getting through its [try] block, and the delivery of the next queued
    signal to its slot. *)
Inductive Action : Type :=
| ClickRecord
| ClickUpload (file_path : string) (media : AudioExtraction)
| ClickSummarize
| ClickSettings (list_models : Res (list string))
    (outcome : option SettingsDialog)
| CloseWindow
| TaskConnects
| DeliverSignal.

(** The services the application calls. *)
Record Services : Type := mkServices {
  svc_llm : PyVal -> PyVal -> string -> Res string;
  svc_transcribe : string -> TranscriberConfig -> Res Transcript
}.

Definition perform (env : Env) (svc : Services) (act : Action) (a : App)
  : Res App :=
  match act with
  | ClickRecord =>
      Ok (if record_button_enabled a then toggle_recording env a else a)
  | ClickUpload file_path media =>
      Ok (if upload_button_enabled a
          then upload_audio env media (svc_transcribe svc) file_path a
          else a)
  | ClickSummarize =>
      Ok (if summarize_button_enabled a
          then create_summary (svc_llm svc) a else a)
  | ClickSettings list_models outcome =>
      Ok (show_settings env list_models outcome a)
  | CloseWindow => Ok (closeEvent a)
  | TaskConnects => Ok (capture_connects env a)
  | DeliverSignal =>
      match pending a with
      | [] => Ok a
      | sig :: rest => dispatch env sig (set_pending rest a)
      end
  end.

(** A run: each action meets the world as it is at that moment.  A run may
    let the capture task act more often than a real schedule would; what
    holds of every run holds of the real ones. *)
Fixpoint perform_all (svc : Services) (run : list (Env * Action)) (a : App)
  : Res App :=
  match run with
  | [] => Ok a
  | (env, act) :: run' =>
      match perform env svc act a with
      | Ok a' => perform_all svc run' a'
      | Raise e => Raise e
      end
  end.

(** The settings file holds no vocabulary. *)
Definition no_vocabulary (f : ConfigFile) : Prop :=
  match f with
  | JsonObject o => o !! "CUSTOM_VOCABULARY" = None
  | _ => True
  end.

(** The output path, when set, is [transcript.txt] in some directory. *)
Definition output_path_ok (a : App) : Prop :=
  match current_output_file a with
  | Some path => exists session_dir, path = path_join session_dir "transcript.txt"
  | None => True
  end.

Definition app_invariant (a : App) : Prop :=
  no_vocabulary (config_file a) /\ output_path_ok a.

(** A short run: record, stop, let the two signals through, ask for a
    summary, upload a video, change the settings, open the settings again
    and cancel, close. *)
Definition run0 : list (Env * Action) :=
  [(env0, ClickRecord); (env0, TaskConnects); (env0, ClickRecord);
   (env0, DeliverSignal); (env0, DeliverSignal); (env0, ClickSummarize);
   (env0, ClickUpload "/media/demo.MP4" media0);
   (env0, ClickSettings (Ok ["models/gemini-1.5-pro"; "models/embedding-001"])
            (Some dialog1));
   (env0, ClickSettings (Raise "network down") None); (env0, CloseWindow)].

Definition services0 : Services :=
  {| svc_llm := llm0; svc_transcribe := transcribe0 |}.

(** A world in which the stream delivers three events and nothing fails. *)
Definition env_talk : Env :=
  {| home := "/home/u"; now := "20240101_120000"; makedirs_error := None;
     connect_error := None; microphone_error := None;
     stream_data := [RealtimePartialTranscript "he";
                     RealtimeFinalTranscript "hello";
                     RealtimeFinalTranscript EmptyString];
     stream_error := None; transcriber_close_error := None;
     microphone_close_error := None; wait_in_time := true |}.

(** * Properties *)

Example cleanup_prompt_shape :
  py_startswith "Clean up a transcript" (cleanup_prompt "abc") = true
  /\ String.length (cleanup_prompt "abc") = 1573.
Proof. split; vm_compute; reflexivity. Qed.


Example python_string_methods :
  py_strip ("  a b " +:+ nl) = "a b"
  /\ py_lower "French (FR)" = "french (fr)"
  /\ py_join ", " ["PyQt6"; "JSON"] = "PyQt6, JSON"
  /\ py_replace ".txt" "_summary.txt" "a.txt.txt"
     = "a_summary.txt_summary.txt"
  /\ py_replace ".txt" "_summary.txt" "a.tx.ttxt" = "a.tx.ttxt"
  /\ path_join "/out" "standup" = "/out/standup"
  /\ path_join "/out/" "standup" = "/out/standup"
  /\ path_join "/out" "/tmp/x" = "/tmp/x"
  /\ splitext0 (basename "/media/call.tar.gz") = "call.tar"
  /\ splitext0 (basename "/home/u/.bashrc") = ".bashrc"
  /\ selected_language_code "British English (en_uk)" = "en_uk".
Proof. repeat split; vm_compute; reflexivity. Qed.

(** ** Strings *)

Lemma append_cons (c : ascii) (s1 s2 : string) :
  String c s1 +:+ s2 = String c (s1 +:+ s2).
Proof. reflexivity. Qed.

Lemma append_empty_l (s : string) : EmptyString +:+ s = s.
Proof. reflexivity. Qed.

Lemma append_empty_r (s : string) : s +:+ EmptyString = s.
Proof.
  induction s as [|c s IH]; [reflexivity | now rewrite append_cons, IH].
Qed.

Lemma append_assoc (s1 s2 s3 : string) :
  (s1 +:+ s2) +:+ s3 = s1 +:+ (s2 +:+ s3).
Proof.
  induction s1 as [|c s1 IH]; [reflexivity | now rewrite !append_cons, IH].
Qed.

(** ** The event handler *)

Lemma handle_transcript_file (t : RealtimeTranscript) (a : App) (path : string) :
  current_output_file a = Some path ->
  exists a',
    handle_transcript t a = Ok a'
    /\ current_output_file a' = Some path
    /\ file_text path a'
       = file_text path a
         +:+ (if is_final t && nonempty_text t then text t +:+ nl
              else EmptyString)
    /\ (forall p, p <> path -> files a' !! p = files a !! p).
Proof.
  intros Hpath. unfold handle_transcript, nonempty_text.
  destruct (String.eqb (text t) EmptyString) eqn:Hempty.
  - exists a. simpl. rewrite andb_false_r, append_empty_r. auto.
  - destruct (is_final t); simpl.
    + rewrite Hpath. eexists. split; [reflexivity|]. simpl.
      split; [exact Hpath|]. split.
      * unfold file_text. simpl. now rewrite lookup_insert_eq.
      * intros p Hp. now rewrite lookup_insert_ne.
    + exists (print (text t) a). rewrite append_empty_r. simpl. auto.
Qed.

Lemma spec_transcript_filter_step (t : RealtimeTranscript)
  (events : list RealtimeTranscript) :
  spec_transcript (filter (fun e => nonempty_text e = true) (t :: events))
  = (if is_final t && nonempty_text t then text t +:+ nl else EmptyString)
    +:+ spec_transcript (filter (fun e => nonempty_text e = true) events).
Proof.
  rewrite filter_cons. destruct (decide (nonempty_text t = true)) as [H|H].
  - simpl. rewrite H, andb_true_r. reflexivity.
  - apply not_true_is_false in H. rewrite H, andb_false_r. reflexivity.
Qed.

(** C9. An event whose text is empty leaves everything as it was, the file
    and the display included, whether the event is final or not. *)
Theorem handle_transcript_empty_text (t : RealtimeTranscript) (a : App) :
  text t = EmptyString -> handle_transcript t a = Ok a.
Proof.
  intros H. unfold handle_transcript. rewrite H. reflexivity.
Qed.

Lemma handle_transcript_empty_text_witness :
  handle_transcript (RealtimeFinalTranscript EmptyString) app0 = Ok app0.
Proof.
  apply (handle_transcript_empty_text (RealtimeFinalTranscript EmptyString) app0).
  reflexivity.
Defined.

(** C1, as amended. During a session the events delivered to the handler
    append to the transcript file the text of each final event whose text
    is not empty, followed by one newline, in delivery order; partial
    events and events with empty text add nothing, and no other file is
    touched. *)
Theorem deliver_appends_nonempty_finals
  (events : list RealtimeTranscript) (a : App) (path : string) :
  current_output_file a = Some path ->
  exists a',
    deliver events a = Ok a'
    /\ file_text path a'
       = file_text path a
         +:+ spec_transcript
               (filter (fun e => nonempty_text e = true) events)
    /\ (forall p, p <> path -> files a' !! p = files a !! p).
Proof.
  revert a. induction events as [|t events IH]; intros a Hpath.
  - exists a. simpl. rewrite append_empty_r. auto.
  - destruct (handle_transcript_file t a path Hpath)
      as (a1 & Hstep & Hpath1 & Htext1 & Hother1).
    destruct (IH a1 Hpath1) as (a2 & Hrest & Htext2 & Hother2).
    exists a2. simpl. rewrite Hstep. split; [exact Hrest|]. split.
    + rewrite Htext2, Htext1, spec_transcript_filter_step.
      now rewrite append_assoc.
    + intros p Hp. rewrite Hother2, Hother1; auto.
Qed.

(** C1, counterexample. A final event with empty text is delivered to a
    fresh session: the specification's transcript is one newline, the file
    holds nothing. *)
Lemma deliver_empty_final_counterexample :
  exists a',
    current_output_file recording0 = Some "/out/standup/transcript.txt"
    /\ file_text "/out/standup/transcript.txt" recording0 = EmptyString
    /\ deliver [RealtimeFinalTranscript EmptyString] recording0 = Ok a'
    /\ file_text "/out/standup/transcript.txt" a'
       <> spec_transcript [RealtimeFinalTranscript EmptyString].
Proof.
  eexists. split; [reflexivity|]. split; [reflexivity|].
  split; [reflexivity|]. vm_compute. discriminate.
Qed.

Lemma deliver_appends_nonempty_finals_witness :
  exists a',
    deliver [RealtimePartialTranscript "he"; RealtimeFinalTranscript "hello";
             RealtimeFinalTranscript EmptyString] recording0 = Ok a'
    /\ file_text "/out/standup/transcript.txt" a' = "hello" +:+ nl.
Proof.
  destruct (deliver_appends_nonempty_finals
              [RealtimePartialTranscript "he"; RealtimeFinalTranscript "hello";
               RealtimeFinalTranscript EmptyString]
              recording0 "/out/standup/transcript.txt" eq_refl)
    as (a' & Hrun & Htext & _).
  exists a'. split; [exact Hrun|]. rewrite Htext. reflexivity.
Defined.

(** ** The stop sequence *)

Lemma stopped_notifications_app (a : App) (msgs : list string) :
  List.length (filter (fun m => m = "Recording stopped") (status_bar a ++ msgs))
  = stopped_notifications a
    + List.length (filter (fun m => m = "Recording stopped") msgs).
Proof. unfold stopped_notifications. now rewrite filter_app, length_app. Qed.

Lemma error_message_not_stopped (e : string) :
  "Error: " +:+ e <> "Recording stopped".
Proof. rewrite append_cons. discriminate. Qed.

Lemma update_ui_recording_stopped_status (a : App) :
  status_bar (update_ui_recording_stopped a)
  = status_bar a ++ ["Recording stopped"].
Proof. reflexivity. Qed.

(** What [stop_recording] shows in the status bar: its first message, the
    error message when [requestStop] raised, and the notification. *)
Lemma stop_recording_status (env : Env) (a : App) :
  exists errors,
    status_bar (stop_recording env a)
    = status_bar a
      ++ "Stopping recording (this may take a few seconds)..." :: errors
      ++ ["Recording stopped"]
    /\ (errors = [] \/ exists e, errors = ["Error: " +:+ e]).
Proof.
  unfold stop_recording.
  rewrite update_ui_recording_stopped_status. simpl.
  destruct (recording_thread a) as [i|]; simpl.
  2:{ exists []. rewrite <- app_assoc. auto. }
  destruct (threads a !! i) as [th|]; simpl.
  2:{ exists []. rewrite <- app_assoc. auto. }
  destruct (isRunning th); simpl.
  2:{ exists []. rewrite <- app_assoc. auto. }
  destruct (requestStop env th) as [th1 [e|]]; simpl.
  { exists ["Error: " +:+ e]. rewrite <- !app_assoc. eauto. }
  destruct (wait_in_time env); simpl.
  - destruct (run_finish env th1) as [th2 sigs]. simpl.
    exists []. rewrite <- app_assoc. auto.
  - exists []. rewrite <- app_assoc. auto.
Qed.

Lemma handle_thread_finished_status (a : App) :
  status_bar (handle_thread_finished a)
  = status_bar a ++ ["Recording stopped"].
Proof.
  unfold handle_thread_finished. simpl.
  destruct (recording_thread a); reflexivity.
Qed.

Lemma dispatch_keeps_notifications (env : Env) (sig : Signal) (a a' : App) :
  dispatch env sig a = Ok a' ->
  stopped_notifications a <= stopped_notifications a'.
Proof.
  destruct sig as [t|msg| |]; simpl.
  - unfold handle_transcript.
    destruct (String.eqb (text t) EmptyString); [intros [= <-]; lia|].
    destruct (is_final t).
    + destruct (current_output_file a); [|discriminate].
      intros [= <-]. unfold stopped_notifications. simpl. lia.
    + intros [= <-]. unfold stopped_notifications. simpl. lia.
  - intros [= <-]. unfold handle_recording_error.
    destruct (stop_recording_status env
                (showMessage ("Error: " +:+ msg)
                   (log_debug ("Recording error: " +:+ msg) a)))
      as (errors & Hs & _).
    unfold stopped_notifications. rewrite Hs. simpl status_bar.
    rewrite <- app_assoc, filter_app, length_app. lia.
  - intros [= <-]. unfold stopped_notifications.
    rewrite update_ui_recording_stopped_status, filter_app, length_app. lia.
  - intros [= <-]. unfold stopped_notifications.
    rewrite handle_thread_finished_status, filter_app, length_app. lia.
Qed.

Lemma process_events_keeps_notifications (fuel : nat) (env : Env) (a a' : App) :
  process_events fuel env a = Ok a' ->
  stopped_notifications a <= stopped_notifications a'.
Proof.
  revert a. induction fuel as [|fuel IH]; intros a; simpl.
  - intros [= <-]. lia.
  - destruct (pending a) as [|sig rest] eqn:Hp; [intros [= <-]; lia|].
    destruct (dispatch env sig (set_pending rest a)) as [a1|e] eqn:Hd;
      [|discriminate].
    intros Hrest. apply IH in Hrest.
    apply dispatch_keeps_notifications in Hd.
    unfold stopped_notifications in *. simpl in Hd. lia.
Qed.

(** C3, as amended. Every call of [stop_recording] gives the presentation
    layer the "stopped" notification exactly once by itself, whatever the
    capture task does (it ends in time, it is terminated after the timeout,
    or closing its connection raises); each [recording_stopped] or
    [finished] signal of the capture task that is delivered gives it once
    more, and so does each [error_occurred] signal; no later delivery takes
    a notification away.  The caller is thus notified at least once, not
    exactly once. *)
Theorem stop_sequence_notifies_at_least_once (env : Env) (a : App) :
  stopped_notifications (stop_recording env a) = S (stopped_notifications a)
  /\ dispatch env recording_stopped a = Ok (update_ui_recording_stopped a)
  /\ stopped_notifications (update_ui_recording_stopped a)
     = S (stopped_notifications a)
  /\ dispatch env finished a = Ok (handle_thread_finished a)
  /\ stopped_notifications (handle_thread_finished a)
     = S (stopped_notifications a)
  /\ (forall msg,
        dispatch env (error_occurred msg) a
        = Ok (handle_recording_error env msg a)
        /\ stopped_notifications (handle_recording_error env msg a)
           = S (stopped_notifications a))
  /\ (forall fuel a',
        process_events fuel env (stop_recording env a) = Ok a' ->
        S (stopped_notifications a) <= stopped_notifications a').
Proof.
  assert (Hstop : forall b,
             stopped_notifications (stop_recording env b)
             = S (stopped_notifications b)).
  { intros b. destruct (stop_recording_status env b) as (errors & Hs & Herr).
    unfold stopped_notifications at 1. rewrite Hs, stopped_notifications_app.
    destruct Herr as [-> | [e ->]].
    - vm_compute List.length. lia.
    - rewrite filter_cons_False by discriminate.
      simpl app. rewrite filter_cons_False by apply error_message_not_stopped.
      vm_compute List.length. lia. }
  split; [apply Hstop|].
  split; [reflexivity|].
  split.
  { unfold stopped_notifications at 1.
    rewrite update_ui_recording_stopped_status, stopped_notifications_app.
    vm_compute List.length. lia. }
  split; [reflexivity|].
  split.
  { unfold stopped_notifications at 1.
    rewrite handle_thread_finished_status, stopped_notifications_app.
    vm_compute List.length. lia. }
  split.
  { intros msg. split; [reflexivity|].
    unfold handle_recording_error. rewrite Hstop.
    unfold stopped_notifications. simpl status_bar.
    rewrite filter_app, length_app.
    rewrite filter_cons_False by apply error_message_not_stopped.
    vm_compute List.length. lia. }
  intros fuel a' Hrun.
  apply process_events_keeps_notifications in Hrun.
  rewrite Hstop in Hrun. exact Hrun.
Qed.

(** C3, counterexample. A session is started, the capture task connects,
    and [stop_recording] is called; the task ends in time.  Once the two
    signals it posted are delivered, the presentation layer has been given
    the notification three times. *)
Lemma graceful_stop_counterexample :
  exists a',
    process_events 2 env0 (stop_recording env0 recording0) = Ok a'
    /\ pending (stop_recording env0 recording0) = [recording_stopped; finished]
    /\ pending a' = []
    /\ stopped_notifications recording0 = 0
    /\ stopped_notifications a' = 3
    /\ stopped_notifications a' <> 1.
Proof.
  eexists. split; [vm_compute; reflexivity|].
  repeat split; try (vm_compute; reflexivity). vm_compute. discriminate.
Qed.

(** When the capture task has to be terminated after the timeout, the
    notification is given twice: by [stop_recording] and by the slot of
    [finished]. *)
Lemma forced_stop_notifies_twice :
  exists a',
    process_events 1 env_timeout (stop_recording env_timeout recording0) = Ok a'
    /\ pending a' = []
    /\ stopped_notifications a' = 2.
Proof.
  eexists. split; [vm_compute; reflexivity|].
  split; vm_compute; reflexivity.
Qed.

(** ** Teardown of the capture task *)

(** When no [close()] raises, [cleanup] releases what the thread holds and
    emits [recording_stopped]. *)
Lemma cleanup_without_error (env : Env) (th : RecordingThread) :
  transcriber_close_error env = None ->
  microphone_close_error env = None ->
  transcriber (fst (cleanup env th)) = None
  /\ microphone_stream (fst (cleanup env th)) = None
  /\ snd (cleanup env th) = [recording_stopped].
Proof.
  intros Ht Hm. unfold cleanup. simpl.
  destruct (transcriber th) eqn:Htr; rewrite ?Ht; simpl;
    destruct (microphone_stream th) eqn:Hmic; rewrite ?Hm; simpl;
    rewrite ?Htr, ?Hmic; auto.
Qed.

(** When closing the connection raises, the [except] clause is reached at
    once: the microphone is still held and [recording_stopped] is not
    emitted. *)
Lemma cleanup_transcriber_raises (env : Env) (th : RecordingThread)
  (t : RealtimeTranscriber) (e : string) :
  transcriber th = Some t ->
  transcriber_close_error env = Some e ->
  microphone_stream (fst (cleanup env th)) = microphone_stream th
  /\ released (fst (cleanup env th)) = released th
  /\ snd (cleanup env th) = [error_occurred e].
Proof.
  intros Ht He. unfold cleanup. simpl. rewrite Ht, He. auto.
Qed.

(** When closing the microphone raises, the connection has been released
    and [recording_stopped] is not emitted either. *)
Lemma cleanup_microphone_raises (env : Env) (th : RecordingThread)
  (m : MicrophoneStream) (e : string) :
  transcriber_close_error env = None ->
  microphone_stream th = Some m ->
  microphone_close_error env = Some e ->
  microphone_stream (fst (cleanup env th)) = Some m
  /\ snd (cleanup env th) = [error_occurred e].
Proof.
  intros Ht Hm He. unfold cleanup. simpl. rewrite Ht.
  destruct (transcriber th); simpl; rewrite Hm, He; simpl; auto.
Qed.

(** C4, the code at the failing input. The capture task is streaming and
    closing its connection raises: after [cleanup] the microphone stream is
    still held, nothing has been released, and the only signal emitted is
    [error_occurred]. *)
Theorem cleanup_close_raises_leaks_microphone :
  transcriber streaming_thread
  = Some {| sample_rate := 44100; end_utterance_silence_threshold := 700 |}
  /\ microphone_stream streaming_thread = Some {| mic_sample_rate := 44100 |}
  /\ microphone_stream (fst (cleanup env_close_raises streaming_thread))
     = Some {| mic_sample_rate := 44100 |}
  /\ released (fst (cleanup env_close_raises streaming_thread)) = []
  /\ snd (cleanup env_close_raises streaming_thread)
     = [error_occurred "connection reset"].
Proof. repeat split; vm_compute; reflexivity. Qed.

(** ** Configuration of the streaming connection *)

(** The connection [run] opens does not depend on [transcriber_config]. *)
Lemma run_connect_transcriber (env : Env) (th : RecordingThread) :
  transcriber (fst (run_connect env th))
  = Some {| sample_rate := 44100; end_utterance_silence_threshold := 700 |}.
Proof.
  unfold run_connect.
  destruct (connect_error env); [reflexivity|].
  destruct (microphone_error env); reflexivity.
Qed.

(** C6, the code at the failing input. With diarization ticked, French
    selected and vocabulary entered, [start_recording] stores the flag and
    the lower-cased text of the language entry on the thread, but the
    connection the thread opens carries the sample rate and the silence
    threshold only, and is the one opened from [app0]. *)
Theorem start_recording_connection_ignores_configuration :
  exists th_fr th_en,
    threads (capture_connects env0 (start_recording env0 app_french)) = [th_fr]
    /\ threads (capture_connects env0 (start_recording env0 app0)) = [th_en]
    /\ transcriber_config th_fr
       = Some {| speaker_labels := true; language_code := "french (fr)" |}
    /\ transcriber th_fr
       = Some {| sample_rate := 44100;
                 end_utterance_silence_threshold := 700 |}
    /\ transcriber th_fr = transcriber th_en
    /\ microphone_stream th_fr = microphone_stream th_en.
Proof.
  do 2 eexists.
  split; [vm_compute; reflexivity|]. split; [vm_compute; reflexivity|].
  repeat split.
Qed.

(** ** One capture task at a time *)

Lemma running_insert_le (l : list RecordingThread) (i : nat)
  (th x : RecordingThread) :
  l !! i = Some th ->
  isRunning th = true ->
  List.length (filter (fun t => isRunning t = true) (<[i := x]> l))
  <= List.length (filter (fun t => isRunning t = true) l).
Proof.
  revert i. induction l as [|y l IH]; intros i Hi Hrun; [discriminate|].
  destruct i as [|i]; simpl in *.
  - injection Hi as ->. rewrite !filter_cons.
    destruct (decide (isRunning th = true)); [|contradiction].
    destruct (decide (isRunning x = true)); simpl; lia.
  - rewrite !filter_cons. specialize (IH i Hi Hrun).
    destruct (decide (isRunning y = true)); simpl; lia.
Qed.

Lemma stop_recording_threads (env : Env) (a : App) :
  List.length (threads (stop_recording env a)) = List.length (threads a)
  /\ running_tasks (stop_recording env a) <= running_tasks a.
Proof.
  unfold running_tasks, stop_recording. simpl.
  destruct (recording_thread a) as [i|]; simpl; [|split; lia].
  destruct (threads a !! i) as [th|] eqn:Hth; simpl; [|split; lia].
  destruct (isRunning th) eqn:Hrun; simpl; [|split; lia].
  destruct (requestStop env th) as [th1 [e|]]; simpl.
  { split; [apply length_insert | eapply running_insert_le; eauto]. }
  destruct (wait_in_time env); simpl.
  - destruct (run_finish env th1) as [th2 sigs]. simpl.
    split; [apply length_insert | eapply running_insert_le; eauto].
  - split; [apply length_insert | eapply running_insert_le; eauto].
Qed.

(** A call of [start_recording] that creates a capture task leaves the
    record button reading "Stop Recording". *)
Lemma start_recording_sets_button (env : Env) (a : App) :
  List.length (threads (start_recording env a)) <> List.length (threads a) ->
  record_button_text (start_recording env a) = "Stop Recording".
Proof.
  unfold start_recording, validate_api_keys. simpl.
  destruct (truthy (assembly_api_key a) && truthy (gemini_api_key a)); simpl;
    [|intros H; now destruct H].
  destruct (output_dir a) as [[dir|l]|]; simpl;
    try (intros H; now destruct H).
  destruct (makedirs_error env); simpl; [intros H; now destruct H|].
  reflexivity.
Qed.

(** C7, as amended. [start_recording] has no guard of its own; the guard
    is in [toggle_recording], on the text of the record button.  While the
    button does not read "Start Recording" - as it does not after a start
    that created a capture task - [toggle_recording] is [stop_recording]:
    it creates no capture task, and no more tasks run after it than
    before. *)
Theorem toggle_recording_guard (env : Env) (a : App) :
  record_button_text a <> "Start Recording" ->
  toggle_recording env a = stop_recording env a
  /\ List.length (threads (toggle_recording env a)) = List.length (threads a)
  /\ running_tasks (toggle_recording env a) <= running_tasks a.
Proof.
  intros Hbutton. unfold toggle_recording.
  apply String.eqb_neq in Hbutton. rewrite Hbutton.
  split; [reflexivity | apply stop_recording_threads].
Qed.

Lemma toggle_recording_guard_witness :
  record_button_text recording0 = "Stop Recording"
  /\ running_tasks recording0 = 1
  /\ toggle_recording env0 recording0 = stop_recording env0 recording0
  /\ List.length (threads (toggle_recording env0 recording0)) = 1.
Proof.
  split; [reflexivity|]. split; [reflexivity|].
  destruct (toggle_recording_guard env0 recording0) as (H1 & H2 & _).
  - vm_compute. discriminate.
  - split; [exact H1 | exact H2].
Defined.

(** C7, counterexample. [start_recording] is called while the capture
    task of [recording0] is running: a second task is created and runs
    beside the first. *)
Lemma start_recording_twice_counterexample :
  running_tasks recording0 = 1
  /\ recording_thread recording0 = Some 0
  /\ running_tasks (start_recording env0 recording0) = 2
  /\ recording_thread (start_recording env0 recording0) = Some 1.
Proof. repeat split; vm_compute; reflexivity. Qed.

(** After a [stop_recording] in which closing the connection raised, the
    capture task is still running and the record button reads "Start
    Recording" again: the next [toggle_recording] starts a second task. *)
Lemma toggle_after_failed_stop_starts_second_task :
  running_tasks (toggle_recording env_close_raises recording0) = 1
  /\ record_button_text (toggle_recording env_close_raises recording0)
     = "Start Recording"
  /\ running_tasks
       (toggle_recording env0 (toggle_recording env_close_raises recording0))
     = 2.
Proof. repeat split; vm_compute; reflexivity. Qed.

(** ** The summary requester *)


(** The configured template takes no part in what [create_summary] does
    with the service and with the files. *)
Lemma create_summary_ignores_self_cleanup_prompt
  (llm : PyVal -> PyVal -> string -> Res string) (v : PyVal) (a : App) :
  llm_requests (create_summary llm (set_self_cleanup_prompt v a))
  = llm_requests (create_summary llm a)
  /\ files (create_summary llm (set_self_cleanup_prompt v a))
     = files (create_summary llm a).
Proof.
  unfold create_summary. simpl.
  destruct (current_output_file a) as [path|]; [|split; reflexivity].
  destruct (String.eqb path EmptyString); [split; reflexivity|].
  destruct (files a !! path) as [transcript|]; [|split; reflexivity].
  destruct (String.eqb (py_strip transcript) EmptyString);
    [split; reflexivity|].
  destruct (gemini_model a) as [model|]; [|split; reflexivity].
  simpl. destruct (llm _ _ _); split; reflexivity.
Qed.

(** C2, the code at the failing input. The transcript file holds
    "Hello world." and a newline, and the configured template is
    "Clean: {transcript}".  The prompt submitted is the built-in text of
    [cleanup_prompt] followed by the transcript, not the configured
    template with the transcript substituted; the reply of the service is
    written to the summary file as it is. *)
Theorem create_summary_submits_builtin_prompt :
  self_cleanup_prompt app_summary = PStr "Clean: {transcript}"
  /\ files app_summary !! "/out/standup/transcript.txt"
     = Some ("Hello world." +:+ nl)
  /\ llm_requests (create_summary llm0 app_summary)
     = [(PStr "gemini-1.5-flash", cleanup_prompt ("Hello world." +:+ nl))]
  /\ spec_prompt "Clean: {transcript}" ("Hello world." +:+ nl)
     = "Clean: Hello world." +:+ nl
  /\ cleanup_prompt ("Hello world." +:+ nl)
     <> spec_prompt "Clean: {transcript}" ("Hello world." +:+ nl)
  /\ files (create_summary llm0 app_summary)
       !! "/out/standup/transcript_summary.txt"
     = Some "Hello, world.".
Proof.
  split; [reflexivity|]. split; [vm_compute; reflexivity|].
  split; [vm_compute; reflexivity|]. split; [vm_compute; reflexivity|].
  split; [vm_compute; discriminate|]. vm_compute. reflexivity.
Qed.

(** ** The path of the summary file *)



Section ReplaceTxt.

(** The text put in place of [.txt]. *)
Variable new : string.




End ReplaceTxt.



(** ** Upload transcription *)

(** The [finally] clause enables the three buttons; what it may log about
    the temporary file touches nothing else. *)
Lemma upload_audio_finally_fields (media : AudioExtraction)
  (temp_audio_path : option string) (b : App) :
  let r := upload_audio_finally media temp_audio_path b in
  files r = files b
  /\ transcript_display r = transcript_display b
  /\ status_bar r = status_bar b
  /\ current_output_file r = current_output_file b
  /\ name_entry r = name_entry b
  /\ config_file r = config_file b
  /\ record_button_enabled r = true
  /\ upload_button_enabled r = true
  /\ summarize_button_enabled r = true.
Proof.
  unfold upload_audio_finally. cbv zeta.
  destruct temp_audio_path as [p|]; [|repeat split].
  destruct (negb (String.eqb p EmptyString) && temp_audio_exists media);
    [|repeat split].
  destruct (remove_error media); repeat split.
Qed.

(** The inner [except] clause shows the error and goes through the
    [finally] clause. *)
Lemma upload_audio_except_fields (media : AudioExtraction)
  (temp_audio_path : option string) (e : string) (b : App) :
  let r := upload_audio_except media temp_audio_path e b in
  files r = files b
  /\ transcript_display r = transcript_display b
  /\ status_bar r = status_bar b ++ ["Error processing media file: " +:+ e]
  /\ current_output_file r = current_output_file b
  /\ name_entry r = name_entry b
  /\ config_file r = config_file b
  /\ record_button_enabled r = true
  /\ upload_button_enabled r = true
  /\ summarize_button_enabled r = true.
Proof.
  unfold upload_audio_except. cbv zeta.
  destruct (upload_audio_finally_fields media temp_audio_path
              (showMessage ("Error processing media file: " +:+ e)
                 (log_debug ("Error processing media file: " +:+ e) b)))
    as (H1 & H2 & H3 & H4 & H5 & H6 & H7 & H8 & H9).
  rewrite H1, H2, H3, H4, H5, H6, H7, H8, H9. repeat split.
Qed.

(** The successful path of lines 990-1044. *)
Lemma upload_audio_transcribe_success (env : Env) (media : AudioExtraction)
  (transcribe : string -> TranscriberConfig -> Res Transcript)
  (file_path : string) (temp_audio_path : option string)
  (file_to_transcribe dir content : string) (b : App) (t : Transcript) :
  output_dir b = PStr dir ->
  makedirs_error env = None ->
  transcribe file_to_transcribe
    {| speaker_labels := multiple_speakers_cb b;
       language_code := selected_language_code (language_combo b) |} = Ok t ->
  (if multiple_speakers_cb b
   then option_map format_utterances (utterances t)
   else Some (transcript_text t)) = Some content ->
  let name :=
    if String.eqb (py_strip (name_entry b)) EmptyString
    then splitext0 (basename file_path) else py_strip (name_entry b) in
  let path := path_join (path_join dir name) "transcript.txt" in
  let r :=
    upload_audio_transcribe env media transcribe file_path temp_audio_path
      file_to_transcribe b in
  current_output_file r = Some path
  /\ files r = <[path := content]> (files b)
  /\ transcript_display r = [content]
  /\ status_bar r
     = status_bar b
       ++ ["Transcribing media file...";
           "Transcription completed successfully"]
  /\ record_button_enabled r = true
  /\ upload_button_enabled r = true
  /\ summarize_button_enabled r = true.
Proof.
  intros Hdir Hmk Htr Hcontent name path r. subst name path r.
  unfold upload_audio_transcribe. cbv zeta.
  destruct (String.eqb (py_strip (name_entry b)) EmptyString); simpl;
    rewrite Hdir, Hmk; simpl; rewrite Htr; simpl;
    (destruct (multiple_speakers_cb b); simpl;
     [destruct (utterances t) as [l|]; simpl in Hcontent; [|discriminate];
      injection Hcontent as <-
     |injection Hcontent as <-]);
    match goal with
    | |- context [upload_audio_finally media temp_audio_path ?x] =>
        destruct (upload_audio_finally_fields media temp_audio_path x)
          as (H1 & H2 & H3 & H4 & H5 & H6 & H7 & H8 & H9)
    end;
    rewrite H1, H2, H3, H4, H7, H8, H9; simpl; rewrite <- ?app_assoc;
    repeat split.
Qed.

(** Lines 944-988 when nothing fails before line 990: a video is announced
    and its audio extracted to the temporary file, which is then the file
    to transcribe; any other file is transcribed as it is. *)
Lemma upload_audio_entry (env : Env) (media : AudioExtraction)
  (transcribe : string -> TranscriberConfig -> Res Transcript)
  (file_path dir : string) (a : App) :
  validate_api_keys a = true ->
  file_path <> EmptyString ->
  output_dir a = PStr dir ->
  (is_video_file file_path = true ->
   temp_makedirs_error media = None /\ export_error media = None) ->
  upload_audio env media transcribe file_path a
  = if is_video_file file_path then
      upload_audio_transcribe env media transcribe file_path
        (Some (temp_audio_file env dir)) (temp_audio_file env dir)
        (log_debug "Extracting audio from video file..."
           (showMessage "Extracting audio from video..." a))
    else
      upload_audio_transcribe env media transcribe file_path None file_path a.
Proof.
  intros Hkeys Hfile Hdir Hmedia. apply String.eqb_neq in Hfile.
  unfold upload_audio. rewrite Hkeys, Hfile. cbv beta iota zeta.
  change (negb true) with false. cbv beta iota.
  destruct (is_video_file file_path); [|reflexivity].
  destruct (Hmedia eq_refl) as [Hmk Hexp].
  cbn [output_dir log_debug showMessage print set_status_bar set_console
       set_debug_display].
  rewrite Hdir. unfold PStr. cbv beta iota. now rewrite Hmk, Hexp.
Qed.

(** C8. With diarization ticked and the utterances (A, Hi) and (B, Hello)
    returned by the service for the file sent to it - the file chosen, or
    for a video the audio extracted from it - [upload_audio] writes to the
    transcript file exactly "Speaker A: Hi", two newlines, "Speaker B:
    Hello", two newlines. *)
Theorem upload_audio_writes_speaker_blocks (env : Env) (media : AudioExtraction)
  (transcribe : string -> TranscriberConfig -> Res Transcript)
  (file_path dir : string) (a : App) (t : Transcript) :
  validate_api_keys a = true ->
  file_path <> EmptyString ->
  output_dir a = PStr dir ->
  makedirs_error env = None ->
  multiple_speakers_cb a = true ->
  (is_video_file file_path = true ->
   temp_makedirs_error media = None /\ export_error media = None) ->
  transcribe
    (if is_video_file file_path then temp_audio_file env dir else file_path)
    {| speaker_labels := true;
       language_code := selected_language_code (language_combo a) |} = Ok t ->
  utterances t = Some [ {| speaker := "A"; utterance_text := "Hi" |};
                        {| speaker := "B"; utterance_text := "Hello" |} ] ->
  exists path,
    current_output_file (upload_audio env media transcribe file_path a)
    = Some path
    /\ files (upload_audio env media transcribe file_path a) !! path
       = Some ("Speaker A: Hi" +:+ nl +:+ nl +:+ "Speaker B: Hello"
               +:+ nl +:+ nl).
Proof.
  intros Hkeys Hfile Hdir Hmk Hcb Hmedia Htr Hutt.
  rewrite (upload_audio_entry env media transcribe file_path dir a
             Hkeys Hfile Hdir Hmedia).
  rewrite <- Hcb in Htr.
  assert (Hcontent : (if multiple_speakers_cb a
                      then option_map format_utterances (utterances t)
                      else Some (transcript_text t))
                     = Some ("Speaker A: Hi" +:+ nl +:+ nl
                             +:+ "Speaker B: Hello" +:+ nl +:+ nl)).
  { rewrite Hcb, Hutt. reflexivity. }
  destruct (is_video_file file_path).
  - destruct (upload_audio_transcribe_success env media transcribe file_path
                (Some (temp_audio_file env dir)) (temp_audio_file env dir)
                dir _
                (log_debug "Extracting audio from video file..."
                   (showMessage "Extracting audio from video..." a))
                t Hdir Hmk Htr Hcontent) as (Hpath & Hfiles & _).
    eexists. split; [exact Hpath|]. rewrite Hfiles. apply lookup_insert_eq.
  - destruct (upload_audio_transcribe_success env media transcribe file_path
                None file_path dir _ a t Hdir Hmk Htr Hcontent)
      as (Hpath & Hfiles & _).
    eexists. split; [exact Hpath|]. rewrite Hfiles. apply lookup_insert_eq.
Qed.

Lemma upload_audio_writes_speaker_blocks_witness :
  files (upload_audio env0 media0 transcribe0 "/media/call.mp3" app_french)
    !! "/out/standup/transcript.txt"
  = Some ("Speaker A: Hi" +:+ nl +:+ nl +:+ "Speaker B: Hello" +:+ nl +:+ nl).
Proof.
  assert (Hfile : "/media/call.mp3" <> EmptyString) by discriminate.
  destruct (upload_audio_writes_speaker_blocks env0 media0 transcribe0
              "/media/call.mp3" "/out" app_french
              {| transcript_text := "Hi Hello";
                 utterances :=
                   Some [ {| speaker := "A"; utterance_text := "Hi" |};
                          {| speaker := "B"; utterance_text := "Hello" |} ] |}
              eq_refl Hfile eq_refl eq_refl eq_refl
              (fun _ => conj eq_refl eq_refl) eq_refl eq_refl)
    as (path & Hpath & Hcontent).
  assert (Hp : path = "/out/standup/transcript.txt").
  { vm_compute in Hpath. congruence. }
  rewrite <- Hp. exact Hcontent.
Defined.

(** The same upload of a video: the service is given the extracted audio,
    and the status bar says so first. *)
Example upload_audio_video :
  files (upload_audio env0 media0
           (fun file config =>
              if String.eqb file "/out/_temp/temp_audio_20240101_120000.mp3"
              then transcribe0 file config else Raise "not an audio file")
           "/media/Call.MP4" app_french)
    !! "/out/standup/transcript.txt"
  = Some ("Speaker A: Hi" +:+ nl +:+ nl +:+ "Speaker B: Hello" +:+ nl +:+ nl)
  /\ status_bar (upload_audio env0 media0 transcribe0 "/media/Call.MP4"
                   app_french)
     = ["Ready"; "Extracting audio from video..."; "Transcribing media file...";
        "Transcription completed successfully"]
  /\ is_video_file "/media/call.mp3" = false
  /\ is_video_file "/media/clip.tar.webm" = true
  /\ is_video_file "/media.mp4/clip" = false
  /\ is_video_file ".mp4" = false.
Proof. repeat split; vm_compute; reflexivity. Qed.

(** ** The settings round trip *)

(** The JSON object the dialog saves has five keys. *)
Lemma collect_settings_lookup (d : SettingsDialog) :
  collect_settings d !! "ASSEMBLY_API_KEY" = Some (JStr (py_strip (assembly_key d)))
  /\ collect_settings d !! "GOOGLE_API_KEY" = Some (JStr (py_strip (gemini_key d)))
  /\ collect_settings d !! "OUTPUT_DIR" = Some (JStr (py_strip (dir_entry d)))
  /\ collect_settings d !! "CLEANUP_PROMPT" = Some (JStr (py_strip (prompt_text d)))
  /\ collect_settings d !! "GEMINI_MODEL" = Some (JStr (currentText d))
  /\ collect_settings d !! "CUSTOM_VOCABULARY" = None.
Proof.
  unfold collect_settings. repeat split; simplify_map_eq; reflexivity.
Qed.

Lemma collect_settings_keys (d : SettingsDialog) :
  dom (collect_settings d)
  = ({["ASSEMBLY_API_KEY"; "GOOGLE_API_KEY"; "OUTPUT_DIR"; "CLEANUP_PROMPT";
       "GEMINI_MODEL"]} : gset string).
Proof.
  unfold collect_settings. rewrite !dom_insert_L, dom_empty_L. set_solver.
Qed.

(** What a reload gives from a file the dialog saved: the saved values of
    the five fields, the text fields stripped; the widgets of the main
    window are left alone. *)
Lemma load_saved_settings (env : Env) (d : SettingsDialog) (parent b : App) :
  config_file b = config_file (save_settings d parent) ->
  assembly_api_key (load_settings env b) = PStr (py_strip (assembly_key d))
  /\ gemini_api_key (load_settings env b) = PStr (py_strip (gemini_key d))
  /\ output_dir (load_settings env b) = PStr (py_strip (dir_entry d))
  /\ self_cleanup_prompt (load_settings env b)
     = PStr (py_strip (prompt_text d))
  /\ gemini_model (load_settings env b) = Some (PStr (currentText d))
  /\ vocab_entry (load_settings env b) = vocab_entry b
  /\ multiple_speakers_cb (load_settings env b) = multiple_speakers_cb b
  /\ language_combo (load_settings env b) = language_combo b.
Proof.
  intros Hfile. simpl in Hfile.
  destruct (collect_settings_lookup d) as (H1 & H2 & H3 & H4 & H5 & H6).
  unfold load_settings, settings_get. rewrite Hfile, H1, H2, H3, H4, H5, H6.
  simpl. repeat split.
Qed.

(** C5, as amended. Saving through the settings dialog writes a JSON
    object with the five keys of the dialog and no other, so no vocabulary
    entry; a reload from that file gives back the five fields as they were
    entered, provided the four text fields had no white space around them
    (what is saved is the stripped text), and leaves the vocabulary entry,
    the diarization box and the language selection as they are. *)
Theorem settings_round_trip (env : Env) (d : SettingsDialog) (parent b : App) :
  py_strip (assembly_key d) = assembly_key d ->
  py_strip (gemini_key d) = gemini_key d ->
  py_strip (dir_entry d) = dir_entry d ->
  py_strip (prompt_text d) = prompt_text d ->
  config_file b = config_file (save_settings d parent) ->
  config_file (save_settings d parent) = JsonObject (collect_settings d)
  /\ dom (collect_settings d)
     = ({["ASSEMBLY_API_KEY"; "GOOGLE_API_KEY"; "OUTPUT_DIR";
          "CLEANUP_PROMPT"; "GEMINI_MODEL"]} : gset string)
  /\ assembly_api_key (load_settings env b) = PStr (assembly_key d)
  /\ gemini_api_key (load_settings env b) = PStr (gemini_key d)
  /\ output_dir (load_settings env b) = PStr (dir_entry d)
  /\ self_cleanup_prompt (load_settings env b) = PStr (prompt_text d)
  /\ gemini_model (load_settings env b) = Some (PStr (currentText d))
  /\ vocab_entry (load_settings env b) = vocab_entry b
  /\ multiple_speakers_cb (load_settings env b) = multiple_speakers_cb b
  /\ language_combo (load_settings env b) = language_combo b.
Proof.
  intros H1 H2 H3 H4 Hfile.
  split; [reflexivity|]. split; [apply collect_settings_keys|].
  pose proof (load_saved_settings env d parent b Hfile) as H.
  rewrite H1, H2, H3, H4 in H. exact H.
Qed.

Lemma settings_round_trip_witness :
  assembly_api_key (load_settings env0 (save_settings dialog1 app0))
  = PStr "aai-key"
  /\ gemini_model (load_settings env0 (save_settings dialog1 app0))
     = Some (PStr "gemini-1.5-flash").
Proof.
  destruct (settings_round_trip env0 dialog1 app0 (save_settings dialog1 app0)
              eq_refl eq_refl eq_refl eq_refl eq_refl)
    as (_ & _ & Hkey & _ & _ & _ & Hmodel & _).
  split; [exact Hkey | exact Hmodel].
Defined.

(** C5, counterexample. The dialog holds a key typed after a space, and the
    vocabulary entry of the main window is empty.  The saved JSON has no
    vocabulary entry at all, rather than an empty sequence, and the key
    that is reloaded is not the key that was entered. *)
Lemma settings_round_trip_counterexample :
  vocab_entry app0 = Some EmptyString
  /\ config_file (save_settings dialog0 app0)
     = JsonObject (collect_settings dialog0)
  /\ collect_settings dialog0 !! "CUSTOM_VOCABULARY" = None
  /\ collect_settings dialog0 !! "CUSTOM_VOCABULARY" <> Some (JList [])
  /\ assembly_api_key (load_settings env0 (save_settings dialog0 app0))
     = PStr "aai-key"
  /\ assembly_api_key (load_settings env0 (save_settings dialog0 app0))
     <> PStr (assembly_key dialog0).
Proof.
  destruct (collect_settings_lookup dialog0) as (_ & _ & _ & _ & _ & Hvoc).
  destruct (load_saved_settings env0 dialog0 app0 (save_settings dialog0 app0)
              eq_refl) as (Hkey & _).
  split; [reflexivity|]. split; [reflexivity|]. split; [exact Hvoc|].
  split; [rewrite Hvoc; discriminate|].
  split; [rewrite Hkey; reflexivity|].
  rewrite Hkey. vm_compute. discriminate.
Qed.

(** [findText] finds the text of an item of the list, at an index that
    holds that text. *)
Lemma findText_item (items : list string) (i : nat) (m : string) :
  items !! i = Some m ->
  exists j, findText m items = Some j /\ items !! j = Some m.
Proof.
  revert i. induction items as [|x items IH]; intros i Hi; [discriminate|].
  cbn [findText]. destruct (String.eqb x m) eqn:Hx.
  - apply String.eqb_eq in Hx as ->. exists 0. split; reflexivity.
  - destruct i as [|i]; simpl in Hi.
    + injection Hi as ->. rewrite String.eqb_refl in Hx. discriminate.
    + destruct (IH i Hi) as (j & Hj & Hm). rewrite Hj.
      exists (S j). split; [reflexivity | exact Hm].
Qed.

(** Opening the dialog again on the file it saved shows the saved values:
    the stripped text of the four text fields and the model that was
    selected. *)
Lemma dialog_reload_saved (env : Env) (d d' : SettingsDialog) (parent : App)
  (m : string) :
  model_combo_items d' = model_combo_items d ->
  model_combo_items d !! model_combo_index d = Some m ->
  let r := dialog_load_settings env (config_file (save_settings d parent)) d' in
  assembly_key r = py_strip (assembly_key d)
  /\ gemini_key r = py_strip (gemini_key d)
  /\ dir_entry r = py_strip (dir_entry d)
  /\ prompt_text r = py_strip (prompt_text d)
  /\ currentText r = currentText d.
Proof.
  intros Hitems Hm r. subst r. simpl.
  destruct (collect_settings_lookup d) as (H1 & H2 & H3 & H4 & H5 & _).
  rewrite H1, H2, H3, H4, H5. simpl.
  assert (Hcur : currentText d = m) by (unfold currentText; now rewrite Hm).
  rewrite Hcur.
  destruct (findText_item _ _ _ Hm) as (j & Hj & Hjm).
  unfold set_current_model. simpl. rewrite Hitems, Hj.
  unfold currentText. simpl. rewrite Hjm. repeat split.
Qed.

(** * Further properties *)

(** ** Starting a session *)

(** X1. With either key missing, [start_recording] returns after writing
    its two log lines: no capture task is created, no output file is
    chosen, and the buttons, the status bar and the files are as before.
    The key of the text-generation service is required even though
    recording does not use it. *)
Theorem start_recording_without_keys (env : Env) (a : App) :
  assembly_api_key a = PStr EmptyString
  \/ gemini_api_key a = PStr EmptyString ->
  start_recording env a
  = log_debug "Starting recording..."
      (print (nl +:+ "=== Starting Recording ===") a)
  /\ threads (start_recording env a) = threads a
  /\ recording_thread (start_recording env a) = recording_thread a
  /\ current_output_file (start_recording env a) = current_output_file a
  /\ record_button_text (start_recording env a) = record_button_text a
  /\ status_bar (start_recording env a) = status_bar a
  /\ files (start_recording env a) = files a.
Proof.
  intros Hkey.
  assert (Hstart : start_recording env a
                   = log_debug "Starting recording..."
                       (print (nl +:+ "=== Starting Recording ===") a)).
  { unfold start_recording, validate_api_keys. simpl.
    destruct Hkey as [-> | ->]; simpl; [reflexivity|].
    rewrite andb_false_r. reflexivity. }
  rewrite Hstart. repeat split.
Qed.

Lemma start_recording_without_keys_witness :
  threads (start_recording env0 (set_gemini_api_key (PStr EmptyString) app0))
  = [].
Proof.
  destruct (start_recording_without_keys env0
              (set_gemini_api_key (PStr EmptyString) app0)
              (or_intror eq_refl)) as (_ & Hthreads & _).
  exact Hthreads.
Defined.

(** X2. When the session directory cannot be created, [start_recording]
    creates no capture task and chooses no output file; it shows the error
    and puts the buttons back: the record button reads "Start Recording",
    and the upload and summary buttons are enabled. *)
Theorem start_recording_directory_error (env : Env) (a : App)
  (dir e : string) :
  validate_api_keys a = true ->
  output_dir a = PStr dir ->
  makedirs_error env = Some e ->
  threads (start_recording env a) = threads a
  /\ recording_thread (start_recording env a) = recording_thread a
  /\ current_output_file (start_recording env a) = current_output_file a
  /\ record_button_text (start_recording env a) = "Start Recording"
  /\ record_button_enabled (start_recording env a) = true
  /\ upload_button_enabled (start_recording env a) = true
  /\ summarize_button_enabled (start_recording env a) = true
  /\ status_bar (start_recording env a)
     = status_bar a
       ++ ["Initializing recording..."; "Error: " +:+ e; "Recording stopped"].
Proof.
  intros Hkeys Hdir Hmk. unfold validate_api_keys in Hkeys.
  unfold start_recording, validate_api_keys. simpl.
  rewrite Hkeys, Hdir, Hmk. simpl.
  repeat split. now rewrite <- !app_assoc.
Qed.

Lemma start_recording_directory_error_witness :
  threads (start_recording
             {| home := "/home/u"; now := "20240101_120000";
                makedirs_error := Some "Permission denied";
                connect_error := None; microphone_error := None;
                stream_data := []; stream_error := None;
                transcriber_close_error := None;
                microphone_close_error := None; wait_in_time := true |}
             app0) = [].
Proof.
  destruct (start_recording_directory_error
              {| home := "/home/u"; now := "20240101_120000";
                 makedirs_error := Some "Permission denied";
                 connect_error := None; microphone_error := None;
                 stream_data := []; stream_error := None;
                 transcriber_close_error := None;
                 microphone_close_error := None; wait_in_time := true |}
              app0 "/out" "Permission denied" eq_refl eq_refl eq_refl)
    as (Hthreads & _).
  exact Hthreads.
Defined.

(** The successful path of [start_recording]. *)
Lemma start_recording_success (env : Env) (a : App) (dir : string) :
  validate_api_keys a = true ->
  output_dir a = PStr dir ->
  makedirs_error env = None ->
  let name :=
    if String.eqb (py_strip (name_entry a)) EmptyString then now env
    else py_strip (name_entry a) in
  threads (start_recording env a)
  = threads a
    ++ [ {| api_key := assembly_api_key a; is_recording := false;
            transcriber := None; microphone_stream := None;
            transcriber_config :=
              Some {| speaker_labels := multiple_speakers_cb a;
                      language_code := py_lower (language_combo a) |};
            isRunning := true; released := [] |} ]
  /\ recording_thread (start_recording env a) = Some (List.length (threads a))
  /\ current_output_file (start_recording env a)
     = Some (path_join (path_join dir name) "transcript.txt")
  /\ record_button_text (start_recording env a) = "Stop Recording"
  /\ upload_button_enabled (start_recording env a) = false
  /\ summarize_button_enabled (start_recording env a) = false
  /\ pending (start_recording env a) = pending a
  /\ files (start_recording env a) = files a
  /\ status_bar (start_recording env a)
     = status_bar a ++ ["Initializing recording..."].
Proof.
  intros Hkeys Hdir Hmk name. subst name. unfold validate_api_keys in Hkeys.
  unfold start_recording, validate_api_keys. simpl.
  rewrite Hkeys, Hdir, Hmk. simpl. repeat split.
Qed.

(** [a +:+ x] determines [x]. *)
Lemma append_cancel_l (a x y : string) : a +:+ x = a +:+ y -> x = y.
Proof.
  induction a as [|c a IH]; [trivial|].
  rewrite !append_cons. intros [= H]. auto.
Qed.

Lemma length_append (s1 s2 : string) :
  String.length (s1 +:+ s2) = String.length s1 + String.length s2.
Proof.
  induction s1 as [|c s1 IH]; [reflexivity|].
  rewrite append_cons. simpl. now rewrite IH.
Qed.

(** X3. The directory shown under the session name and the directory
    [start_recording] writes to agree when a session name is entered: the
    transcript is [transcript.txt] in the directory shown.  With a blank
    session name they differ: the label shows [recording_] followed by the
    time, and the transcript goes to the directory named by the time
    alone. *)
Theorem output_path_display_and_session_directory (env : Env) (a : App)
  (dir : string) :
  validate_api_keys a = true ->
  output_dir a = PStr dir ->
  makedirs_error env = None ->
  py_startswith "/" (now env) = false ->
  (py_strip (name_entry a) <> EmptyString ->
   exists shown,
     update_output_path_display env a = Ok ("Output directory: " +:+ shown)
     /\ current_output_file (start_recording env a)
        = Some (path_join shown "transcript.txt"))
  /\ (py_strip (name_entry a) = EmptyString ->
      update_output_path_display env a
      = Ok ("Output directory: " +:+ path_join dir ("recording_" +:+ now env))
      /\ current_output_file (start_recording env a)
         = Some (path_join (path_join dir (now env)) "transcript.txt")
      /\ path_join dir ("recording_" +:+ now env) <> path_join dir (now env)).
Proof.
  intros Hkeys Hdir Hmk Hnow.
  destruct (start_recording_success env a dir Hkeys Hdir Hmk)
    as (_ & _ & Hfile & _).
  unfold update_output_path_display. rewrite Hdir. split.
  - intros Hname. apply String.eqb_neq in Hname. rewrite Hname in *. simpl.
    eexists. split; [reflexivity | exact Hfile].
  - intros Hname. rewrite Hname in *. simpl.
    split; [reflexivity|]. split; [exact Hfile|].
    unfold path_join. rewrite Hnow.
    change (py_startswith "/" ("recording_" +:+ now env)) with false.
    cbv iota.
    assert (Hlen : forall x, "recording_" +:+ x <> x).
    { intros x Hx. apply (f_equal String.length) in Hx.
      rewrite length_append in Hx. simpl in Hx. lia. }
    destruct (String.eqb dir EmptyString || ends_with_slash dir).
    + intros H. apply append_cancel_l in H. now apply Hlen in H.
    + intros H. apply append_cancel_l in H.
      apply (append_cancel_l "/") in H. now apply Hlen in H.
Qed.

Lemma output_path_display_and_session_directory_witness :
  update_output_path_display env0 app0
  = Ok "Output directory: /out/standup"
  /\ current_output_file (start_recording env0 app0)
     = Some "/out/standup/transcript.txt".
Proof.
  destruct (output_path_display_and_session_directory env0 app0 "/out"
              eq_refl eq_refl eq_refl eq_refl) as [Hnamed _].
  destruct Hnamed as (shown & Hshown & Hfile); [discriminate|].
  assert (Hs : shown = "/out/standup").
  { vm_compute in Hshown. congruence. }
  subst shown. split; [exact Hshown | exact Hfile].
Defined.

(** ** Stopping a session *)

(** X4. Whatever the capture task does - it ends in time, it has to be
    terminated, closing its connection raises, or there is none -
    [stop_recording] returns with the controls in their idle state: the
    record button enabled and reading "Start Recording", the upload and
    summary buttons enabled, and "Recording stopped" as the last message of
    the status bar.  It never touches the files or the output path. *)
Theorem stop_recording_returns_to_idle (env : Env) (a : App) :
  record_button_text (stop_recording env a) = "Start Recording"
  /\ record_button_enabled (stop_recording env a) = true
  /\ upload_button_enabled (stop_recording env a) = true
  /\ summarize_button_enabled (stop_recording env a) = true
  /\ last (status_bar (stop_recording env a)) = Some "Recording stopped"
  /\ files (stop_recording env a) = files a
  /\ current_output_file (stop_recording env a) = current_output_file a
  /\ recording_thread (stop_recording env a) = recording_thread a.
Proof.
  split; [reflexivity|]. split; [reflexivity|]. split; [reflexivity|].
  split; [reflexivity|]. split.
  { destruct (stop_recording_status env a) as (errors & Hs & _).
    rewrite Hs, app_comm_cons, !app_assoc. apply last_snoc. }
  assert (H : files (stop_recording env a) = files a
              /\ current_output_file (stop_recording env a)
                 = current_output_file a
              /\ recording_thread (stop_recording env a) = recording_thread a).
  { unfold stop_recording. simpl.
    destruct (recording_thread a) as [i|] eqn:Hi; simpl;
      [|repeat split; auto].
    destruct (threads a !! i) as [th|]; simpl; [|repeat split; auto].
    destruct (isRunning th); simpl; [|repeat split; auto].
    destruct (requestStop env th) as [th1 [e|]]; simpl;
      [repeat split; auto|].
    destruct (wait_in_time env); simpl; [|repeat split; auto].
    destruct (run_finish env th1) as [th2 sigs]. simpl.
    repeat split; auto. }
  exact H.
Qed.

(** X5. [stop_recording] without a capture task to stop - no handle, or a
    handle to a task that is not running - changes neither the thread
    objects nor the queue of signals: it only resets the controls. *)
Theorem stop_recording_without_task (env : Env) (a : App) :
  (recording_thread a = None
   \/ exists i th,
        recording_thread a = Some i /\ threads a !! i = Some th
        /\ isRunning th = false) ->
  threads (stop_recording env a) = threads a
  /\ pending (stop_recording env a) = pending a
  /\ status_bar (stop_recording env a)
     = status_bar a
       ++ ["Stopping recording (this may take a few seconds)...";
           "Recording stopped"].
Proof.
  intros [Hnone | (i & th & Hi & Hth & Hrun)];
    unfold stop_recording; simpl.
  - rewrite Hnone. simpl. now rewrite <- app_assoc.
  - rewrite Hi, Hth, Hrun. simpl. now rewrite <- app_assoc.
Qed.

Lemma stop_recording_without_task_witness :
  threads (stop_recording env0 app0) = []
  /\ pending (stop_recording env0 app0) = [].
Proof.
  destruct (stop_recording_without_task env0 app0 (or_introl eq_refl))
    as (Hthreads & Hpending & _).
  split; [exact Hthreads | exact Hpending].
Defined.

Lemma cleanup_is_recording (env : Env) (th : RecordingThread) :
  is_recording (fst (cleanup env th)) = false
  /\ isRunning (fst (cleanup env th)) = isRunning th.
Proof.
  unfold cleanup. simpl.
  destruct (transcriber th); simpl.
  - destruct (transcriber_close_error env); simpl; [auto|].
    destruct (microphone_stream th); simpl; [|auto].
    destruct (microphone_close_error env); simpl; auto.
  - destruct (microphone_stream th); simpl; [|auto].
    destruct (microphone_close_error env); simpl; auto.
Qed.

Lemma run_finish_ends (env : Env) (th : RecordingThread) :
  isRunning (fst (run_finish env th)) = false
  /\ is_recording (fst (run_finish env th)) = false
  /\ snd (run_finish env th) = snd (cleanup env th) ++ [finished].
Proof.
  unfold run_finish.
  destruct (cleanup_is_recording env th) as [Hrec _].
  destruct (cleanup env th) as [th' sigs]. simpl in *. auto.
Qed.

Lemma requestStop_without_error (env : Env) (th : RecordingThread) :
  transcriber_close_error env = None ->
  snd (requestStop env th) = None
  /\ is_recording (fst (requestStop env th)) = false.
Proof.
  intros Hclose. unfold requestStop. simpl.
  destruct (transcriber th); rewrite ?Hclose; simpl; auto.
Qed.

Lemma running_insert_lt (l : list RecordingThread) (i : nat)
  (th x : RecordingThread) :
  l !! i = Some th ->
  isRunning th = true ->
  isRunning x = false ->
  List.length (filter (fun t => isRunning t = true) (<[i := x]> l))
  < List.length (filter (fun t => isRunning t = true) l).
Proof.
  intros Hth Hrun Hx. revert i Hth.
  induction l as [|y l IH]; intros i Hth; [discriminate|].
  destruct i as [|i]; simpl in *.
  - injection Hth as ->. rewrite !filter_cons.
    destruct (decide (isRunning x = true)); [congruence|].
    destruct (decide (isRunning th = true)); [simpl; lia | contradiction].
  - rewrite !filter_cons. specialize (IH i Hth).
    destruct (decide (isRunning y = true)); simpl; lia.
Qed.

(** X6. When closing the connection does not raise, [stop_recording] ends
    the capture task the handle refers to, in time or by force: the task is
    not running afterwards, [finished] is the last signal queued for it,
    and the other thread objects are as before. *)
Theorem stop_recording_ends_task (env : Env) (a : App) (i : nat)
  (th : RecordingThread) :
  transcriber_close_error env = None ->
  recording_thread a = Some i ->
  threads a !! i = Some th ->
  isRunning th = true ->
  (exists th',
     threads (stop_recording env a) !! i = Some th'
     /\ isRunning th' = false /\ is_recording th' = false)
  /\ (forall j, j <> i ->
        threads (stop_recording env a) !! j = threads a !! j)
  /\ (exists sigs,
        pending (stop_recording env a) = pending a ++ sigs ++ [finished])
  /\ running_tasks (stop_recording env a) < running_tasks a.
Proof.
  intros Hclose Hi Hth Hrun.
  assert (Hlt : i < List.length (threads a))
    by (apply lookup_lt_is_Some; eauto).
  destruct (requestStop_without_error env th Hclose) as [Hnone Hrec].
  unfold running_tasks, stop_recording. simpl.
  rewrite Hi, Hth, Hrun. simpl.
  destruct (requestStop env th) as [th1 o]. simpl in Hnone, Hrec. subst o.
  destruct (wait_in_time env); simpl.
  - destruct (run_finish_ends env th1) as (Hr & Hn & Hs).
    destruct (run_finish env th1) as [th2 sigs]. simpl in *. subst sigs.
    split.
    { exists th2. split; [now apply list_lookup_insert_eq | auto]. }
    split; [intros j Hj; now apply list_lookup_insert_ne|].
    split; [eexists; reflexivity|].
    now apply (running_insert_lt _ _ th).
  - split.
    { eexists. split; [now apply list_lookup_insert_eq|].
      split; [reflexivity | exact Hrec]. }
    split; [intros j Hj; now apply list_lookup_insert_ne|].
    split; [exists []; reflexivity|].
    now apply (running_insert_lt _ _ th).
Qed.

Lemma stop_recording_ends_task_witness :
  running_tasks (stop_recording env_timeout recording0) = 0.
Proof.
  assert (H : exists th, threads recording0 !! 0 = Some th
                         /\ isRunning th = true).
  { eexists. split; vm_compute; reflexivity. }
  destruct H as (th & Hth & Hrun).
  destruct (stop_recording_ends_task env_timeout recording0 0 th
              eq_refl eq_refl Hth Hrun)
    as (_ & _ & _ & Hcount).
  change (running_tasks recording0) with 1 in Hcount. lia.
Defined.

(** ** Display and file in step *)

Lemma handle_transcript_step (t : RealtimeTranscript) (a : App)
  (path : string) :
  current_output_file a = Some path ->
  exists a',
    handle_transcript t a = Ok a'
    /\ current_output_file a' = Some path
    /\ transcript_display a'
       = transcript_display a ++ displayed_texts [t]
    /\ file_text path a'
       = file_text path a +:+ concat_strings (displayed_texts [t])
    /\ List.length (debug_display a')
       = List.length (debug_display a) + List.length (displayed_texts [t])
    /\ status_bar a' = status_bar a
    /\ threads a' = threads a
    /\ recording_thread a' = recording_thread a
    /\ record_button_text a' = record_button_text a
    /\ pending a' = pending a.
Proof.
  intros Hpath. cbn [displayed_texts].
  unfold handle_transcript, nonempty_text.
  destruct (String.eqb (text t) EmptyString) eqn:Hempty.
  - exists a. simpl. rewrite andb_false_r. simpl.
    rewrite app_nil_r, append_empty_r, Nat.add_0_r. repeat split; auto.
  - destruct (is_final t); simpl.
    + rewrite Hpath. eexists. split; [reflexivity|]. simpl.
      split; [exact Hpath|]. split; [reflexivity|]. split.
      { unfold file_text. simpl. rewrite lookup_insert_eq.
        now rewrite append_empty_r. }
      split; [now rewrite length_app|]. repeat split.
    + exists (print (text t) a). simpl.
      rewrite app_nil_r, append_empty_r, Nat.add_0_r. repeat split; auto.
Qed.

Lemma displayed_texts_cons (t : RealtimeTranscript)
  (events : list RealtimeTranscript) :
  displayed_texts (t :: events) = displayed_texts [t] ++ displayed_texts events.
Proof. simpl. destruct (is_final t && nonempty_text t); reflexivity. Qed.

Lemma concat_strings_app (l1 l2 : list string) :
  concat_strings (l1 ++ l2) = concat_strings l1 +:+ concat_strings l2.
Proof.
  induction l1 as [|x l1 IH]; [reflexivity|].
  simpl. now rewrite IH, append_assoc.
Qed.

(** X7. During a session the display and the transcript file stay in step:
    the events delivered add to the display one paragraph per final event
    with text, in order, the file grows by exactly these paragraphs put end
    to end, and one line goes to the debug log for each.  The status bar,
    the record button, the capture tasks and the queue of signals are not
    touched. *)
Theorem deliver_display_matches_file (events : list RealtimeTranscript)
  (a : App) (path : string) :
  current_output_file a = Some path ->
  exists a',
    deliver events a = Ok a'
    /\ transcript_display a'
       = transcript_display a ++ displayed_texts events
    /\ file_text path a'
       = file_text path a +:+ concat_strings (displayed_texts events)
    /\ List.length (debug_display a')
       = List.length (debug_display a) + List.length (displayed_texts events)
    /\ status_bar a' = status_bar a
    /\ threads a' = threads a
    /\ recording_thread a' = recording_thread a
    /\ record_button_text a' = record_button_text a
    /\ pending a' = pending a.
Proof.
  revert a. induction events as [|t events IH]; intros a Hpath.
  - exists a. simpl. rewrite app_nil_r, append_empty_r, Nat.add_0_r.
    repeat split; auto.
  - destruct (handle_transcript_step t a path Hpath)
      as (a1 & Hstep & Hpath1 & Hd1 & Hf1 & Hl1 & Hs1 & Ht1 & Hr1 & Hb1 & Hp1).
    destruct (IH a1 Hpath1)
      as (a2 & Hrest & Hd2 & Hf2 & Hl2 & Hs2 & Ht2 & Hr2 & Hb2 & Hp2).
    exists a2. cbn [deliver]. rewrite Hstep.
    split; [exact Hrest|].
    rewrite (displayed_texts_cons t events), concat_strings_app, length_app.
    split; [now rewrite Hd2, Hd1, app_assoc|].
    split; [now rewrite Hf2, Hf1, append_assoc|].
    split; [rewrite Hl2, Hl1; lia|].
    repeat split; congruence.
Qed.

Lemma deliver_display_matches_file_witness :
  exists a',
    deliver [RealtimeFinalTranscript "one"; RealtimePartialTranscript "tw";
             RealtimeFinalTranscript "two"] recording0 = Ok a'
    /\ transcript_display a' = ["one" +:+ nl; "two" +:+ nl].
Proof.
  destruct (deliver_display_matches_file
              [RealtimeFinalTranscript "one"; RealtimePartialTranscript "tw";
               RealtimeFinalTranscript "two"]
              recording0 "/out/standup/transcript.txt" eq_refl)
    as (a' & Hrun & Hdisplay & _).
  exists a'. split; [exact Hrun | exact Hdisplay].
Defined.

(** ** The summary requester: failures and what it leaves alone *)

(** X8. Without a usable transcript [create_summary] stops before any
    request is sent: when no output file is set or the file does not
    exist, and when the file holds white space only, it shows the matching
    error, and the files, the display and the list of requests are as
    before. *)
Theorem create_summary_without_transcript
  (llm : PyVal -> PyVal -> string -> Res string) (a : App) :
  ((current_output_file a = None
    \/ exists path, current_output_file a = Some path
                    /\ files a !! path = None) ->
   status_bar (create_summary llm a)
   = status_bar a
     ++ ["Creating summary...";
         "Error creating summary: No transcription file available"]
   /\ llm_requests (create_summary llm a) = llm_requests a
   /\ files (create_summary llm a) = files a
   /\ transcript_display (create_summary llm a) = transcript_display a)
  /\ ((exists path transcript,
         current_output_file a = Some path /\ path <> EmptyString
         /\ files a !! path = Some transcript
         /\ py_strip transcript = EmptyString) ->
      status_bar (create_summary llm a)
      = status_bar a
        ++ ["Creating summary...";
            "Error creating summary: Transcription file is empty"]
      /\ llm_requests (create_summary llm a) = llm_requests a
      /\ files (create_summary llm a) = files a
      /\ transcript_display (create_summary llm a) = transcript_display a).
Proof.
  split.
  - intros [Hnone | (path & Hpath & Hfile)]; unfold create_summary; simpl.
    + rewrite Hnone. simpl. rewrite <- app_assoc. repeat split.
    + rewrite Hpath. destruct (String.eqb path EmptyString); simpl;
        rewrite ?Hfile; simpl; rewrite <- app_assoc; repeat split.
  - intros (path & transcript & Hpath & Hne & Hfile & Hblank).
    apply String.eqb_neq in Hne.
    unfold create_summary. simpl. rewrite Hpath, Hne, Hfile, Hblank. simpl.
    rewrite <- app_assoc. repeat split.
Qed.

Lemma create_summary_without_transcript_witness :
  llm_requests (create_summary llm0 app0) = []
  /\ last (status_bar (create_summary llm0 app0))
     = Some "Error creating summary: No transcription file available".
Proof.
  destruct (create_summary_without_transcript llm0 app0) as [Hmissing _].
  destruct (Hmissing (or_introl eq_refl)) as (Hstatus & Hreq & _).
  split; [exact Hreq | rewrite Hstatus; reflexivity].
Defined.

(** X9. When the text-generation service raises, the request has been
    sent once, its error is shown in the status bar, and no summary file
    is written: the files and the display are as before. *)
Theorem create_summary_service_error
  (llm : PyVal -> PyVal -> string -> Res string) (a : App)
  (path transcript e : string) (model : PyVal) :
  current_output_file a = Some path ->
  path <> EmptyString ->
  files a !! path = Some transcript ->
  py_strip transcript <> EmptyString ->
  gemini_model a = Some model ->
  llm (gemini_api_key a) model (cleanup_prompt transcript) = Raise e ->
  files (create_summary llm a) = files a
  /\ transcript_display (create_summary llm a) = transcript_display a
  /\ llm_requests (create_summary llm a)
     = llm_requests a ++ [(model, cleanup_prompt transcript)]
  /\ status_bar (create_summary llm a)
     = status_bar a
       ++ ["Creating summary..."; "Error creating summary: " +:+ e].
Proof.
  intros Hpath Hne Hfile Htext Hmodel Hreply.
  apply String.eqb_neq in Hne. apply String.eqb_neq in Htext.
  unfold create_summary. simpl.
  rewrite Hpath, Hne, Hfile, Htext, Hmodel. simpl. rewrite Hreply. simpl.
  rewrite <- app_assoc. repeat split.
Qed.

Lemma create_summary_service_error_witness :
  files (create_summary (fun _ _ _ => Raise "quota exceeded") app_summary)
  = files app_summary.
Proof.
  assert (Hne : "/out/standup/transcript.txt" <> EmptyString) by discriminate.
  assert (Htext : py_strip ("Hello world." +:+ nl) <> EmptyString)
    by (vm_compute; discriminate).
  destruct (create_summary_service_error
              (fun _ _ _ => Raise "quota exceeded") app_summary
              "/out/standup/transcript.txt" ("Hello world." +:+ nl)
              "quota exceeded" (PStr "gemini-1.5-flash")
              eq_refl Hne eq_refl Htext eq_refl eq_refl) as (Hfiles & _).
  exact Hfiles.
Defined.

(** X10. [create_summary] never touches the session controller: for every
    reply of the service and every state, the capture tasks, the handle,
    the queue of signals, the record button, the output path and the
    settings file are as before. *)
Theorem create_summary_leaves_controller
  (llm : PyVal -> PyVal -> string -> Res string) (a : App) :
  threads (create_summary llm a) = threads a
  /\ recording_thread (create_summary llm a) = recording_thread a
  /\ pending (create_summary llm a) = pending a
  /\ record_button_text (create_summary llm a) = record_button_text a
  /\ record_button_enabled (create_summary llm a) = record_button_enabled a
  /\ current_output_file (create_summary llm a) = current_output_file a
  /\ config_file (create_summary llm a) = config_file a.
Proof.
  unfold create_summary. simpl.
  destruct (current_output_file a) as [path|] eqn:Hpath;
    [|simpl; rewrite ?Hpath; repeat split].
  destruct (String.eqb path EmptyString);
    [simpl; rewrite ?Hpath; repeat split|].
  destruct (files a !! path) as [transcript|];
    [|simpl; rewrite ?Hpath; repeat split].
  destruct (String.eqb (py_strip transcript) EmptyString);
    [simpl; rewrite ?Hpath; repeat split|].
  destruct (gemini_model a) as [model|];
    [|simpl; rewrite ?Hpath; repeat split].
  simpl. destruct (llm _ _ _); simpl; rewrite ?Hpath; repeat split.
Qed.



Lemma py_contains_append_r (old x y : string) :
  py_contains old y = true -> py_contains old (x +:+ y) = true.
Proof.
  intros H. induction x as [|c x IH]; [exact H|].
  rewrite append_cons. cbn [py_contains]. rewrite IH. apply orb_true_r.
Qed.




(** ** Stripping *)

Lemma py_lstrip_head (s : string) :
  py_lstrip s = EmptyString
  \/ exists c s', py_lstrip s = String c s' /\ py_isspace c = false.
Proof.
  induction s as [|c s IH]; [now left|].
  cbn [py_lstrip]. destruct (py_isspace c) eqn:Hc; [exact IH|].
  right. eauto.
Qed.

Lemma py_rstrip_cons (c : ascii) (s : string) :
  py_isspace c = false -> py_rstrip (String c s) = String c (py_rstrip s).
Proof.
  intros Hc. cbn [py_rstrip]. rewrite Hc. destruct (py_rstrip s); reflexivity.
Qed.

Lemma py_rstrip_idem (s : string) : py_rstrip (py_rstrip s) = py_rstrip s.
Proof.
  induction s as [|c s IH]; [reflexivity|].
  cbn [py_rstrip]. destruct (py_rstrip s) as [|c' r] eqn:Hr.
  - destruct (py_isspace c) eqn:Hc; [reflexivity|].
    cbn [py_rstrip]. now rewrite Hc.
  - cbn [py_rstrip]. cbn [py_rstrip] in IH.
    destruct (py_rstrip r) as [|c'' r'] eqn:Hr'.
    + destruct (py_isspace c') eqn:Hc'; [discriminate|].
      injection IH as ->. reflexivity.
    + now rewrite IH.
Qed.

Lemma py_strip_idem (s : string) : py_strip (py_strip s) = py_strip s.
Proof.
  unfold py_strip.
  destruct (py_lstrip_head s) as [-> | (c & s' & -> & Hc)]; [reflexivity|].
  rewrite (py_rstrip_cons c s' Hc). cbn [py_lstrip]. rewrite Hc.
  rewrite <- (py_rstrip_cons c s' Hc). apply py_rstrip_idem.
Qed.

(** A stripped string that is not empty begins and ends with a character
    that is not white space. *)
Lemma py_rstrip_length (s : string) :
  String.length (py_rstrip s) <= String.length s.
Proof.
  induction s as [|c s IH]; [reflexivity|].
  cbn [py_rstrip]. destruct (py_rstrip s).
  - destruct (py_isspace c); simpl; lia.
  - simpl in *. lia.
Qed.

Lemma py_lstrip_length (s : string) :
  py_lstrip s = s \/ String.length (py_lstrip s) < String.length s.
Proof.
  induction s as [|c s IH]; [now left|].
  cbn [py_lstrip]. destruct (py_isspace c); [|now left].
  right. destruct IH as [-> | H]; simpl; lia.
Qed.

Lemma py_strip_fixed (s : string) :
  py_strip s = s -> py_lstrip s = s /\ py_rstrip s = s.
Proof.
  unfold py_strip. intros H.
  destruct (py_lstrip_length s) as [Hl | Hl].
  - rewrite Hl in H. auto.
  - pose proof (py_rstrip_length (py_lstrip s)) as Hr.
    rewrite H in Hr. lia.
Qed.

Lemma py_rstrip_append (x y : string) :
  y <> EmptyString -> py_rstrip y = y -> py_rstrip (x +:+ y) = x +:+ y.
Proof.
  intros Hne Hy. induction x as [|c x IH]; [exact Hy|].
  rewrite append_cons. cbn [py_rstrip]. rewrite IH.
  destruct (x +:+ y) eqn:Hxy; [|reflexivity].
  destruct x; [now rewrite append_empty_l in Hxy | discriminate].
Qed.

Lemma py_lstrip_append (x y : string) :
  x <> EmptyString -> py_lstrip x = x -> py_lstrip (x +:+ y) = x +:+ y.
Proof.
  intros Hne Hx. destruct x as [|c x]; [congruence|].
  rewrite append_cons. cbn [py_lstrip] in *.
  destruct (py_isspace c); [|reflexivity].
  exfalso. destruct (py_lstrip_length x) as [H | H].
  - rewrite H in Hx. apply (f_equal String.length) in Hx. simpl in Hx. lia.
  - rewrite Hx in H. simpl in H. lia.
Qed.

(** ** The vocabulary entry *)

Lemma py_split_comma_nonempty (s : string) : py_split_comma s <> [].
Proof.
  destruct s as [|c s]; [discriminate|].
  cbn [py_split_comma]. destruct (Ascii.eqb c ","); [discriminate|].
  destruct (py_split_comma s); discriminate.
Qed.

Lemma py_contains_comma_cons (c : ascii) (x : string) :
  py_contains "," (String c x) = false ->
  Ascii.eqb c "," = false /\ py_contains "," x = false.
Proof.
  cbn [py_contains py_startswith]. intros H.
  apply orb_false_elim in H as [Hc Hx]. rewrite andb_true_r in Hc.
  rewrite Ascii.eqb_sym in Hc. auto.
Qed.

Lemma py_split_comma_word (x : string) :
  py_contains "," x = false -> py_split_comma x = [x].
Proof.
  induction x as [|c x IH]; intros H; [reflexivity|].
  apply py_contains_comma_cons in H as [Hc Hx].
  cbn [py_split_comma]. rewrite Hc, (IH Hx). reflexivity.
Qed.

Lemma py_split_comma_append (x rest : string) :
  py_contains "," x = false ->
  py_split_comma (x +:+ String "," rest) = x :: py_split_comma rest.
Proof.
  induction x as [|c x IH]; intros H; [reflexivity|].
  apply py_contains_comma_cons in H as [Hc Hx].
  rewrite append_cons. cbn [py_split_comma]. rewrite Hc, (IH Hx). reflexivity.
Qed.

Lemma stripped_words_after_space (s : string) :
  stripped_words (py_split_comma (String " " s))
  = stripped_words (py_split_comma s).
Proof.
  cbn [py_split_comma]. change (Ascii.eqb " " ",") with false. cbv iota.
  destruct (py_split_comma s) as [|x l] eqn:Hs.
  - now apply py_split_comma_nonempty in Hs.
  - reflexivity.
Qed.

(** A vocabulary term as [get_custom_vocabulary] returns them. *)
Lemma py_join_comma_nonempty (x : string) (l : list string) :
  x <> EmptyString -> py_join ", " (x :: l) <> EmptyString.
Proof.
  intros Hx. destruct x as [|c x]; [congruence|].
  destruct l; cbn [py_join]; [discriminate|].
  rewrite append_cons. discriminate.
Qed.

Lemma py_join_comma_stripped (l : list string) :
  Forall (fun w => py_strip w = w /\ w <> EmptyString) l ->
  py_strip (py_join ", " l) = py_join ", " l.
Proof.
  intros Hl. destruct l as [|x l]; [reflexivity|].
  assert (Hr : py_rstrip (py_join ", " (x :: l)) = py_join ", " (x :: l)).
  { induction Hl as [|y l' [Hy Hne] Hl' IH]; [reflexivity|].
    destruct l' as [|z l'']; [now apply py_strip_fixed|].
    cbn [py_join].
    inversion Hl' as [|? ? [_ Hz] _]; subst.
    apply py_rstrip_append;
      [rewrite !append_cons; discriminate|].
    apply py_rstrip_append; [now apply py_join_comma_nonempty | exact IH]. }
  assert (Hlft : py_lstrip (py_join ", " (x :: l)) = py_join ", " (x :: l)).
  { inversion Hl as [|? ? [Hx Hne] _]; subst.
    apply py_strip_fixed in Hx as [Hx _].
    destruct l; cbn [py_join]; [exact Hx|].
    now apply py_lstrip_append. }
  unfold py_strip. now rewrite Hlft.
Qed.

Lemma stripped_words_join (l : list string) :
  Forall (fun w => (py_strip w = w /\ w <> EmptyString)
                   /\ py_contains "," w = false) l ->
  l <> [] ->
  stripped_words (py_split_comma (py_join ", " l)) = l.
Proof.
  induction 1 as [|x l [[Hx Hne] Hcomma] Hl IH]; [congruence|]. intros _.
  apply String.eqb_neq in Hne.
  destruct l as [|y l].
  - cbn [py_join]. rewrite (py_split_comma_word x Hcomma).
    cbn [stripped_words]. now rewrite Hx, Hne.
  - change (py_join ", " (x :: y :: l))
      with (x +:+ String "," (String " " (py_join ", " (y :: l)))).
    rewrite (py_split_comma_append x _ Hcomma). cbn [stripped_words].
    rewrite Hx, Hne, stripped_words_after_space, IH by discriminate.
    reflexivity.
Qed.

(** X12. The vocabulary survives the way through the entry field: a list
    of terms read from the settings file - each without a comma, without
    white space around it and not empty - is shown in the vocabulary entry
    joined by commas, and [get_custom_vocabulary] reads the same list back
    from it. *)
Theorem vocabulary_round_trip (env : Env) (a : App)
  (o : gmap string JValue) (l : list string) (entry : string) :
  config_file a = JsonObject o ->
  o !! "CUSTOM_VOCABULARY" = Some (JList l) ->
  l <> [] ->
  Forall (fun w => (py_strip w = w /\ w <> EmptyString)
                   /\ py_contains "," w = false) l ->
  vocab_entry a = Some entry ->
  vocab_entry (load_settings env a) = Some (py_join ", " l)
  /\ get_custom_vocabulary (load_settings env a) = Ok l.
Proof.
  intros Hfile Hvoc Hne Hl Hentry.
  assert (Hload : vocab_entry (load_settings env a) = Some (py_join ", " l)).
  { unfold load_settings. rewrite Hfile, Hvoc. simpl.
    destruct l; [congruence|]. simpl. rewrite Hentry. reflexivity. }
  split; [exact Hload|].
  unfold get_custom_vocabulary. rewrite Hload.
  assert (Hclean : Forall (fun w => py_strip w = w /\ w <> EmptyString) l)
    by (eapply Forall_impl; [exact Hl | intros w [H _]; exact H]).
  rewrite (py_join_comma_stripped l Hclean).
  destruct l as [|x l']; [congruence|].
  inversion Hclean as [|? ? [_ Hx] _]; subst.
  pose proof (py_join_comma_nonempty x l' Hx) as Hj.
  apply String.eqb_neq in Hj. rewrite Hj.
  now rewrite stripped_words_join.
Qed.

Lemma vocabulary_round_trip_witness :
  get_custom_vocabulary
    (load_settings env0
       (set_config_file
          (JsonObject {["CUSTOM_VOCABULARY" := JList ["PyQt6"; "API endpoint"]]})
          app0))
  = Ok ["PyQt6"; "API endpoint"].
Proof.
  destruct (vocabulary_round_trip env0
              (set_config_file
                 (JsonObject
                    {["CUSTOM_VOCABULARY" := JList ["PyQt6"; "API endpoint"]]})
                 app0)
              {["CUSTOM_VOCABULARY" := JList ["PyQt6"; "API endpoint"]]}
              ["PyQt6"; "API endpoint"] EmptyString eq_refl)
    as [_ Hget].
  - apply lookup_singleton_eq.
  - discriminate.
  - repeat constructor; try discriminate; vm_compute; reflexivity.
  - reflexivity.
  - exact Hget.
Defined.

Lemma stripped_words_clean (words : list string) :
  Forall (fun w => w <> EmptyString /\ py_strip w = w) (stripped_words words).
Proof.
  induction words as [|word words IH]; [constructor|].
  cbn [stripped_words].
  destruct (String.eqb (py_strip word) EmptyString) eqn:H; [exact IH|].
  constructor; [|exact IH].
  split; [now apply String.eqb_neq | apply py_strip_idem].
Qed.

(** X13. Every term [get_custom_vocabulary] returns is non-empty and has no
    white space around it, whatever was typed; an entry that is blank gives
    the empty list, and before the widget exists the call raises. *)
Theorem get_custom_vocabulary_terms (a : App) :
  (forall l, get_custom_vocabulary a = Ok l ->
     Forall (fun w => w <> EmptyString /\ py_strip w = w) l)
  /\ (forall entry, vocab_entry a = Some entry ->
        py_strip entry = EmptyString -> get_custom_vocabulary a = Ok [])
  /\ (vocab_entry a = None -> exists e, get_custom_vocabulary a = Raise e).
Proof.
  unfold get_custom_vocabulary. split; [|split].
  - intros l. destruct (vocab_entry a) as [entry|]; [|discriminate].
    destruct (String.eqb (py_strip entry) EmptyString).
    + intros [= <-]. constructor.
    + intros [= <-]. apply stripped_words_clean.
  - intros entry -> ->. reflexivity.
  - intros ->. eexists. reflexivity.
Qed.

Lemma get_custom_vocabulary_terms_witness :
  get_custom_vocabulary app_french = Ok ["PyQt6"; "JSON"]
  /\ Forall (fun w => w <> EmptyString /\ py_strip w = w) ["PyQt6"; "JSON"].
Proof.
  split; [reflexivity|].
  destruct (get_custom_vocabulary_terms app_french) as (Hterms & _).
  apply Hterms. reflexivity.
Defined.

(** ** Loading the settings *)

(** X14. [load_settings] takes each value as the file has it, of whatever
    JSON type, and a default for a key the file lacks: the empty string for
    the two keys, the default directory, the model "gemini-1.5-flash" -
    and, for the prompt, the function [cleanup_prompt] itself rather than
    its text. *)
Theorem load_settings_missing_keys (env : Env) (a : App)
  (o : gmap string JValue) :
  config_file a = JsonObject o ->
  o !! "CUSTOM_VOCABULARY" = None ->
  assembly_api_key (load_settings env a)
  = match o !! "ASSEMBLY_API_KEY" with
    | Some j => PJson j | None => PStr EmptyString end
  /\ gemini_api_key (load_settings env a)
     = match o !! "GOOGLE_API_KEY" with
       | Some j => PJson j | None => PStr EmptyString end
  /\ output_dir (load_settings env a)
     = match o !! "OUTPUT_DIR" with
       | Some j => PJson j
       | None => PStr (path_join (path_join (home env) "Documents")
                         "Transcriptions")
       end
  /\ self_cleanup_prompt (load_settings env a)
     = match o !! "CLEANUP_PROMPT" with
       | Some j => PJson j | None => PCleanupPromptFunction end
  /\ gemini_model (load_settings env a)
     = Some match o !! "GEMINI_MODEL" with
            | Some j => PJson j | None => PStr "gemini-1.5-flash" end
  /\ vocab_entry (load_settings env a) = vocab_entry a.
Proof.
  intros Hfile Hvoc. unfold load_settings, settings_get.
  rewrite Hfile, Hvoc. simpl. repeat split.
Qed.

Lemma load_settings_missing_keys_witness :
  self_cleanup_prompt
    (load_settings env0 (set_config_file (JsonObject ∅) app0))
  = PCleanupPromptFunction
  /\ gemini_model (load_settings env0 (set_config_file (JsonObject ∅) app0))
     = Some (PStr "gemini-1.5-flash").
Proof.
  destruct (load_settings_missing_keys env0
              (set_config_file (JsonObject ∅) app0) ∅ eq_refl
              (lookup_empty "CUSTOM_VOCABULARY"))
    as (_ & _ & _ & Hprompt & Hmodel & _).
  split; [exact Hprompt | exact Hmodel].
Defined.

(** X15. [load_settings] falls back to the defaults for all five settings,
    dropping the keys the file holds, when the file cannot be read and
    also when the file lists vocabulary terms while the vocabulary entry
    does not exist yet - as at start-up, where [load_settings] runs before
    [setup_ui]. *)
Theorem load_settings_falls_back_to_defaults (env : Env) (a : App) :
  ((exists e, config_file a = Unreadable e)
   \/ (exists o j,
         config_file a = JsonObject o
         /\ o !! "CUSTOM_VOCABULARY" = Some j /\ j_truthy j = true
         /\ vocab_entry a = None)) ->
  assembly_api_key (load_settings env a) = PStr EmptyString
  /\ gemini_api_key (load_settings env a) = PStr EmptyString
  /\ output_dir (load_settings env a) = PStr (default_output_dir env)
  /\ self_cleanup_prompt (load_settings env a)
     = PStr (cleanup_prompt EmptyString)
  /\ gemini_model (load_settings env a) = Some (PStr "gemini-1.5-flash")
  /\ validate_api_keys (load_settings env a) = false.
Proof.
  intros [(e & Hfile) | (o & j & Hfile & Hvoc & Hj & Hentry)];
    unfold load_settings; rewrite Hfile.
  - repeat split.
  - rewrite Hvoc. simpl. rewrite Hj, Hentry. repeat split.
Qed.

Lemma load_settings_falls_back_to_defaults_witness :
  assembly_api_key
    (load_settings env0
       (set_vocab_entry None
          (set_config_file
             (JsonObject
                (<["CUSTOM_VOCABULARY" := JList ["PyQt6"]]>
                   {["ASSEMBLY_API_KEY" := JStr "aai-key"]}))
             app0)))
  = PStr EmptyString.
Proof.
  destruct (load_settings_falls_back_to_defaults env0
              (set_vocab_entry None
                 (set_config_file
                    (JsonObject
                       (<["CUSTOM_VOCABULARY" := JList ["PyQt6"]]>
                          {["ASSEMBLY_API_KEY" := JStr "aai-key"]}))
                    app0))) as (Hkey & _).
  - right. exists (<["CUSTOM_VOCABULARY" := JList ["PyQt6"]]>
                     {["ASSEMBLY_API_KEY" := JStr "aai-key"]}), (JList ["PyQt6"]).
    split; [reflexivity|]. split; [apply lookup_insert_eq|].
    split; reflexivity.
  - exact Hkey.
Defined.

(** ** The settings dialog *)

Lemma collect_settings_eq (d1 d2 : SettingsDialog) :
  py_strip (assembly_key d1) = py_strip (assembly_key d2) ->
  py_strip (gemini_key d1) = py_strip (gemini_key d2) ->
  py_strip (dir_entry d1) = py_strip (dir_entry d2) ->
  py_strip (prompt_text d1) = py_strip (prompt_text d2) ->
  currentText d1 = currentText d2 ->
  collect_settings d1 = collect_settings d2.
Proof.
  intros H1 H2 H3 H4 H5. unfold collect_settings.
  now rewrite H1, H2, H3, H4, H5.
Qed.

(** X16. Saving is stable: opening the dialog on the file it saved and
    accepting it again, without an edit, writes the same JSON object. *)
Theorem save_reload_save_is_stable (env : Env) (d d' : SettingsDialog)
  (parent : App) (m : string) :
  model_combo_items d' = model_combo_items d ->
  model_combo_items d !! model_combo_index d = Some m ->
  collect_settings
    (dialog_load_settings env (config_file (save_settings d parent)) d')
  = collect_settings d.
Proof.
  intros Hitems Hm.
  destruct (dialog_reload_saved env d d' parent m Hitems Hm)
    as (H1 & H2 & H3 & H4 & H5).
  apply collect_settings_eq;
    rewrite ?H1, ?H2, ?H3, ?H4, ?py_strip_idem; auto.
Qed.

Lemma save_reload_save_is_stable_witness :
  collect_settings
    (dialog_load_settings env0 (config_file (save_settings dialog0 app0))
       dialog1)
  = collect_settings dialog0.
Proof.
  apply (save_reload_save_is_stable env0 dialog0 dialog1 app0
           "gemini-1.5-flash"); reflexivity.
Defined.

Lemma findText_absent (t : string) (items : list string) :
  (forall i, items !! i <> Some t) -> findText t items = None.
Proof.
  induction items as [|x items IH]; intros H; [reflexivity|].
  cbn [findText]. destruct (String.eqb x t) eqn:Hx.
  - apply String.eqb_eq in Hx as ->. now destruct (H 0).
  - rewrite IH; [reflexivity|]. intros i. apply (H (S i)).
Qed.

(** X17. A saved model that the combo box does not offer is dropped in
    silence: the dialog keeps the selection it had, and accepting it
    writes that selection over the saved model. *)
Theorem dialog_drops_unknown_model (env : Env) (d : SettingsDialog)
  (o : gmap string JValue) (k1 k2 k3 k4 model : string) :
  o !! "ASSEMBLY_API_KEY" = Some (JStr k1) ->
  o !! "GOOGLE_API_KEY" = Some (JStr k2) ->
  o !! "OUTPUT_DIR" = Some (JStr k3) ->
  o !! "CLEANUP_PROMPT" = Some (JStr k4) ->
  o !! "GEMINI_MODEL" = Some (JStr model) ->
  (forall i, model_combo_items d !! i <> Some model) ->
  currentText (dialog_load_settings env (JsonObject o) d) = currentText d
  /\ collect_settings (dialog_load_settings env (JsonObject o) d)
       !! "GEMINI_MODEL"
     = Some (JStr (currentText d)).
Proof.
  intros H1 H2 H3 H4 H5 Habsent.
  assert (Hcur : currentText (dialog_load_settings env (JsonObject o) d)
                 = currentText d).
  { unfold dialog_load_settings. rewrite H1, H2, H3, H4, H5. simpl.
    unfold set_current_model. simpl.
    now rewrite (findText_absent model _ Habsent). }
  split; [exact Hcur|].
  destruct (collect_settings_lookup
              (dialog_load_settings env (JsonObject o) d))
    as (_ & _ & _ & _ & Hmodel & _).
  now rewrite Hmodel, Hcur.
Qed.

Lemma dialog_drops_unknown_model_witness :
  currentText
    (dialog_load_settings env0
       (JsonObject
          (<["GEMINI_MODEL" := JStr "gemini-1.0-pro"]>
             (collect_settings dialog1)))
       dialog1)
  = "gemini-1.5-flash".
Proof.
  assert (Habsent : forall i,
             model_combo_items dialog1 !! i <> Some "gemini-1.0-pro")
    by (intros [|[|i]]; vm_compute; discriminate).
  assert (Hkeys :
            (<["GEMINI_MODEL" := JStr "gemini-1.0-pro"]>
               (collect_settings dialog1)) !! "ASSEMBLY_API_KEY"
            = Some (JStr "aai-key")
            /\ (<["GEMINI_MODEL" := JStr "gemini-1.0-pro"]>
                  (collect_settings dialog1)) !! "GOOGLE_API_KEY"
               = Some (JStr "g-key")
            /\ (<["GEMINI_MODEL" := JStr "gemini-1.0-pro"]>
                  (collect_settings dialog1)) !! "OUTPUT_DIR"
               = Some (JStr "/out")
            /\ (<["GEMINI_MODEL" := JStr "gemini-1.0-pro"]>
                  (collect_settings dialog1)) !! "CLEANUP_PROMPT"
               = Some (JStr "Clean: {transcript}")
            /\ (<["GEMINI_MODEL" := JStr "gemini-1.0-pro"]>
                  (collect_settings dialog1)) !! "GEMINI_MODEL"
               = Some (JStr "gemini-1.0-pro"))
    by (repeat split; vm_compute; reflexivity).
  destruct Hkeys as (H1 & H2 & H3 & H4 & H5).
  destruct (dialog_drops_unknown_model env0 dialog1 _ _ _ _ _ _
              H1 H2 H3 H4 H5 Habsent) as [Hcur _].
  exact Hcur.
Defined.

Lemma load_settings_config_file (env : Env) (a : App) :
  config_file (load_settings env a) = config_file a.
Proof.
  unfold load_settings.
  destruct (config_file a) as [|e|o] eqn:Hfile; [exact Hfile | exact Hfile|].
  destruct (j_truthy (default (JList []) (o !! "CUSTOM_VOCABULARY")));
    [|exact Hfile].
  cbn [vocab_entry set_assembly_api_key set_gemini_api_key set_output_dir
       set_self_cleanup_prompt set_gemini_model].
  destruct (vocab_entry a); exact Hfile.
Qed.

(** [fetch_available_models] logs one or two lines and changes nothing
    else. *)
Lemma fetch_available_models_logs (list_models : Res (list string))
  (a : App) :
  exists lines,
    lines <> []
    /\ snd (fetch_available_models list_models a)
       = fold_left (fun b message => log_debug message b) lines a.
Proof.
  unfold fetch_available_models.
  destruct (truthy (gemini_api_key a)); cbv beta iota zeta;
    change (negb true) with false; change (negb false) with true;
    cbv beta iota.
  - destruct list_models as [names|e].
    + eexists [_; _]. split; [discriminate | reflexivity].
    + eexists [_; _]. split; [discriminate | reflexivity].
  - eexists [_]. split; [discriminate | reflexivity].
Qed.

Lemma log_debug_lines_frame (lines : list string) (a : App) :
  let r := fold_left (fun b message => log_debug message b) lines a in
  config_file r = config_file a
  /\ current_output_file r = current_output_file a
  /\ status_bar r = status_bar a
  /\ files r = files a
  /\ vocab_entry r = vocab_entry a.
Proof.
  revert a. induction lines as [|m lines IH]; intros a; [repeat split|].
  cbn [fold_left]. cbv zeta in IH |- *.
  destruct (IH (log_debug m a)) as (H1 & H2 & H3 & H4 & H5).
  rewrite H1, H2, H3, H4, H5. repeat split.
Qed.

Lemma show_settings_accepted (env : Env) (list_models : Res (list string))
  (d : SettingsDialog) (a : App) :
  let d' := with_models (fst (fetch_available_models list_models a)) d in
  let b := snd (fetch_available_models list_models a) in
  show_settings env list_models (Some d) a
  = if validate_api_keys (load_settings env (save_settings d' b))
    then showMessage "Settings updated successfully"
           (log_debug "Settings updated successfully"
              (load_settings env (save_settings d' b)))
    else showMessage "Warning: Invalid or missing API keys"
           (log_debug "Warning: Invalid or missing API keys after update"
              (load_settings env (save_settings d' b))).
Proof.
  unfold show_settings.
  destruct (fetch_available_models list_models a) as [models b].
  reflexivity.
Qed.

Lemma show_settings_rejected (env : Env) (list_models : Res (list string))
  (a : App) :
  show_settings env list_models None a
  = snd (fetch_available_models list_models a).
Proof.
  unfold show_settings.
  destruct (fetch_available_models list_models a) as [models b].
  reflexivity.
Qed.

Lemma show_settings_messages (b : App) :
  let r := if validate_api_keys b
           then showMessage "Settings updated successfully"
                  (log_debug "Settings updated successfully" b)
           else showMessage "Warning: Invalid or missing API keys"
                  (log_debug "Warning: Invalid or missing API keys after update"
                     b) in
  validate_api_keys r = validate_api_keys b
  /\ last (status_bar r)
     = Some (if validate_api_keys b
             then "Settings updated successfully"
             else "Warning: Invalid or missing API keys")
  /\ config_file r = config_file b
  /\ current_output_file r = current_output_file b.
Proof.
  destruct (validate_api_keys b) eqn:Hvalid; cbv zeta.
  - split; [exact Hvalid|]. split; [apply last_snoc|]. split; reflexivity.
  - split; [exact Hvalid|]. split; [apply last_snoc|]. split; reflexivity.
Qed.

(** X18. Opening the settings dialog asks for the models to offer, which
    logs at least one line; a rejected dialog does nothing else.
    Accepting the dialog validates the keys as saved, that is stripped:
    the keys count as present exactly when neither is blank, the status bar
    says which, and the settings file holds the five keys collected from
    the dialog, whose combo box holds the models fetched. *)
Theorem show_settings_validates_stripped_keys (env : Env)
  (list_models : Res (list string)) (d : SettingsDialog) (a : App) :
  (exists lines,
     lines <> []
     /\ show_settings env list_models None a
        = fold_left (fun b message => log_debug message b) lines a)
  /\ validate_api_keys (show_settings env list_models (Some d) a)
     = negb (String.eqb (py_strip (assembly_key d)) EmptyString)
       && negb (String.eqb (py_strip (gemini_key d)) EmptyString)
  /\ last (status_bar (show_settings env list_models (Some d) a))
     = Some (if validate_api_keys (show_settings env list_models (Some d) a)
             then "Settings updated successfully"
             else "Warning: Invalid or missing API keys")
  /\ config_file (show_settings env list_models (Some d) a)
     = JsonObject
         (collect_settings
            (with_models (fst (fetch_available_models list_models a)) d)).
Proof.
  split.
  { rewrite show_settings_rejected. apply fetch_available_models_logs. }
  rewrite show_settings_accepted. cbv zeta.
  set (d' := with_models (fst (fetch_available_models list_models a)) d).
  set (b := snd (fetch_available_models list_models a)).
  destruct (load_saved_settings env d' b (save_settings d' b) eq_refl)
    as (H1 & H2 & _).
  assert (Hv : validate_api_keys (load_settings env (save_settings d' b))
               = negb (String.eqb (py_strip (assembly_key d)) EmptyString)
                 && negb (String.eqb (py_strip (gemini_key d)) EmptyString)).
  { unfold validate_api_keys. rewrite H1, H2. reflexivity. }
  destruct (show_settings_messages (load_settings env (save_settings d' b)))
    as (E1 & E2 & E3 & _).
  rewrite E1, E2, E3, load_settings_config_file.
  split; [exact Hv|]. split; reflexivity.
Qed.

(** X19. [fetch_available_models] never returns an empty list.  Without a
    key, when the service raises, and when it lists no model whose name
    contains "gemini" in any case, the result is the two built-in names;
    when it lists such models the result is exactly the last component of
    each of their names, in the order listed.  Every path logs at least
    one line and changes nothing else. *)
Theorem fetch_available_models_never_empty (list_models : Res (list string))
  (a : App) :
  fst (fetch_available_models list_models a) <> []
  /\ (truthy (gemini_api_key a) = false ->
      fst (fetch_available_models list_models a) = default_models)
  /\ (forall e, list_models = Raise e ->
        fst (fetch_available_models list_models a) = default_models)
  /\ (forall names,
        truthy (gemini_api_key a) = true ->
        list_models = Ok names ->
        ((forall name, In name names ->
            py_contains "gemini" (py_lower name) = false) ->
         fst (fetch_available_models list_models a) = default_models)
        /\ ((exists name, In name names
                          /\ py_contains "gemini" (py_lower name) = true) ->
            fst (fetch_available_models list_models a)
            = map basename
                (List.filter
                   (fun name => py_contains "gemini" (py_lower name))
                   names)))
  /\ (exists lines,
        lines <> []
        /\ snd (fetch_available_models list_models a)
           = fold_left (fun b message => log_debug message b) lines a).
Proof.
  split; [|split; [|split; [|split]]].
  - unfold fetch_available_models.
    destruct (truthy (gemini_api_key a)); simpl; [|discriminate].
    destruct list_models as [names|e]; [|discriminate].
    simpl. destruct (map basename _); discriminate.
  - unfold fetch_available_models. intros ->. reflexivity.
  - unfold fetch_available_models. intros e ->.
    destruct (truthy (gemini_api_key a)); reflexivity.
  - intros names Hkey ->. unfold fetch_available_models. rewrite Hkey.
    cbn [negb fst]. split.
    + intros Hnone.
      assert (Hempty : List.filter
                         (fun name => py_contains "gemini" (py_lower name))
                         names = []).
      { induction names as [|n names IH]; [reflexivity|].
        cbn [List.filter]. rewrite (Hnone n) by now left.
        apply IH. intros name Hin. apply Hnone. now right. }
      rewrite Hempty. reflexivity.
    + intros (name & Hin & Hgem).
      assert (Hin' : In name
                       (List.filter
                          (fun name => py_contains "gemini" (py_lower name))
                          names))
        by (apply filter_In; auto).
      destruct (List.filter _ names) as [|x l]; [destruct Hin'|].
      reflexivity.
  - apply fetch_available_models_logs.
Qed.

Lemma fetch_available_models_never_empty_witness :
  fst (fetch_available_models
         (Ok ["models/gemini-1.5-pro"; "models/embedding-001";
              "models/Gemini-2.0-flash"]) app0)
  = ["gemini-1.5-pro"; "Gemini-2.0-flash"]
  /\ last (debug_display
             (snd (fetch_available_models
                     (Ok ["models/gemini-1.5-pro"; "models/embedding-001";
                          "models/Gemini-2.0-flash"]) app0)))
     = Some "Available models: ['gemini-1.5-pro', 'Gemini-2.0-flash']"
  /\ fst (fetch_available_models (Raise "network down") app0)
     = default_models.
Proof.
  destruct (fetch_available_models_never_empty
              (Ok ["models/gemini-1.5-pro"; "models/embedding-001";
                   "models/Gemini-2.0-flash"]) app0)
    as (_ & _ & _ & Hlisted & _).
  destruct (Hlisted _ eq_refl eq_refl) as [_ Hsome].
  split.
  { rewrite Hsome; [reflexivity|].
    exists "models/gemini-1.5-pro". split; [now left | reflexivity]. }
  split; [vm_compute; reflexivity|].
  destruct (fetch_available_models_never_empty (Raise "network down") app0)
    as (_ & _ & Hraise & _).
  apply (Hraise "network down"). reflexivity.
Defined.

Example py_repr_examples :
  py_repr "gemini-1.5-pro" = "'gemini-1.5-pro'"
  /\ py_repr "it's" = dq +:+ "it's" +:+ dq
  /\ py_repr ("say 'a' " +:+ dq +:+ "b" +:+ dq)
     = "'say " +:+ String backslash "'a" +:+ String backslash "' "
       +:+ dq +:+ "b" +:+ dq +:+ "'"
  /\ py_repr ("a" +:+ nl +:+ String (ascii_of_nat 27) "b")
     = "'a" +:+ String backslash "n" +:+ String backslash "x1bb'"
  /\ py_repr_list [] = "[]"
  /\ py_repr_list ["a"; "b"] = "['a', 'b']".
Proof. repeat split; vm_compute; reflexivity. Qed.

(** ** What no run of the application does *)

Ltac split_cases :=
  repeat match goal with
         | |- context [match ?x with _ => _ end] => destruct x eqn:?
         | |- context [if ?x then _ else _] => destruct x eqn:?
         end.

Lemma start_recording_invariant (env : Env) (a : App) :
  app_invariant a -> app_invariant (start_recording env a).
Proof.
  unfold app_invariant, output_path_ok. intros [Hc Hp].
  unfold start_recording, validate_api_keys. simpl.
  destruct (truthy (assembly_api_key a) && truthy (gemini_api_key a));
    simpl; [|auto].
  destruct (output_dir a) as [[dir|l]|]; simpl; auto.
  destruct (makedirs_error env); simpl; eauto.
Qed.

Lemma stop_recording_invariant (env : Env) (a : App) :
  app_invariant a -> app_invariant (stop_recording env a).
Proof.
  unfold app_invariant, output_path_ok. intros [Hc Hp].
  assert (H : config_file (stop_recording env a) = config_file a
              /\ current_output_file (stop_recording env a)
                 = current_output_file a).
  { unfold stop_recording, requestStop, run_finish, cleanup. simpl.
    split_cases; simpl; auto. }
  destruct H as [-> ->]. auto.
Qed.

Lemma upload_audio_transcribe_invariant (env : Env) (media : AudioExtraction)
  (transcribe : string -> TranscriberConfig -> Res Transcript)
  (file_path : string) (temp_audio_path : option string)
  (file_to_transcribe : string) (b : App) :
  app_invariant b ->
  app_invariant
    (upload_audio_transcribe env media transcribe file_path temp_audio_path
       file_to_transcribe b).
Proof.
  unfold app_invariant, output_path_ok. intros [Hc Hp].
  assert (Hexcept : forall e c,
            config_file c = config_file b ->
            (current_output_file c = current_output_file b
             \/ exists session_dir,
                  current_output_file c
                  = Some (path_join session_dir "transcript.txt")) ->
            no_vocabulary
              (config_file (upload_audio_except media temp_audio_path e c))
            /\ match current_output_file
                       (upload_audio_except media temp_audio_path e c) with
               | Some path =>
                   exists session_dir,
                     path = path_join session_dir "transcript.txt"
               | None => True
               end).
  { intros e c Hcc Hcp.
    destruct (upload_audio_except_fields media temp_audio_path e c)
      as (_ & _ & _ & H4 & _ & H6 & _).
    rewrite H4, H6, Hcc. split; [exact Hc|].
    destruct Hcp as [-> | (session_dir & ->)]; [exact Hp | eauto]. }
  unfold upload_audio_transcribe. cbv zeta.
  destruct (String.eqb (py_strip (name_entry b)) EmptyString); simpl;
    (destruct (output_dir b) as [[dir|l]|]; simpl;
     [|apply Hexcept; auto|apply Hexcept; auto];
     destruct (makedirs_error env); simpl; [apply Hexcept; auto|];
     destruct (transcribe _ _) as [t|e]; simpl;
     [|apply Hexcept; simpl; eauto];
     destruct (multiple_speakers_cb b); simpl;
     [destruct (utterances t); simpl; [|apply Hexcept; simpl; eauto]|];
     match goal with
     | |- context [upload_audio_finally media temp_audio_path ?x] =>
         destruct (upload_audio_finally_fields media temp_audio_path x)
           as (_ & _ & _ & H4 & _ & H6 & _)
     end; rewrite H4, H6; simpl; eauto).
Qed.

Lemma upload_audio_invariant (env : Env) (media : AudioExtraction)
  (transcribe : string -> TranscriberConfig -> Res Transcript)
  (file_path : string) (a : App) :
  app_invariant a ->
  app_invariant (upload_audio env media transcribe file_path a).
Proof.
  intros H. unfold upload_audio.
  destruct (negb (validate_api_keys a)); [exact H|].
  destruct (String.eqb file_path EmptyString); [exact H|].
  destruct (is_video_file file_path);
    [|now apply upload_audio_transcribe_invariant].
  cbv zeta.
  assert (Hb : app_invariant
                 (log_debug "Extracting audio from video file..."
                    (showMessage "Extracting audio from video..." a)))
    by exact H.
  assert (Hexcept : forall temp e c,
            app_invariant c ->
            app_invariant (upload_audio_except media temp e c)).
  { intros temp e c [Hc Hp]. unfold app_invariant, output_path_ok in *.
    destruct (upload_audio_except_fields media temp e c)
      as (_ & _ & _ & H4 & _ & H6 & _).
    rewrite H4, H6. auto. }
  destruct (output_dir _) as [[dir|l]|]; try (now apply Hexcept).
  destruct (temp_makedirs_error media); [now apply Hexcept|].
  destruct (export_error media); [now apply Hexcept|].
  now apply upload_audio_transcribe_invariant.
Qed.

Lemma create_summary_invariant
  (llm : PyVal -> PyVal -> string -> Res string) (a : App) :
  app_invariant a -> app_invariant (create_summary llm a).
Proof.
  unfold app_invariant, output_path_ok. intros [Hc Hp].
  assert (H : config_file (create_summary llm a) = config_file a
              /\ current_output_file (create_summary llm a)
                 = current_output_file a).
  { unfold create_summary. simpl. split_cases; simpl; auto. }
  destruct H as [-> ->]. auto.
Qed.

Lemma load_settings_current_output_file (env : Env) (a : App) :
  current_output_file (load_settings env a) = current_output_file a.
Proof.
  unfold load_settings.
  destruct (config_file a) as [|e|o]; [reflexivity | reflexivity|].
  destruct (j_truthy (default (JList []) (o !! "CUSTOM_VOCABULARY")));
    [|reflexivity].
  cbn [vocab_entry set_assembly_api_key set_gemini_api_key set_output_dir
       set_self_cleanup_prompt set_gemini_model].
  destruct (vocab_entry a); reflexivity.
Qed.

Lemma save_settings_file (d : SettingsDialog) (b : App) :
  config_file (save_settings d b) = JsonObject (collect_settings d)
  /\ current_output_file (save_settings d b) = current_output_file b.
Proof. split; reflexivity. Qed.

Lemma show_settings_invariant (env : Env) (list_models : Res (list string))
  (outcome : option SettingsDialog) (a : App) :
  app_invariant a -> app_invariant (show_settings env list_models outcome a).
Proof.
  unfold app_invariant, output_path_ok. intros [Hc Hp].
  destruct (fetch_available_models_logs list_models a) as (lines & _ & Hb).
  destruct (log_debug_lines_frame lines a) as (F1 & F2 & _).
  cbv zeta in F1, F2. rewrite <- Hb in F1, F2.
  destruct outcome as [d|].
  2:{ rewrite show_settings_rejected, F1, F2. auto. }
  rewrite show_settings_accepted. cbv zeta.
  generalize dependent (snd (fetch_available_models list_models a)).
  intros b _ F1 F2.
  generalize (with_models (fst (fetch_available_models list_models a)) d).
  intros d'.
  destruct (collect_settings_lookup d') as (_ & _ & _ & _ & _ & Hvoc).
  destruct (show_settings_messages (load_settings env (save_settings d' b)))
    as (_ & _ & E3 & E4).
  destruct (save_settings_file d' b) as [S1 S2].
  rewrite E3, E4, load_settings_config_file,
    load_settings_current_output_file, S1, S2, F2.
  split; [exact Hvoc | exact Hp].
Qed.

Lemma dispatch_invariant (env : Env) (sig : Signal) (a a' : App) :
  dispatch env sig a = Ok a' -> app_invariant a -> app_invariant a'.
Proof.
  destruct sig as [t|msg| |]; simpl.
  - unfold handle_transcript, app_invariant, output_path_ok.
    destruct (String.eqb (text t) EmptyString); [now intros [= <-]|].
    destruct (is_final t).
    + destruct (current_output_file a) eqn:Hp; [|discriminate].
      intros [= <-] [Hc Ho]. simpl. rewrite Hp. auto.
    + now intros [= <-].
  - intros [= <-] H. unfold handle_recording_error.
    apply stop_recording_invariant. exact H.
  - now intros [= <-].
  - intros [= <-]. unfold app_invariant, output_path_ok, handle_thread_finished.
    simpl. destruct (recording_thread a); auto.
Qed.

Lemma capture_connects_invariant (env : Env) (a : App) :
  app_invariant a -> app_invariant (capture_connects env a).
Proof.
  unfold app_invariant, output_path_ok. intros [Hc Hp].
  assert (H : config_file (capture_connects env a) = config_file a
              /\ current_output_file (capture_connects env a)
                 = current_output_file a).
  { unfold capture_connects, run_connect, run_finish, cleanup. simpl.
    split_cases; simpl; auto. }
  destruct H as [-> ->]. auto.
Qed.

Lemma perform_invariant (env : Env) (svc : Services) (act : Action)
  (a a' : App) :
  perform env svc act a = Ok a' -> app_invariant a -> app_invariant a'.
Proof.
  destruct act; simpl.
  - intros [= <-] H. destruct (record_button_enabled a); [|exact H].
    unfold toggle_recording.
    destruct (String.eqb (record_button_text a) "Start Recording");
      [now apply start_recording_invariant | now apply stop_recording_invariant].
  - intros [= <-] H. destruct (upload_button_enabled a); [|exact H].
    now apply upload_audio_invariant.
  - intros [= <-] H. destruct (summarize_button_enabled a); [|exact H].
    now apply create_summary_invariant.
  - intros [= <-] H. now apply show_settings_invariant.
  - intros [= <-] H. unfold closeEvent. now destruct (gemini_model a).
  - intros [= <-] H. now apply capture_connects_invariant.
  - destruct (pending a) as [|sig rest]; [now intros [= <-]|].
    intros Hd H. eapply dispatch_invariant; [exact Hd | exact H].
Qed.

(** X20. Whatever is clicked, delivered or answered, in whatever order:
    from a state whose settings file holds no vocabulary, the settings file
    never comes to hold one - the only writer is the settings dialog, with
    its five keys; closing the window saves nothing - and the output path,
    once set, is always [transcript.txt] in some directory. *)
Theorem no_run_saves_vocabulary (svc : Services) (run : list (Env * Action))
  (a a' : App) :
  no_vocabulary (config_file a) ->
  output_path_ok a ->
  perform_all svc run a = Ok a' ->
  no_vocabulary (config_file a') /\ output_path_ok a'.
Proof.
  intros Hc Hp. assert (H : app_invariant a) by (split; assumption).
  clear Hc Hp. revert a H.
  induction run as [|[env act] run IH]; intros a H; simpl.
  - now intros [= <-].
  - destruct (perform env svc act a) as [a1|e] eqn:Hstep; [|discriminate].
    intros Hrest. apply (IH a1); [|exact Hrest].
    eapply perform_invariant; eauto.
Qed.

Lemma no_run_saves_vocabulary_witness :
  exists a',
    perform_all services0 run0 app0 = Ok a'
    /\ no_vocabulary (config_file a') /\ output_path_ok a'.
Proof.
  assert (Hrun : exists a', perform_all services0 run0 app0 = Ok a').
  { eexists. vm_compute. reflexivity. }
  destruct Hrun as [a' Hrun]. exists a'. split; [exact Hrun|].
  apply (no_run_saves_vocabulary services0 run0 app0 a');
    [exact I | exact I | exact Hrun].
Defined.

(** ** The life of a capture task *)

(** X21. [run] always ends through [cleanup]: whether connecting failed,
    the microphone could not be opened, or the stream ran its course, and
    provided no [close()] raises, the thread holds neither connection nor
    microphone afterwards and is no longer running; it has emitted the
    error of the failure, or what the stream delivered in order, and then
    [recording_stopped] and [finished], once each. *)
Theorem run_always_cleans_up (env : Env) (th : RecordingThread) :
  transcriber_close_error env = None ->
  microphone_close_error env = None ->
  transcriber (fst (run env th)) = None
  /\ microphone_stream (fst (run env th)) = None
  /\ is_recording (fst (run env th)) = false
  /\ isRunning (fst (run env th)) = false
  /\ snd (run env th)
     = match connect_error env, microphone_error env with
       | Some e, _ => [error_occurred e]
       | None, Some e => [error_occurred e]
       | None, None => stream_signals env
       end ++ [recording_stopped; finished].
Proof.
  intros Ht Hm.
  assert (Hfin : forall t,
             transcriber (fst (run_finish env t)) = None
             /\ microphone_stream (fst (run_finish env t)) = None
             /\ is_recording (fst (run_finish env t)) = false
             /\ isRunning (fst (run_finish env t)) = false
             /\ snd (run_finish env t) = [recording_stopped; finished]).
  { intros t. destruct (cleanup_without_error env t Ht Hm) as (H1 & H2 & H3).
    destruct (run_finish_ends env t) as (H4 & H5 & H6).
    unfold run_finish in *. destruct (cleanup env t) as [t' sigs].
    simpl in *. subst sigs. auto. }
  unfold run, run_connect.
  destruct (connect_error env) as [e|].
  - specialize (Hfin (set_transcriber
                        (Some {| sample_rate := 44100;
                                 end_utterance_silence_threshold := 700 |})
                        th)).
    destruct (run_finish env _) as [t' sigs]. simpl in *.
    destruct Hfin as (? & ? & ? & ? & ->). auto.
  - destruct (microphone_error env) as [e|].
    + specialize (Hfin (set_transcriber
                          (Some {| sample_rate := 44100;
                                   end_utterance_silence_threshold := 700 |})
                          th)).
      destruct (run_finish env _) as [t' sigs]. simpl in *.
      destruct Hfin as (? & ? & ? & ? & ->). auto.
    + match goal with
      | |- context [run_finish env ?t] => specialize (Hfin t)
      end.
      destruct (run_finish env _) as [t' sigs]. simpl in *.
      destruct Hfin as (? & ? & ? & ? & ->). auto.
Qed.

Lemma run_always_cleans_up_witness :
  snd (run {| home := "/home/u"; now := "20240101_120000";
              makedirs_error := None;
              connect_error := Some "401 Unauthorized";
              microphone_error := None; stream_data := [];
              stream_error := None; transcriber_close_error := None;
              microphone_close_error := None; wait_in_time := true |}
         (RecordingThread_init (PStr "bad-key")))
  = [error_occurred "401 Unauthorized"; recording_stopped; finished].
Proof.
  destruct (run_always_cleans_up
              {| home := "/home/u"; now := "20240101_120000";
                 makedirs_error := None;
                 connect_error := Some "401 Unauthorized";
                 microphone_error := None; stream_data := [];
                 stream_error := None; transcriber_close_error := None;
                 microphone_close_error := None; wait_in_time := true |}
              (RecordingThread_init (PStr "bad-key")) eq_refl eq_refl)
    as (_ & _ & _ & _ & Hsigs).
  exact Hsigs.
Defined.

(** ** Upload transcription: what is written, and when nothing is *)

Lemma format_utterances_from (l : list Utterance) (acc : string) :
  fold_left
    (fun formatted_text utterance =>
       formatted_text +:+ "Speaker " +:+ speaker utterance +:+ ": "
       +:+ utterance_text utterance +:+ nl +:+ nl)
    l acc
  = acc +:+ concat_strings (map speaker_block l).
Proof.
  revert acc. induction l as [|u l IH]; intros acc; simpl.
  - now rewrite append_empty_r.
  - rewrite IH. unfold speaker_block. now rewrite !append_assoc.
Qed.

Lemma format_utterances_blocks (l : list Utterance) :
  format_utterances l = concat_strings (map speaker_block l).
Proof. unfold format_utterances. apply format_utterances_from. Qed.

(** [upload_audio] when nothing fails. *)
Lemma upload_audio_success (env : Env) (media : AudioExtraction)
  (transcribe : string -> TranscriberConfig -> Res Transcript)
  (file_path dir content : string) (a : App) (t : Transcript) :
  validate_api_keys a = true ->
  file_path <> EmptyString ->
  output_dir a = PStr dir ->
  makedirs_error env = None ->
  (is_video_file file_path = true ->
   temp_makedirs_error media = None /\ export_error media = None) ->
  transcribe
    (if is_video_file file_path then temp_audio_file env dir else file_path)
    {| speaker_labels := multiple_speakers_cb a;
       language_code := selected_language_code (language_combo a) |} = Ok t ->
  (if multiple_speakers_cb a
   then option_map format_utterances (utterances t)
   else Some (transcript_text t)) = Some content ->
  let name :=
    if String.eqb (py_strip (name_entry a)) EmptyString
    then splitext0 (basename file_path) else py_strip (name_entry a) in
  let path := path_join (path_join dir name) "transcript.txt" in
  let r := upload_audio env media transcribe file_path a in
  current_output_file r = Some path
  /\ files r = <[path := content]> (files a)
  /\ transcript_display r = [content]
  /\ status_bar r
     = status_bar a
       ++ (if is_video_file file_path
           then ["Extracting audio from video..."] else [])
       ++ ["Transcribing media file...";
           "Transcription completed successfully"]
  /\ record_button_enabled r = true
  /\ upload_button_enabled r = true
  /\ summarize_button_enabled r = true.
Proof.
  intros Hkeys Hfile Hdir Hmk Hmedia Htr Hcontent name path r.
  subst name path r.
  rewrite (upload_audio_entry env media transcribe file_path dir a
             Hkeys Hfile Hdir Hmedia).
  destruct (is_video_file file_path).
  - destruct (upload_audio_transcribe_success env media transcribe file_path
                (Some (temp_audio_file env dir)) (temp_audio_file env dir)
                dir content
                (log_debug "Extracting audio from video file..."
                   (showMessage "Extracting audio from video..." a))
                t Hdir Hmk Htr Hcontent)
      as (H1 & H2 & H3 & H4 & H5 & H6 & H7).
    rewrite H1, H2, H3, H4, H5, H6, H7.
    cbn [status_bar files name_entry log_debug showMessage print
         set_status_bar set_console set_debug_display].
    rewrite <- app_assoc. repeat split.
  - destruct (upload_audio_transcribe_success env media transcribe file_path
                None file_path dir content a t Hdir Hmk Htr Hcontent)
      as (H1 & H2 & H3 & H4 & H5 & H6 & H7).
    rewrite H1, H2, H3, H4, H5, H6, H7. repeat split.
Qed.

(** X22. An upload replaces the transcript of its session: on success the
    file holds exactly what the service returned for the file sent to it -
    the file chosen, or for a video the audio extracted from it: for every
    list of utterances one block "Speaker s: text" and an empty line each,
    in order, when speaker detection is ticked, the plain text otherwise -
    whatever the file held before; the display shows the same text, the
    status bar announces the extraction for a video only, and the three
    buttons are enabled again.  With a blank session name the session is
    named after the file chosen, without directory and extension. *)
Theorem upload_audio_overwrites_transcript (env : Env) (media : AudioExtraction)
  (transcribe : string -> TranscriberConfig -> Res Transcript)
  (file_path dir : string) (a : App) (t : Transcript) (l : list Utterance) :
  validate_api_keys a = true ->
  file_path <> EmptyString ->
  output_dir a = PStr dir ->
  makedirs_error env = None ->
  (is_video_file file_path = true ->
   temp_makedirs_error media = None /\ export_error media = None) ->
  transcribe
    (if is_video_file file_path then temp_audio_file env dir else file_path)
    {| speaker_labels := multiple_speakers_cb a;
       language_code := selected_language_code (language_combo a) |} = Ok t ->
  (multiple_speakers_cb a = true -> utterances t = Some l) ->
  let content :=
    if multiple_speakers_cb a
    then concat_strings (map speaker_block l) else transcript_text t in
  let name :=
    if String.eqb (py_strip (name_entry a)) EmptyString
    then splitext0 (basename file_path) else py_strip (name_entry a) in
  let path := path_join (path_join dir name) "transcript.txt" in
  let r := upload_audio env media transcribe file_path a in
  current_output_file r = Some path
  /\ files r !! path = Some content
  /\ transcript_display r = [content]
  /\ status_bar r
     = status_bar a
       ++ (if is_video_file file_path
           then ["Extracting audio from video..."] else [])
       ++ ["Transcribing media file...";
           "Transcription completed successfully"]
  /\ record_button_enabled r = true
  /\ upload_button_enabled r = true
  /\ summarize_button_enabled r = true.
Proof.
  intros Hkeys Hfile Hdir Hmk Hmedia Htr Hutt content name path r.
  assert (Hcontent : (if multiple_speakers_cb a
                      then option_map format_utterances (utterances t)
                      else Some (transcript_text t)) = Some content).
  { subst content. destruct (multiple_speakers_cb a); [|reflexivity].
    rewrite (Hutt eq_refl). simpl. now rewrite format_utterances_blocks. }
  destruct (upload_audio_success env media transcribe file_path dir content
              a t Hkeys Hfile Hdir Hmk Hmedia Htr Hcontent)
    as (H1 & H2 & H3 & H4 & H5 & H6 & H7).
  fold name in H1, H2. fold path in H1, H2. fold r in H1, H2, H3, H4, H5, H6, H7.
  split; [exact H1|]. split; [rewrite H2; apply lookup_insert_eq|]. auto.
Qed.

Lemma upload_audio_overwrites_transcript_witness :
  files (upload_audio env0 media0 transcribe0 "/media/weekly call.v2.mp4"
           (set_files {["/out/weekly call.v2/transcript.txt" := "old text"]}
              (set_name_entry "  " app0)))
    !! "/out/weekly call.v2/transcript.txt"
  = Some "Hi Hello".
Proof.
  assert (Hfile : "/media/weekly call.v2.mp4" <> EmptyString) by discriminate.
  destruct (upload_audio_overwrites_transcript env0 media0 transcribe0
              "/media/weekly call.v2.mp4" "/out"
              (set_files {["/out/weekly call.v2/transcript.txt" := "old text"]}
                 (set_name_entry "  " app0))
              {| transcript_text := "Hi Hello";
                 utterances :=
                   Some [ {| speaker := "A"; utterance_text := "Hi" |};
                          {| speaker := "B"; utterance_text := "Hello" |} ] |}
              [ {| speaker := "A"; utterance_text := "Hi" |};
                {| speaker := "B"; utterance_text := "Hello" |} ]
              eq_refl Hfile eq_refl eq_refl (fun _ => conj eq_refl eq_refl)
              eq_refl (fun _ => eq_refl))
    as (_ & Hcontent & _).
  exact Hcontent.
Defined.





(** ** A whole session *)

Lemma lookup_snoc (l : list RecordingThread) (x : RecordingThread) :
  (l ++ [x]) !! List.length l = Some x.
Proof. now apply list_lookup_middle. Qed.

Lemma insert_snoc (l : list RecordingThread) (x y : RecordingThread) :
  <[List.length l := y]> (l ++ [x]) = l ++ [y].
Proof.
  rewrite insert_app_r_alt by lia. now rewrite Nat.sub_diag.
Qed.

Lemma running_snoc (l : list RecordingThread) (x : RecordingThread) :
  isRunning x = false ->
  List.length (filter (fun t => isRunning t = true) (l ++ [x]))
  = List.length (filter (fun t => isRunning t = true) l).
Proof.
  intros Hx. rewrite filter_app, length_app, filter_cons.
  destruct (decide (isRunning x = true)); [congruence|]. simpl. lia.
Qed.

(** The capture task of the handle connects and starts to stream. *)
Lemma capture_connects_streams (env : Env) (b : App)
  (l : list RecordingThread) (th : RecordingThread) :
  recording_thread b = Some (List.length l) ->
  threads b = l ++ [th] ->
  connect_error env = None ->
  microphone_error env = None ->
  capture_connects env b
  = set_pending (pending b ++ stream_signals env)
      (set_threads
         (l ++ [set_is_recording true
                  (set_microphone_stream
                     (Some {| mic_sample_rate := 44100 |})
                     (set_transcriber
                        (Some {| sample_rate := 44100;
                                 end_utterance_silence_threshold := 700 |})
                        th))])
         b).
Proof.
  intros Hrec Hth Hconn Hmic. unfold capture_connects.
  rewrite Hrec. cbv beta iota. rewrite Hth, lookup_snoc.
  unfold run_connect. rewrite Hconn, Hmic. cbv beta iota.
  now rewrite insert_snoc.
Qed.

(** [stop_recording] on a capture task that streams and ends in time. *)
Lemma stop_recording_graceful (env : Env) (b : App)
  (l : list RecordingThread) (th : RecordingThread)
  (tr : RealtimeTranscriber) (mic : MicrophoneStream) :
  recording_thread b = Some (List.length l) ->
  threads b = l ++ [th] ->
  isRunning th = true ->
  transcriber th = Some tr ->
  microphone_stream th = Some mic ->
  transcriber_close_error env = None ->
  microphone_close_error env = None ->
  wait_in_time env = true ->
  exists th_d,
    threads (stop_recording env b) = l ++ [th_d]
    /\ transcriber th_d = None /\ microphone_stream th_d = None
    /\ isRunning th_d = false
    /\ released th_d = released th ++ [Connection; Connection; Microphone]
    /\ recording_thread (stop_recording env b) = Some (List.length l)
    /\ pending (stop_recording env b)
       = pending b ++ [recording_stopped; finished]
    /\ current_output_file (stop_recording env b) = current_output_file b
    /\ files (stop_recording env b) = files b
    /\ transcript_display (stop_recording env b) = transcript_display b
    /\ status_bar (stop_recording env b)
       = status_bar b
         ++ ["Stopping recording (this may take a few seconds)...";
             "Recording stopped"].
Proof.
  intros Hrec Hth Hrun Htr Hmic Hclose Hmclose Hwait.
  assert (Hreq : requestStop env th
                 = (set_released (released th ++ [Connection])
                      (set_is_recording false th), None)).
  { unfold requestStop. cbn [transcriber set_is_recording].
    now rewrite Htr, Hclose. }
  assert (Hfin : run_finish env
                   (set_released (released th ++ [Connection])
                      (set_is_recording false th))
                 = (set_isRunning false
                      (set_microphone_stream None
                         (set_released
                            ((released th ++ [Connection]) ++ [Connection]
                             ++ [Microphone])
                            (set_transcriber None
                               (set_released
                                  ((released th ++ [Connection])
                                   ++ [Connection])
                                  (set_is_recording false
                                     (set_released
                                        (released th ++ [Connection])
                                        (set_is_recording false th))))))),
                    [recording_stopped; finished])).
  { unfold run_finish, cleanup.
    cbn [transcriber microphone_stream released set_is_recording
         set_released set_transcriber].
    rewrite Htr, Hclose. cbv beta iota.
    cbn [transcriber microphone_stream released set_is_recording
         set_released set_transcriber].
    rewrite Hmic, Hmclose. cbv beta iota.
    cbn [released set_released set_transcriber set_is_recording app].
    rewrite <- !app_assoc. reflexivity. }
  assert (Hstop : stop_recording env b
                  = update_ui_recording_stopped
                      (set_pending
                         (pending b ++ [recording_stopped; finished])
                         (set_threads
                            (l ++ [fst (run_finish env
                                     (set_released
                                        (released th ++ [Connection])
                                        (set_is_recording false th)))])
                            (log_debug "Stopping recording..."
                               (showMessage
                                  "Stopping recording (this may take a few seconds)..."
                                  (set_record_button_text "Please wait..."
                                     (set_record_button_enabled false b))))))).
  { unfold stop_recording. cbv zeta.
    cbn [recording_thread threads pending log_debug showMessage print
         set_record_button_text set_record_button_enabled set_status_bar
         set_console set_debug_display].
    rewrite Hrec. cbv beta iota. rewrite Hth, lookup_snoc, Hrun, Hreq, Hwait.
    cbv beta iota. rewrite Hfin. cbv beta iota.
    now rewrite insert_snoc. }
  rewrite Hstop, Hfin. cbn [fst].
  eexists. split; [reflexivity|].
  split; [reflexivity|]. split; [reflexivity|]. split; [reflexivity|].
  split.
  { cbn [released set_isRunning set_microphone_stream set_released].
    now rewrite <- !app_assoc. }
  split; [exact Hrec|]. split; [reflexivity|]. split; [reflexivity|].
  split; [reflexivity|]. split; [reflexivity|].
  cbn [status_bar update_ui_recording_stopped showMessage log_debug print
       set_status_bar set_console set_debug_display set_pending set_threads
       set_record_button_enabled set_record_button_text
       set_upload_button_enabled set_summarize_button_enabled].
  now rewrite <- app_assoc.
Qed.

(** The signals of the stream reach [handle_transcript] one by one. *)
Lemma process_events_transcripts (env : Env) (path : string)
  (events : list RealtimeTranscript) (rest : list Signal) (k : nat) (b : App) :
  pending b = map transcript_received events ++ rest ->
  current_output_file b = Some path ->
  exists b',
    process_events (List.length events + k) env b = process_events k env b'
    /\ pending b' = rest
    /\ current_output_file b' = Some path
    /\ file_text path b'
       = file_text path b +:+ concat_strings (displayed_texts events)
    /\ transcript_display b'
       = transcript_display b ++ displayed_texts events
    /\ status_bar b' = status_bar b
    /\ threads b' = threads b
    /\ recording_thread b' = recording_thread b
    /\ record_button_text b' = record_button_text b.
Proof.
  revert b. induction events as [|t events IH]; intros b Hpending Hpath.
  - exists b. simpl. rewrite append_empty_r, app_nil_r. repeat split; auto.
  - simpl in Hpending. cbn [List.length Nat.add process_events].
    rewrite Hpending. cbn [dispatch].
    destruct (handle_transcript_step t
                (set_pending (map transcript_received events ++ rest) b)
                path Hpath)
      as (b1 & Hstep & Hp1 & Hd1 & Hf1 & _ & Hs1 & Ht1 & Hr1 & Hb1 & Hq1).
    rewrite Hstep.
    destruct (IH b1 Hq1 Hp1)
      as (b2 & Hrun & Hq2 & Hp2 & Hf2 & Hd2 & Hs2 & Ht2 & Hr2 & Hb2).
    exists b2. split; [exact Hrun|]. split; [exact Hq2|].
    split; [exact Hp2|].
    rewrite (displayed_texts_cons t events), concat_strings_app.
    split; [rewrite Hf2, Hf1; unfold file_text; simpl;
            now rewrite append_assoc|].
    split; [rewrite Hd2, Hd1; simpl; now rewrite app_assoc|].
    simpl in Hs1, Ht1, Hr1, Hb1. repeat split; congruence.
Qed.


(** [start_recording] shows nothing in the transcript display. *)
Lemma start_recording_display (env : Env) (a : App) (dir : string) :
  validate_api_keys a = true ->
  output_dir a = PStr dir ->
  makedirs_error env = None ->
  transcript_display (start_recording env a) = transcript_display a.
Proof.
  intros Hkeys Hdir Hmk. unfold validate_api_keys in Hkeys.
  unfold start_recording, validate_api_keys. simpl.
  rewrite Hkeys, Hdir, Hmk. reflexivity.
Qed.

(** The two signals of a task that ends, delivered in order. *)
Lemma process_events_stop_signals (env : Env) (b : App) :
  pending b = [recording_stopped; finished] ->
  exists b',
    process_events 2 env b = Ok b'
    /\ files b' = files b
    /\ transcript_display b' = transcript_display b
    /\ recording_thread b' = None
    /\ pending b' = []
    /\ record_button_text b' = "Start Recording"
    /\ threads b' = threads b
    /\ status_bar b'
       = status_bar b ++ ["Recording stopped"; "Recording stopped"].
Proof.
  intros Hq.
  exists (handle_thread_finished
            (set_pending []
               (update_ui_recording_stopped (set_pending [finished] b)))).
  split.
  { cbn [process_events]. rewrite Hq. cbn [dispatch].
    cbn [pending set_pending update_ui_recording_stopped showMessage
         log_debug print set_status_bar set_console set_debug_display
         set_record_button_enabled set_record_button_text
         set_upload_button_enabled set_summarize_button_enabled].
    reflexivity. }
  unfold handle_thread_finished.
  cbn [recording_thread pending set_pending update_ui_recording_stopped
       showMessage log_debug print set_status_bar set_console
       set_debug_display set_record_button_enabled set_record_button_text
       set_upload_button_enabled set_summarize_button_enabled].
  destruct (recording_thread b) eqn:Hrc; simpl; rewrite <- app_assoc;
    repeat split; exact Hrc.
Qed.

(** After [start_recording], the capture task connects and streams. *)
Lemma session_started (env : Env) (a : App) (dir : string) :
  validate_api_keys a = true ->
  output_dir a = PStr dir ->
  makedirs_error env = None ->
  connect_error env = None ->
  microphone_error env = None ->
  stream_error env = None ->
  pending a = [] ->
  let name :=
    if String.eqb (py_strip (name_entry a)) EmptyString then now env
    else py_strip (name_entry a) in
  let path := path_join (path_join dir name) "transcript.txt" in
  let a2 := capture_connects env (start_recording env a) in
  exists th_s tr mic,
    threads a2 = threads a ++ [th_s]
    /\ isRunning th_s = true
    /\ transcriber th_s = Some tr /\ microphone_stream th_s = Some mic
    /\ released th_s = []
    /\ recording_thread a2 = Some (List.length (threads a))
    /\ pending a2 = map transcript_received (stream_data env)
    /\ current_output_file a2 = Some path
    /\ files a2 = files a
    /\ transcript_display a2 = transcript_display a
    /\ status_bar a2 = status_bar a ++ ["Initializing recording..."].
Proof.
  intros Hkeys Hdir Hmk Hconn Hmic Hserr Hpend name path a2.
  destruct (start_recording_success env a dir Hkeys Hdir Hmk)
    as (Hth & Hrec & Hfile & _ & _ & _ & Hq & Hfiles & Hstatus).
  pose proof (start_recording_display env a dir Hkeys Hdir Hmk) as Hdisp.
  fold name in Hfile. fold path in Hfile.
  subst a2.
  rewrite (capture_connects_streams env _ _ _ Hrec Hth Hconn Hmic).
  generalize dependent (start_recording env a).
  intros a1 Hth Hrec Hfile Hq Hfiles Hstatus Hdisp.
  do 3 eexists.
  cbn [threads pending recording_thread current_output_file files
       transcript_display status_bar set_pending set_threads].
  split; [reflexivity|]. split; [reflexivity|]. split; [reflexivity|].
  split; [reflexivity|].
  split; [reflexivity|].
  split; [exact Hrec|].
  split.
  { unfold stream_signals. rewrite Hserr, Hq, Hpend, app_nil_r.
    reflexivity. }
  split; [exact Hfile|]. split; [exact Hfiles|]. split; [exact Hdisp|].
  exact Hstatus.
Qed.

(** X24. A whole session, when nothing fails: [start_recording], the
    capture task connects and streams, [stop_recording], and the queued
    signals are delivered.  The transcript file has grown by the final
    events with text, in order; the controller is idle again, with no
    handle, an empty queue and as many tasks running as before; the task of
    the session holds neither connection nor microphone - the connection
    was closed twice, once by [requestStop] and once by [cleanup] - and the
    "stopped" notification was given three times. *)
Theorem session_lifecycle (env : Env) (a : App) (dir : string) :
  validate_api_keys a = true ->
  output_dir a = PStr dir ->
  makedirs_error env = None ->
  connect_error env = None ->
  microphone_error env = None ->
  stream_error env = None ->
  transcriber_close_error env = None ->
  microphone_close_error env = None ->
  wait_in_time env = true ->
  pending a = [] ->
  let name :=
    if String.eqb (py_strip (name_entry a)) EmptyString then now env
    else py_strip (name_entry a) in
  let path := path_join (path_join dir name) "transcript.txt" in
  exists a' th,
    process_events (List.length (stream_data env) + 2) env
      (stop_recording env (capture_connects env (start_recording env a)))
    = Ok a'
    /\ file_text path a'
       = file_text path a
         +:+ concat_strings (displayed_texts (stream_data env))
    /\ transcript_display a'
       = transcript_display a ++ displayed_texts (stream_data env)
    /\ recording_thread a' = None
    /\ pending a' = []
    /\ record_button_text a' = "Start Recording"
    /\ running_tasks a' = running_tasks a
    /\ threads a' = threads a ++ [th]
    /\ transcriber th = None /\ microphone_stream th = None
    /\ isRunning th = false
    /\ released th = [Connection; Connection; Microphone]
    /\ stopped_notifications a' = stopped_notifications a + 3.
Proof.
  intros Hkeys Hdir Hmk Hconn Hmic Hserr Hclose Hmclose Hwait Hpend name path.
  destruct (session_started env a dir Hkeys Hdir Hmk Hconn Hmic Hserr Hpend)
    as (th_s & tr & mic & Ht2 & Hrun_s & Htr_s & Hmic_s & Hrel_s & Hr2 & Hq2
        & Hp2 & Hf2 & Hd2 & Hs2).
  fold name in Hp2. fold path in Hp2.
  generalize dependent (capture_connects env (start_recording env a)).
  intros a2 Ht2 Hr2 Hq2 Hp2 Hf2 Hd2 Hs2.
  destruct (stop_recording_graceful env a2 (threads a) th_s tr mic
              Hr2 Ht2 Hrun_s Htr_s Hmic_s Hclose Hmclose Hwait)
    as (th_d & Ht3 & Htr_d & Hmic_d & Hrun_d & Hrel_d & Hr3 & Hq3 & Hp3
        & Hf3 & Hd3 & Hs3).
  rewrite Hq2 in Hq3. rewrite Hp2 in Hp3. rewrite Hf2 in Hf3.
  rewrite Hd2 in Hd3. rewrite Hs2 in Hs3. rewrite Hrel_s in Hrel_d.
  generalize dependent (stop_recording env a2).
  intros a3 Ht3 Hr3 Hq3 Hp3 Hf3 Hd3 Hs3.
  destruct (process_events_transcripts env path (stream_data env)
              [recording_stopped; finished] 2 a3 Hq3 Hp3)
    as (b & Hrun & Hqb & Hpb & Hfb & Hdb & Hsb & Htb & Hrb & _).
  destruct (process_events_stop_signals env b Hqb)
    as (a' & Hrun' & Hf & Hd & Hr & Hq' & Hb & Ht & Hs).
  exists a', th_d.
  split; [now rewrite Hrun|].
  split.
  { unfold file_text in *. now rewrite Hf, Hfb, Hf3. }
  split; [now rewrite Hd, Hdb, Hd3|].
  split; [exact Hr|]. split; [exact Hq'|]. split; [exact Hb|].
  split.
  { unfold running_tasks. rewrite Ht, Htb, Ht3. now apply running_snoc. }
  split; [now rewrite Ht, Htb, Ht3|].
  split; [exact Htr_d|]. split; [exact Hmic_d|]. split; [exact Hrun_d|].
  split; [exact Hrel_d|].
  unfold stopped_notifications. rewrite Hs, Hsb, Hs3.
  rewrite <- !app_assoc. cbn [app]. rewrite !filter_app, !length_app.
  vm_compute (List.length (filter _ (_ :: _))). lia.
Qed.

Lemma session_lifecycle_witness :
  exists a',
    process_events 5 env_talk
      (stop_recording env_talk
         (capture_connects env_talk (start_recording env_talk app0)))
    = Ok a'
    /\ file_text "/out/standup/transcript.txt" a' = "hello" +:+ nl
    /\ recording_thread a' = None
    /\ running_tasks a' = 0.
Proof.
  destruct (session_lifecycle env_talk app0 "/out"
              eq_refl eq_refl eq_refl eq_refl eq_refl eq_refl eq_refl eq_refl
              eq_refl eq_refl)
    as (a' & th & Hrun & Hfile & _ & Hrec & _ & _ & Htasks & _).
  exists a'. split; [exact Hrun|]. split; [exact Hfile|].
  split; [exact Hrec | exact Htasks].
Defined.

(** ** The language sent with an upload *)

Lemma after_last_paren_none (y : string) :
  py_contains "(" y = false -> after_last_paren y = y.
Proof.
  intros H. destruct y as [|c y]; [reflexivity|].
  cbn [after_last_paren]. now rewrite H.
Qed.

Lemma after_last_paren_append (x y : string) :
  py_contains "(" y = false ->
  after_last_paren (x +:+ String "(" y) = y.
Proof.
  intros H. induction x as [|c x IH].
  - rewrite append_empty_l. cbn [after_last_paren py_contains py_startswith].
    change (Ascii.eqb "(" "(") with true. simpl.
    now apply after_last_paren_none.
  - rewrite append_cons. cbn [after_last_paren].
    assert (Hc : py_contains "(" (String c (x +:+ String "(" y)) = true).
    { rewrite <- append_cons. apply py_contains_append_r.
      cbn [py_contains py_startswith].
      change (Ascii.eqb "(" "(") with true. reflexivity. }
    now rewrite Hc.
Qed.

Lemma py_contains_char_cons (p c : ascii) (s : string) :
  py_contains (String p EmptyString) (String c s)
  = Ascii.eqb p c || py_contains (String p EmptyString) s.
Proof.
  cbn [py_contains py_startswith]. destruct s; now rewrite andb_true_r.
Qed.

Lemma py_contains_char_append (p : ascii) (x y : string) :
  py_contains (String p EmptyString) x = false ->
  py_contains (String p EmptyString) y = false ->
  py_contains (String p EmptyString) (x +:+ y) = false.
Proof.
  intros Hx Hy. induction x as [|c x IH]; [exact Hy|].
  rewrite append_cons. rewrite py_contains_char_cons in *.
  apply orb_false_elim in Hx as [Hc Hx]. now rewrite Hc, IH.
Qed.

Lemma rstrip_paren_code (code : string) :
  py_contains ")" code = false -> rstrip_paren (code +:+ ")") = code.
Proof.
  induction code as [|c code IH]; intros H; [reflexivity|].
  rewrite py_contains_char_cons in H.
  apply orb_false_elim in H as [Hc Hcode].
  rewrite Ascii.eqb_sym in Hc.
  rewrite append_cons. cbn [rstrip_paren]. rewrite (IH Hcode), Hc.
  destruct code; reflexivity.
Qed.

Lemma lstrip_paren_code (code : string) :
  py_contains ")" code = false ->
  rstrip_paren (lstrip_paren (code +:+ ")")) = code.
Proof.
  intros H. destruct code as [|c code]; [reflexivity|].
  pose proof H as H'. rewrite py_contains_char_cons in H'.
  apply orb_false_elim in H' as [Hc _]. rewrite Ascii.eqb_sym in Hc.
  rewrite append_cons. cbn [lstrip_paren]. rewrite Hc.
  rewrite <- append_cons. now apply rstrip_paren_code.
Qed.

(** Lines 990-1044 consult the service once, at the file and configuration
    they are given, and only when the output directory is a string. *)
Lemma upload_audio_transcribe_ext (env : Env) (media : AudioExtraction)
  (transcribe1 transcribe2 : string -> TranscriberConfig -> Res Transcript)
  (file_path : string) (temp_audio_path : option string)
  (file_to_transcribe : string) (b : App) :
  (forall dir,
     output_dir b = PStr dir ->
     transcribe1 file_to_transcribe
       {| speaker_labels := multiple_speakers_cb b;
          language_code := selected_language_code (language_combo b) |}
     = transcribe2 file_to_transcribe
         {| speaker_labels := multiple_speakers_cb b;
            language_code := selected_language_code (language_combo b) |}) ->
  upload_audio_transcribe env media transcribe1 file_path temp_audio_path
    file_to_transcribe b
  = upload_audio_transcribe env media transcribe2 file_path temp_audio_path
      file_to_transcribe b.
Proof.
  intros Hagree. unfold upload_audio_transcribe. cbv zeta.
  destruct (String.eqb (py_strip (name_entry b)) EmptyString); simpl;
    (destruct (output_dir b) as [[dir|l]|]; simpl; try reflexivity;
     destruct (makedirs_error env); simpl; try reflexivity;
     rewrite (Hagree dir eq_refl); reflexivity).
Qed.

(** X25. For an entry of the language box of the form "name (code)", the
    upload asks the speech service for [code], the text between the last
    pair of parentheses, together with the diarization flag: the service
    is consulted only at that configuration and at the file sent - the
    file chosen, or for a video the audio extracted from it -, so two
    services that agree there give the same upload. *)
Theorem upload_audio_language_code (env : Env) (media : AudioExtraction)
  (transcribe1 transcribe2 : string -> TranscriberConfig -> Res Transcript)
  (file_path label code : string) (a : App) :
  py_contains "(" code = false ->
  py_contains ")" code = false ->
  language_combo a = label +:+ " (" +:+ code +:+ ")" ->
  (forall dir,
     output_dir a = PStr dir ->
     transcribe1
       (if is_video_file file_path then temp_audio_file env dir
        else file_path)
       {| speaker_labels := multiple_speakers_cb a; language_code := code |}
     = transcribe2
         (if is_video_file file_path then temp_audio_file env dir
          else file_path)
         {| speaker_labels := multiple_speakers_cb a;
            language_code := code |}) ->
  selected_language_code (language_combo a) = code
  /\ upload_audio env media transcribe1 file_path a
     = upload_audio env media transcribe2 file_path a.
Proof.
  intros Hopen Hclose Hlang Hagree.
  assert (Hcode : selected_language_code (language_combo a) = code).
  { rewrite Hlang. unfold selected_language_code.
    change (label +:+ " (" +:+ code +:+ ")")
      with (label +:+ String " " (String "(" (code +:+ ")"))).
    replace (label +:+ String " " (String "(" (code +:+ ")")))
      with ((label +:+ " ") +:+ String "(" (code +:+ ")"))
      by (now rewrite append_assoc).
    rewrite after_last_paren_append
      by (now apply py_contains_char_append).
    now apply lstrip_paren_code. }
  split; [exact Hcode|].
  rewrite <- Hcode in Hagree.
  unfold upload_audio.
  destruct (negb (validate_api_keys a)); [reflexivity|].
  destruct (String.eqb file_path EmptyString); [reflexivity|].
  destruct (is_video_file file_path).
  - cbv zeta.
    cbn [output_dir log_debug showMessage print set_status_bar set_console
         set_debug_display].
    destruct (output_dir a) as [[dir|l]|] eqn:Hdir; try reflexivity.
    destruct (temp_makedirs_error media); [reflexivity|].
    destruct (export_error media); [reflexivity|].
    apply upload_audio_transcribe_ext. intros dir' _.
    exact (Hagree dir eq_refl).
  - apply upload_audio_transcribe_ext. exact Hagree.
Qed.

Lemma upload_audio_language_code_witness :
  selected_language_code (language_combo app_french) = "fr"
  /\ upload_audio env0 media0 transcribe0 "/media/call.mp4" app_french
     = upload_audio env0 media0
         (fun file config =>
            if String.eqb (language_code config) "fr"
            then transcribe0 file config else Raise "unsupported language")
         "/media/call.mp4" app_french.
Proof.
  exact (upload_audio_language_code env0 media0 transcribe0
           (fun file config =>
              if String.eqb (language_code config) "fr"
              then transcribe0 file config else Raise "unsupported language")
           "/media/call.mp4" "French" "fr" app_french
           eq_refl eq_refl eq_refl (fun _ _ => eq_refl)).
Defined.

(** ** An error of the capture task *)

(** When closing the connection does not raise, the task of the handle is
    not running after [stop_recording]. *)
Lemma stop_recording_handle_stopped (env : Env) (b : App) (i : nat)
  (th : RecordingThread) :
  transcriber_close_error env = None ->
  recording_thread b = Some i ->
  threads b !! i = Some th ->
  exists th',
    threads (stop_recording env b) !! i = Some th' /\ isRunning th' = false.
Proof.
  intros Hclose Hi Hth.
  assert (Hlt : i < List.length (threads b))
    by (apply lookup_lt_is_Some; eauto).
  unfold stop_recording. simpl. rewrite Hi, Hth.
  destruct (isRunning th) eqn:Hrun; simpl.
  - destruct (requestStop_without_error env th Hclose) as [Hnone _].
    destruct (requestStop env th) as [th1 o]. simpl in Hnone. subst o.
    destruct (wait_in_time env); simpl.
    + destruct (run_finish_ends env th1) as (Hr & _).
      destruct (run_finish env th1) as [th2 sigs]. simpl in *.
      exists th2. split; [now apply list_lookup_insert_eq | exact Hr].
    + eexists. split; [now apply list_lookup_insert_eq | reflexivity].
  - exists th. split; [exact Hth | exact Hrun].
Qed.

(** [stop_recording] leaves the record button ready for a new session. *)
Lemma stop_recording_controls (env : Env) (b : App) :
  record_button_text (stop_recording env b) = "Start Recording"
  /\ record_button_enabled (stop_recording env b) = true.
Proof. unfold stop_recording. split; reflexivity. Qed.

(** X26. An error reported by the capture task is shown and stops the
    session: when its signal is delivered, the message appears in the
    status bar before the "stopped" notification, the controls are idle
    again, and - provided closing the connection does not raise - the task
    the handle refers to is no longer running. *)
Theorem handle_recording_error_stops_session (env : Env) (msg : string)
  (a : App) (i : nat) (th : RecordingThread) :
  transcriber_close_error env = None ->
  recording_thread a = Some i ->
  threads a !! i = Some th ->
  exists a' th',
    dispatch env (error_occurred msg) a = Ok a'
    /\ threads a' !! i = Some th'
    /\ isRunning th' = false
    /\ record_button_text a' = "Start Recording"
    /\ record_button_enabled a' = true
    /\ (exists shown,
          status_bar a'
          = status_bar a
            ++ ["Error: " +:+ msg;
                "Stopping recording (this may take a few seconds)..."]
            ++ shown ++ ["Recording stopped"]).
Proof.
  intros Hclose Hi Hth.
  cbn [dispatch]. unfold handle_recording_error. cbv zeta.
  destruct (stop_recording_handle_stopped env
              (showMessage ("Error: " +:+ msg)
                 (log_debug ("Recording error: " +:+ msg) a))
              i th Hclose Hi Hth) as (th' & Hth' & Hrun').
  destruct (stop_recording_controls env
              (showMessage ("Error: " +:+ msg)
                 (log_debug ("Recording error: " +:+ msg) a)))
    as (Htext & Henabled).
  destruct (stop_recording_status env
              (showMessage ("Error: " +:+ msg)
                 (log_debug ("Recording error: " +:+ msg) a)))
    as (errors & Hs & _).
  eexists. exists th'.
  split; [reflexivity|]. split; [exact Hth'|]. split; [exact Hrun'|].
  split; [exact Htext|]. split; [exact Henabled|].
  exists errors. rewrite Hs.
  cbn [status_bar showMessage log_debug print set_status_bar set_console
       set_debug_display].
  now rewrite <- app_assoc.
Qed.

Lemma handle_recording_error_stops_session_witness :
  exists a',
    dispatch env0 (error_occurred "connection lost") recording0 = Ok a'
    /\ running_tasks a' = 0.
Proof.
  assert (H : exists th, threads recording0 !! 0 = Some th).
  { eexists. vm_compute. reflexivity. }
  destruct H as (th & Hth).
  destruct (handle_recording_error_stops_session env0 "connection lost"
              recording0 0 th eq_refl eq_refl Hth)
    as (a' & th' & Hrun & _).
  exists a'. split; [exact Hrun|].
  injection Hrun as <-. vm_compute. reflexivity.
Defined.
